(** * piledbox: patch table, sACN ingest and render worker

    A shallow embedding of the rendering pipeline of piledbox
    (fixture_definitions.py, config_models.py, fixture_manager.py,
    universedata.py, sacn_manager.py, gpio_rpi.py, gpio_process.py) and the
    properties of it that the design document states.

    Conventions.
    - Python [int]s are [Z]; loop counters that start at 0 and only go up
      ([px], [pxch], [offsetInQueue], [strip_queue_pos]) are [nat].
    - A raised exception is a value of [exn]; a method that mutates [self]
      and may raise returns the state it leaves behind together with the
      outcome.
    - Insertion-ordered dicts whose iteration order is observable are
      association lists ([PyDict]); dicts that are only looked up are [gmap]s.
    - Log lines and exception texts are constructors carrying the values the
      f-string interpolates. *)

From Stdlib Require Import ZArith Ascii String.
From stdpp Require Import gmap strings list fin_maps sorting.

Local Open Scope Z_scope.

(** ** gpio_rpi.py and config_models.py: the enumerations *)

Inductive GPIO : Set :=
  | gpio1 | gpio2 | gpio3 | gpio4 | gpio5 | gpio6 | gpio7 | gpio8 | gpio9
  | gpio10 | gpio11 | gpio12 | gpio13 | gpio14 | gpio15 | gpio16 | gpio17
  | gpio18 | gpio19 | gpio20 | gpio21 | gpio22 | gpio23 | gpio24 | gpio25
  | gpio26 | gpio27.

#[global] Instance GPIO_eq_dec : EqDecision GPIO.
Proof. solve_decision. Defined.

Inductive OutputLabel : Set := OUT1 | OUT2 | OUT3 | OUT4.

#[global] Instance OutputLabel_eq_dec : EqDecision OutputLabel.
Proof. solve_decision. Defined.

(** ** Exceptions and the error monad *)

(** One line of a log or of an exception text. *)
Inductive Message : Type :=
  | PinUsedOnMultipleOutputs (pin : GPIO)
  | LabelUsedOnMultipleStrips (out : OutputLabel) (label : string)
  | DoesNotFitUniverse (out : OutputLabel) (label : string)
  | NotAValidFixtureType (value : string)
  | InvalidDmxConfiguration
  | ValidDmxConfiguration
  | OutOfRange (channel : string) (value : Z)
  | OutputsNotInFixtureManager (pins : list GPIO)
  | WorkerActive
  | WorkerExiting
  | SigtermReceived
  | FailedToInitGpioLogger
  | ReceivingNewSource (universe priority : Z) (name : string)
  | UpdatedSource (universe priority : Z) (name : string)
  | FailedToFreeSpace
  | FailedToWriteFullBuffer
  | NoExistingRecord (universe : Z).

Inductive exn : Type :=
  | ValueError (text : list Message)
  | IndexError (text : list Message)
  | KeyError.

Inductive result (A : Type) : Type :=
  | Ok (a : A)
  | Raise (e : exn).
Arguments Ok {A} a.
Arguments Raise {A} e.

Definition bind {A B} (m : result A) (k : A -> result B) : result B :=
  match m with
  | Ok a => k a
  | Raise e => Raise e
  end.

Notation "'let!' x ':=' m 'in' k" := (bind m (fun x => k))
  (at level 10, x name, m at level 100, k at level 200,
   format "'[v' 'let!'  x  ':='  m  'in' '/' k ']'").

(** [for x in xs: acc = body(acc, x)], stopping at the first exception. *)
Fixpoint for_each {A S} (xs : list A) (body : S -> A -> result S) (s : S)
  : result S :=
  match xs with
  | [] => Ok s
  | x :: xs' => let! s' := body s x in for_each xs' body s'
  end.

(** ** Insertion-ordered dictionaries *)

Module PyDict.
Section Dict.
Context {K V : Type} `{EqDecision K}.

Definition t := list (K * V).

Definition keys (d : t) : list K := fst <$> d.

Fixpoint get (d : t) (k : K) : option V :=
  match d with
  | [] => None
  | (k', v) :: d' => if decide (k' = k) then Some v else get d' k
  end.

(** [d[k] = v]: an existing key keeps its place, a new one goes last. *)
Fixpoint set (d : t) (k : K) (v : V) : t :=
  match d with
  | [] => [(k, v)]
  | (k', v') :: d' =>
      if decide (k' = k) then (k, v) :: d' else (k', v') :: set d' k v
  end.

Definition contains (d : t) (k : K) : bool := bool_decide (is_Some (get d k)).
End Dict.
Arguments t : clear implicits.
End PyDict.

(** ** fixture_definitions.py *)

Definition SACN_UNI_MAX : Z := 63999.
Definition DMX_UNI_SIZE : Z := 512.

Inductive FixtureChannelName : Set := RED | GREEN | BLUE | WHITE.

Module ChannelDepth.
Inductive t : Set := D8 | D16.
Definition value (d : t) : Z := match d with D8 => 1 | D16 => 2 end.
Definition bitCount (d : t) : Z := 8 * value d.
Definition byteCount (d : t) : Z := value d.
End ChannelDepth.

Module FixtureChannel.
Inductive t : Set := R8 | G8 | B8 | W8 | R16 | G16 | B16 | W16.

Definition label (c : t) : FixtureChannelName :=
  match c with
  | R8 | R16 => RED
  | G8 | G16 => GREEN
  | B8 | B16 => BLUE
  | W8 | W16 => WHITE
  end.

Definition default_value (c : t) : Z := 0.

Definition depth (c : t) : ChannelDepth.t :=
  match c with
  | R8 | G8 | B8 | W8 => ChannelDepth.D8
  | R16 | G16 | B16 | W16 => ChannelDepth.D16
  end.

Definition max_value (c : t) : Z := 2 ^ ChannelDepth.bitCount (depth c) - 1.
End FixtureChannel.

Module Fixture.
Inductive t : Set := PX_RGB_8 | PX_RGB_16 | PX_RGBW_8 | PX_RGBW_16.

#[global] Instance eq_dec : EqDecision t.
Proof. solve_decision. Defined.

(** Members in definition order, as [for item in Fixture] visits them. *)
Definition members : list t := [PX_RGB_8; PX_RGB_16; PX_RGBW_8; PX_RGBW_16].

Definition label (f : t) : string :=
  match f with
  | PX_RGB_8 => "rgb8"
  | PX_RGB_16 => "rgb16"
  | PX_RGBW_8 => "rgbw8"
  | PX_RGBW_16 => "rgbw16"
  end.

Definition channels (f : t) : list FixtureChannel.t :=
  match f with
  | PX_RGB_8 => [FixtureChannel.R8; FixtureChannel.G8; FixtureChannel.B8]
  | PX_RGB_16 => [FixtureChannel.R16; FixtureChannel.G16; FixtureChannel.B16]
  | PX_RGBW_8 =>
      [FixtureChannel.R8; FixtureChannel.G8; FixtureChannel.B8;
       FixtureChannel.W8]
  | PX_RGBW_16 =>
      [FixtureChannel.R16; FixtureChannel.G16; FixtureChannel.B16;
       FixtureChannel.W16]
  end.

Definition channel_count (f : t) : nat := length (channels f).

(** [offsets.append(current_offset); current_offset += byteCount]. *)
Fixpoint offsets_from (current_offset : Z) (chs : list FixtureChannel.t)
  : list Z :=
  match chs with
  | [] => []
  | ch :: chs' =>
      current_offset
      :: offsets_from
           (current_offset + ChannelDepth.byteCount (FixtureChannel.depth ch))
           chs'
  end.

Definition channels_offset (f : t) : list Z := offsets_from 0 (channels f).

Definition initial (n : FixtureChannelName) : string :=
  match n with RED => "R" | GREEN => "G" | BLUE => "B" | WHITE => "W" end.

Definition channel_order (f : t) : string :=
  foldr (fun ch acc => initial (FixtureChannel.label ch) +:+ acc) ""
    (channels f).

Definition profile_size (f : t) : Z :=
  foldr (fun ch acc => ChannelDepth.byteCount (FixtureChannel.depth ch) + acc)
    0 (channels f).

Fixpoint find_label (items : list t) (value : string) : result t :=
  match items with
  | [] => Raise (ValueError [NotAValidFixtureType value])
  | item :: items' =>
      if decide (label item = value) then Ok item
      else find_label items' value
  end.

Definition from_string (value : string) : result t := find_label members value.

Definition getFixtureNames : list string := label <$> members.
End Fixture.

Module FixturePatchInfo.
Record t : Type := mk {
  label : string;
  pixel_count : Z;
  universe : Z;
  start_channel : Z;
  output : GPIO;
  pos_in_out_queue : nat;
  pixel_type : string;
  end_channel : Z
}.

(** The declared field constraints ([ge], [le]); [None] stands for the
    model's validation error. *)
Definition validated (info : t) : option t :=
  if bool_decide
       (1 <= pixel_count info
        /\ 1 <= universe info <= SACN_UNI_MAX
        /\ 1 <= start_channel info <= DMX_UNI_SIZE
        /\ 1 <= end_channel info <= DMX_UNI_SIZE)
  then Some info else None.
End FixturePatchInfo.

Module FixturePatch.
Record t : Type := mk {
  label : string;
  pixel_type : Fixture.t;
  pixel_count : Z;
  universe : Z;
  start_channel : Z;
  output : GPIO;
  pos_in_out_queue : nat
}.

Definition end_channel (self : t) : Z :=
  start_channel self + pixel_count self * Fixture.profile_size (pixel_type self)
  - 1.

Definition toPatchInfo (self : t) : option FixturePatchInfo.t :=
  FixturePatchInfo.validated
    (FixturePatchInfo.mk (label self) (pixel_count self) (universe self)
       (start_channel self) (output self) (pos_in_out_queue self)
       (Fixture.label (pixel_type self)) (end_channel self)).
End FixturePatch.

(** ** config_models.py *)

Module LedStrip.
Record t : Type := mk {
  label : string;
  pixel_count : Z;
  universe : Z;
  start_channel : Z
}.

(** The declared field constraints of a strip. *)
Definition fields_ok (strip : t) : Prop :=
  1 <= pixel_count strip <= 170
  /\ 1 <= universe strip <= SACN_UNI_MAX
  /\ 1 <= start_channel strip <= DMX_UNI_SIZE.
End LedStrip.

Module PinConfig.
Record t : Type := mk {
  gpio : GPIO;
  pixel_type : string;
  strips : list LedStrip.t
}.

(** The [pixel_type] field validator. *)
Definition validate_fixture_type (value : string) : bool :=
  bool_decide (value ∈ Fixture.getFixtureNames).
End PinConfig.

Module FullConfig.
Record t : Type := mk {
  outputs : PyDict.t OutputLabel PinConfig.t
}.
End FullConfig.

(** ** fixture_manager.py *)

Module FixtureManager.
Record t : Type := mk {
  _by_out : PyDict.t GPIO (list FixturePatch.t);
  _by_uni : gmap Z (list FixturePatch.t)
}.

(** The locals of [_validate_cfg] that its loops update. *)
Record vstate : Type := mk_vstate {
  tmp_valid : bool;
  declared_gpio : list GPIO;
  declared_labels : list string;
  logmessage : list Message
}.

Definition validate_strip (out : OutputLabel) (pin : PinConfig.t)
    (s : vstate) (strip : LedStrip.t) : result vstate :=
  let s1 :=
    if bool_decide (LedStrip.label strip ∈ declared_labels s) then
      mk_vstate false (declared_gpio s) (declared_labels s)
        (logmessage s ++ [LabelUsedOnMultipleStrips out (LedStrip.label strip)])
    else
      mk_vstate (tmp_valid s) (declared_gpio s)
        (declared_labels s ++ [LedStrip.label strip]) (logmessage s) in
  let! pixel_type := Fixture.from_string (PinConfig.pixel_type pin) in
  let profile_size := Fixture.profile_size pixel_type in
  let end_channel :=
    LedStrip.start_channel strip - 1 + LedStrip.pixel_count strip * profile_size in
  if bool_decide (end_channel > DMX_UNI_SIZE) then
    Ok (mk_vstate false (declared_gpio s1) (declared_labels s1)
          (logmessage s1 ++ [DoesNotFitUniverse out (LedStrip.label strip)]))
  else Ok s1.

(** Body of [for out in declared_outputs]; [cfg[out]] is the value stored
    under the key being visited. *)
Definition validate_output (s : vstate) (item : OutputLabel * PinConfig.t)
  : result vstate :=
  let '(out, pin) := item in
  let declared_strips := PinConfig.strips pin in
  let s1 :=
    if bool_decide (PinConfig.gpio pin ∈ declared_gpio s) then
      mk_vstate false (declared_gpio s) (declared_labels s)
        (logmessage s ++ [PinUsedOnMultipleOutputs (PinConfig.gpio pin)])
    else
      mk_vstate (tmp_valid s) (declared_gpio s ++ [PinConfig.gpio pin])
        (declared_labels s) (logmessage s) in
  for_each declared_strips (validate_strip out pin) s1.

(** Returns the lines logged and either nothing or the exception raised. *)
Definition _validate_cfg (fullCfg : FullConfig.t) : list Message * result unit :=
  let cfg := FullConfig.outputs fullCfg in
  match for_each cfg validate_output (mk_vstate true [] [] []) with
  | Raise e => ([], Raise e)
  | Ok s =>
      if negb (tmp_valid s) then
        ([InvalidDmxConfiguration], Raise (ValueError (logmessage s)))
      else ([ValidDmxConfiguration], Ok tt)
  end.

(** One comparison of the bubble sort: [if l[i] > l[i+1]: swap]. The loops
    only call it with [i + 1 < len(l)], so both lookups succeed. *)
Definition swap_if_greater (l : list FixturePatch.t) (i : nat)
  : list FixturePatch.t :=
  match l !! i, l !! S i with
  | Some tmp1, Some tmp2 =>
      if bool_decide
           (FixturePatch.start_channel tmp1 > FixturePatch.start_channel tmp2)
      then <[S i := tmp1]> (<[i := tmp2]> l)
      else l
  | _, _ => l
  end.

(** [for i in range(len(l) - 1)]. *)
Definition bubble_pass (l : list FixturePatch.t) : list FixturePatch.t :=
  foldl swap_if_greater l (seq 0 (length l - 1)).

(** [for k in range(len(l) - 1)]. *)
Definition bubblesort (l : list FixturePatch.t) : list FixturePatch.t :=
  foldl (fun acc _ => bubble_pass acc) l (seq 0 (length l - 1)).

(** The locals and fields the patching loops update. *)
Record pstate : Type := mk_pstate {
  by_out : PyDict.t GPIO (list FixturePatch.t);
  by_uni : gmap Z (list FixturePatch.t);
  strip_queue_pos : nat
}.

Definition patch_strip (pin : PinConfig.t) (s : pstate) (strip : LedStrip.t)
  : result pstate :=
  let! pixel_type := Fixture.from_string (PinConfig.pixel_type pin) in
  let new_patch :=
    FixturePatch.mk (LedStrip.label strip) pixel_type
      (LedStrip.pixel_count strip) (LedStrip.universe strip)
      (LedStrip.start_channel strip) (PinConfig.gpio pin) (strip_queue_pos s) in
  match PyDict.get (by_out s) (PinConfig.gpio pin) with
  | None => Raise KeyError
  | Some queue =>
      let by_out' := PyDict.set (by_out s) (PinConfig.gpio pin) (queue ++ [new_patch]) in
      let by_uni1 :=
        match by_uni s !! LedStrip.universe strip with
        | None => <[LedStrip.universe strip := []]> (by_uni s)
        | Some _ => by_uni s
        end in
      let by_uni' :=
        <[LedStrip.universe strip :=
            default [] (by_uni1 !! LedStrip.universe strip) ++ [new_patch]]>
          by_uni1 in
      Ok (mk_pstate by_out' by_uni' (S (strip_queue_pos s)))
  end.

Definition patch_output (s : pstate) (item : OutputLabel * PinConfig.t)
  : result pstate :=
  let '(out, pin) := item in
  let declared_strips := PinConfig.strips pin in
  let s1 := mk_pstate (PyDict.set (by_out s) (PinConfig.gpio pin) []) (by_uni s) 0 in
  for_each declared_strips (patch_strip pin) s1.

(** Returns the object as the call leaves it, the lines logged, and the
    outcome. *)
Definition _patch_fixtures (self : t) (fullCfg : FullConfig.t)
  : t * list Message * result unit :=
  match _validate_cfg fullCfg with
  | (lines, Raise e) => (self, lines, Raise e)
  | (lines, Ok _) =>
      let cfg := FullConfig.outputs fullCfg in
      match for_each cfg patch_output (mk_pstate [] ∅ 0) with
      | Raise e => (mk [] ∅, lines, Raise e)
      | Ok s => (mk (by_out s) (bubblesort <$> by_uni s), lines, Ok tt)
      end
  end.

(** [FixtureManager(cfg)]: the new object, or the exception. *)
Definition __init__ (cfg : FullConfig.t) : list Message * result t :=
  match _patch_fixtures (mk [] ∅) cfg with
  | (self, lines, Ok _) => (lines, Ok self)
  | (_, lines, Raise e) => (lines, Raise e)
  end.

Definition get_fixtures_all (self : t) : PyDict.t GPIO (list FixturePatch.t) :=
  _by_out self.

Definition get_fixtures_by_uni (self : t) (universe : Z) : list FixturePatch.t :=
  match _by_uni self !! universe with
  | Some l => l
  | None => []
  end.

Definition get_fixtures_by_out (self : t) (output : GPIO) : list FixturePatch.t :=
  match PyDict.get (_by_out self) output with
  | Some l => l
  | None => []
  end.

Definition get_fixtures_by_out_uni (self : t) (output : GPIO) (universe : Z)
  : list FixturePatch.t :=
  match PyDict.get (_by_out self) output with
  | Some l => filter (fun patch => FixturePatch.universe patch = universe) l
  | None => []
  end.
End FixtureManager.

(** ** misc.py and the standard-library pieces the managers lean on *)

Definition WORKER_LED_REFRESH_RATE : Z := 40.

(** [datetime.timedelta] and [datetime.datetime] both have microsecond
    resolution: a duration is a count of microseconds, an instant is a count
    of microseconds since a fixed origin. *)
Module timedelta.
(** [_divide_and_round(a, b)] of the datetime module, for [b > 0]: the
    nearest integer to [a / b], ties going to the even one. *)
Definition divide_and_round (a b : Z) : Z :=
  let q := a `div` b in
  let r := 2 * (a `mod` b) in
  if bool_decide (r > b) || (bool_decide (r = b) && bool_decide (q `mod` 2 = 1))
  then q + 1 else q.

(** [timedelta(microseconds=n / d)] for integers [n], [d]. *)
Definition of_microseconds_ratio (n d : Z) : Z := divide_and_round n d.

(** [delta * f] for the float [f = num / den] ([f.as_integer_ratio()]). *)
Definition mul_float (delta : Z) (num den : Z) : Z :=
  divide_and_round (delta * num) den.

(** [(0.9).as_integer_ratio()]. *)
Definition ratio_0_9 : Z * Z := (8106479329266893, 9007199254740992).
End timedelta.

(** [multiprocessing.Queue(maxsize)] by its documented interface: a bounded
    FIFO shared with other processes. *)
Module Queue.
Section Queue.
Context {A : Type}.

Record t : Type := mk {
  maxsize : nat;
  items : list A;
  closed : bool
}.

Definition full (q : t) : bool := bool_decide (maxsize q ≤ length (items q))%nat.

Inductive put_result : Type :=
  | PutDone (q : t)
  | PutValueError
  | PutBlocks.

(** [q.put(x)]: a closed queue raises [ValueError]; a full one makes the
    caller wait. *)
Definition put (q : t) (x : A) : put_result :=
  if closed q then PutValueError
  else if full q then PutBlocks
  else PutDone (mk (maxsize q) (items q ++ [x]) (closed q)).

Inductive get_result : Type :=
  | GetItem (x : A) (q : t)
  | GetValueError
  | GetEmpty.

(** [q.get(False)]: the oldest entry if it can be read at once, [Empty]
    otherwise. [items] are the entries [full()] counts. [put] only hands an
    entry to the queue's feeder thread, which writes it to the pipe later,
    and [get] needs the read lock, which another reader may hold; so
    [get(False)] can raise [Empty] on a queue that holds entries.
    [readable] tells whether the oldest entry can be read now. *)
Definition get_nowait (q : t) (readable : bool) : get_result :=
  if closed q then GetValueError
  else match items q with
       | [] => GetEmpty
       | x :: rest =>
           if readable then GetItem x (mk (maxsize q) rest (closed q))
           else GetEmpty
       end.

Definition close (q : t) : t := mk (maxsize q) (items q) true.

(** What another process may do to the queue between two calls of this
    one: the consumer takes the oldest entry, or some other writer adds
    one (which only goes through while there is room). *)
Inductive action : Type :=
  | ConsumerGet
  | OtherPut (x : A).

Definition act (q : t) (a : action) : t :=
  match a with
  | ConsumerGet => mk (maxsize q) (tail (items q)) (closed q)
  | OtherPut x =>
      if full q then q else mk (maxsize q) (items q ++ [x]) (closed q)
  end.

Definition interfere (q : t) (acts : list action) : t := foldl act q acts.

End Queue.
Arguments t : clear implicits.
Arguments action : clear implicits.
End Queue.

(** ** universedata.py *)

Module UniverseData.
Record t : Type := mk {
  universe : Z;
  priority : Z;
  sourceName : string;
  dmxData : list Z;
  latestTimeStamp : string
}.

(** The dict with keys "universe", "priority", "sourceName", "dmxData",
    "latestts". *)
Record Dict : Type := mk_dict {
  d_universe : Z;
  d_priority : Z;
  d_sourceName : string;
  d_dmxData : list Z;
  d_latestts : string
}.

Definition toDict (self : t) : Dict :=
  mk_dict (universe self) (priority self) (sourceName self) (dmxData self)
    (latestTimeStamp self).

(** Every key is present in a [Dict], so the [None] branches are not
    reached. *)
Definition fromDict (obj : Dict) : t :=
  mk (d_universe obj) (d_priority obj) (d_sourceName obj) (d_dmxData obj)
    (d_latestts obj).
End UniverseData.

(** ** sacn_manager.py *)

Module DataPacket.
(** The fields of [sacn.DataPacket] the manager reads. *)
Record t : Type := mk {
  dmxStartCode : Z;
  universe : Z;
  priority : Z;
  sourceName : string;
  dmxData : list Z;
  sequence : Z
}.
End DataPacket.

Module TimedDataPacket.
Record t : Type := mk {
  raw : DataPacket.t;
  timeStamp : Z
}.
End TimedDataPacket.

Module sACNmanager.
Section Manager.
(** [str] on a [datetime]. *)
Variable str : Z -> string.

Definition _queueRefreshDelta : Z :=
  timedelta.of_microseconds_ratio (10 ^ 6) WORKER_LED_REFRESH_RATE.

Definition _queueSize : nat := 50.

Record t : Type := mk {
  _db : gmap Z TimedDataPacket.t;
  lastQueueUpdateTs : gmap Z Z;
  _registeredUniverses : list Z;
  sacnShareQueue : option (Queue.t (gmap Z UniverseData.Dict));
  _logger : list Message
}.

(** [sACNmanager(ipAddress)], receiver aside. *)
Definition __init__ : t :=
  mk ∅ ∅ [] (Some (Queue.mk _queueSize [] false)) [].

Definition getUniverseData (self : t) (universe : Z) : result UniverseData.t :=
  match _db self !! universe with
  | Some rec =>
      Ok (UniverseData.mk
            (DataPacket.universe (TimedDataPacket.raw rec))
            (DataPacket.priority (TimedDataPacket.raw rec))
            (DataPacket.sourceName (TimedDataPacket.raw rec))
            (DataPacket.dmxData (TimedDataPacket.raw rec))
            (str (TimedDataPacket.timeStamp rec)))
  | None => Raise (IndexError [NoExistingRecord universe])
  end.

(** [for universe in self._db.keys(): tmp[universe] =
    self.getUniverseData(universe).toDict()]; the lookup inside cannot
    miss, the key being visited. *)
Definition getAllUniverseDataDict (self : t) : gmap Z UniverseData.Dict :=
  (fun rec =>
     UniverseData.toDict
       (UniverseData.mk
          (DataPacket.universe (TimedDataPacket.raw rec))
          (DataPacket.priority (TimedDataPacket.raw rec))
          (DataPacket.sourceName (TimedDataPacket.raw rec))
          (DataPacket.dmxData (TimedDataPacket.raw rec))
          (str (TimedDataPacket.timeStamp rec)))) <$> _db self.

Definition with_queue (self : t) (q : Queue.t (gmap Z UniverseData.Dict)) : t :=
  mk (_db self) (lastQueueUpdateTs self) (_registeredUniverses self) (Some q)
    (_logger self).

Definition log_error (self : t) (line : Message) : t :=
  mk (_db self) (lastQueueUpdateTs self) (_registeredUniverses self)
    (sacnShareQueue self) (_logger self ++ [line]).

(** What the other processes do to the shared queue while [_updateQueue]
    runs: between the first [full()] and the call after it, between the
    [get(False)] and the second [full()], and between the second [full()]
    and the [put] after it; and whether the oldest entry can be read at
    once when [get(False)] is called. *)
Record interleaving : Type := mk_interleaving {
  after_first_full : list (Queue.action (gmap Z UniverseData.Dict));
  after_get : list (Queue.action (gmap Z UniverseData.Dict));
  after_second_full : list (Queue.action (gmap Z UniverseData.Dict));
  oldest_readable : bool
}.

(** Nobody else touches the queue, and its oldest entry can be read. *)
Definition quiet : interleaving := mk_interleaving [] [] [] true.

(** Nobody else touches the queue, but its oldest entry cannot be read
    yet. *)
Definition lagging : interleaving := mk_interleaving [] [] [] false.

Inductive outcome : Type :=
  | Returns (self : t)
  | Blocks.

Definition _updateQueue (self : t) (env : interleaving) : outcome :=
  match sacnShareQueue self with
  | None => Returns self
  | Some q =>
      if negb (Queue.full q) then
        let q1 := Queue.interfere q (after_first_full env) in
        match Queue.put q1 (getAllUniverseDataDict self) with
        | Queue.PutDone q2 => Returns (with_queue self q2)
        | Queue.PutValueError => Returns (with_queue self q1)
        | Queue.PutBlocks => Blocks
        end
      else
        let q1 := Queue.interfere q (after_first_full env) in
        match Queue.get_nowait q1 (oldest_readable env) with
        | Queue.GetEmpty =>
            Returns (log_error (with_queue self q1) FailedToFreeSpace)
        | Queue.GetValueError => Returns (with_queue self q1)
        | Queue.GetItem _ q2 =>
            let q3 := Queue.interfere q2 (after_get env) in
            if negb (Queue.full q3) then
              let q4 := Queue.interfere q3 (after_second_full env) in
              match Queue.put q4 (getAllUniverseDataDict self) with
              | Queue.PutDone q5 => Returns (with_queue self q5)
              | Queue.PutValueError => Returns (with_queue self q4)
              | Queue.PutBlocks => Blocks
              end
            else
              Returns (log_error (with_queue self q3) FailedToWriteFullBuffer)
        end
  end.

(** [newPacketTs] is the reading of [datetime.now()]. *)
Definition _onPacketReceived (self : t) (packet : DataPacket.t)
    (newPacketTs : Z) (env : interleaving) : outcome :=
  if bool_decide (DataPacket.dmxStartCode packet ≠ 0) then Returns self
  else
    let line :=
      match _db self !! DataPacket.universe packet with
      | None =>
          [ReceivingNewSource (DataPacket.universe packet)
             (DataPacket.priority packet) (DataPacket.sourceName packet)]
      | Some old =>
          if bool_decide
               (DataPacket.universe (TimedDataPacket.raw old)
                  ≠ DataPacket.universe packet
                ∨ DataPacket.priority (TimedDataPacket.raw old)
                  ≠ DataPacket.priority packet
                ∨ DataPacket.sourceName (TimedDataPacket.raw old)
                  ≠ DataPacket.sourceName packet)
          then
            [UpdatedSource (DataPacket.universe packet)
               (DataPacket.priority packet) (DataPacket.sourceName packet)]
          else []
      end in
    let self1 :=
      mk (<[DataPacket.universe packet :=
              TimedDataPacket.mk packet newPacketTs]> (_db self))
        (lastQueueUpdateTs self) (_registeredUniverses self)
        (sacnShareQueue self) (_logger self ++ line) in
    let threshold :=
      timedelta.mul_float _queueRefreshDelta
        (fst timedelta.ratio_0_9) (snd timedelta.ratio_0_9) in
    if match lastQueueUpdateTs self1 !! DataPacket.universe packet with
       | None => true
       | Some last => bool_decide (newPacketTs - last >= threshold)
       end
    then
      _updateQueue
        (mk (_db self1)
           (<[DataPacket.universe packet := newPacketTs]>
              (lastQueueUpdateTs self1))
           (_registeredUniverses self1) (sacnShareQueue self1)
           (_logger self1))
        env
    else Returns self1.

(** Lines [registerUniverse] sends to the logger. *)
Inductive register_line : Type :=
  | InvalidUniverse (universe : Z)
  | NowListening (universe : Z).

(** The receiver's listener registration aside. *)
Definition registerUniverse (self : t) (universe : Z) : t * list register_line :=
  if negb (bool_decide (1 <= universe <= SACN_UNI_MAX)) then
    (self, [InvalidUniverse universe])
  else
    (mk (_db self) (lastQueueUpdateTs self)
       (_registeredUniverses self ++ [universe]) (sacnShareQueue self)
       (_logger self),
     [NowListening universe]).

(** [stop()], the receiver aside: the queue is closed and forgotten. *)
Definition stop (self : t) : t :=
  mk (_db self) (lastQueueUpdateTs self) (_registeredUniverses self) None
    (_logger self).

(** One call of the packet callback: the packet, the reading of the clock,
    and what the other processes do to the queue meanwhile. *)
Record arrival : Type := mk_arrival {
  arrived : DataPacket.t;
  arrived_at : Z;
  meanwhile : interleaving
}.

(** The callback run on the packets of [arrivals] in turn. *)
Fixpoint receive (self : t) (arrivals : list arrival) : outcome :=
  match arrivals with
  | [] => Returns self
  | a :: rest =>
      match _onPacketReceived self (arrived a) (arrived_at a) (meanwhile a) with
      | Returns self' => receive self' rest
      | Blocks => Blocks
      end
  end.
End Manager.
End sACNmanager.

(** ** gpio_rpi.py: the pixel buffer

    [Pi5PixelBuffer] extends adafruit_pixelbuf's [PixelBuf]; the worker uses
    its [byteorder], item assignment, [fill] and [show]. A buffer holds one
    value per pixel, and [transmitted] is the sequence of frames pushed to
    the physical line so far, oldest first. *)

Module Pi5PixelBuffer.
Record t : Type := mk {
  byteorder : string;
  pixels : list (list Z);
  transmitted : list (list (list Z))
}.

(** [buf[index] = value] for a non-negative [index]. *)
Definition setitem (self : t) (index : nat) (value : list Z) : result t :=
  if bool_decide (index < length (pixels self))%nat then
    Ok (mk (byteorder self) (<[index := value]> (pixels self)) (transmitted self))
  else Raise (IndexError []).

Definition fill (self : t) (color : list Z) : t :=
  mk (byteorder self) (replicate (length (pixels self)) color) (transmitted self).

Definition show (self : t) : t :=
  mk (byteorder self) (pixels self) (transmitted self ++ [pixels self]).

(** [Pi5PixelBuffer(pin, size, auto_write=False, byteorder=...)]: [size]
    dark pixels, nothing transmitted yet. *)
Definition new (size : Z) (byteorder : string) : t :=
  mk byteorder (replicate (Z.to_nat size) [0; 0; 0]) [].
End Pi5PixelBuffer.

(** ** gpio_process.py *)

(** [seq[i]] on a tuple: negative indexes count from the end. *)
Definition tuple_getitem {A} (seq : list A) (i : Z) : result A :=
  let n := Z.of_nat (length seq) in
  let j := if bool_decide (i < 0) then i + n else i in
  if bool_decide (0 <= j < n) then
    match seq !! Z.to_nat j with
    | Some x => Ok x
    | None => Raise (IndexError [])
    end
  else Raise (IndexError []).

Module Pixel.
Record t : Type := mk {
  bitDepth : Z;
  red : Z;
  green : Z;
  blue : Z;
  white : Z
}.

Definition max_16b : Z := 2 ^ 16 - 1.
Definition max_8b : Z := 2 ^ 8 - 1.

Definition maxValue (self : t) : Z :=
  if bool_decide (bitDepth self = 8) then max_8b else max_16b.

Definition set_red (self : t) (value : Z) : result t :=
  if negb (bool_decide (0 <= value <= maxValue self)) then
    Raise (ValueError [OutOfRange "Red" value])
  else Ok (mk (bitDepth self) value (green self) (blue self) (white self)).

Definition set_green (self : t) (value : Z) : result t :=
  if negb (bool_decide (0 <= value <= maxValue self)) then
    Raise (ValueError [OutOfRange "Green" value])
  else Ok (mk (bitDepth self) (red self) value (blue self) (white self)).

Definition set_blue (self : t) (value : Z) : result t :=
  if negb (bool_decide (0 <= value <= maxValue self)) then
    Raise (ValueError [OutOfRange "Blue" value])
  else Ok (mk (bitDepth self) (red self) (green self) value (white self)).

Definition set_white (self : t) (value : Z) : result t :=
  if negb (bool_decide (0 <= value <= maxValue self)) then
    Raise (ValueError [OutOfRange "White" value])
  else Ok (mk (bitDepth self) (red self) (green self) (blue self) value).

(** [Pixel(bitDepth=8)]: every argument at its default passes its setter. *)
Definition new8 : t := mk 8 0 0 0 0.

(** The [for char in order] loop; [None] when a character is not one of
    R, G, B, W. *)
Fixpoint collect (self : t) (chars : list ascii) : option (list Z) :=
  match chars with
  | [] => Some []
  | char :: chars' =>
      let pick :=
        if decide (char = "R"%char) then Some (red self)
        else if decide (char = "G"%char) then Some (green self)
        else if decide (char = "B"%char) then Some (blue self)
        else if decide (char = "W"%char) then Some (white self)
        else None in
      match pick with
      | None => None
      | Some v => cons v <$> collect self chars'
      end
  end.

(** [self.asTuple("RGB")] is [(red, green, blue)], which is what both
    fallbacks return. *)
Definition asTuple (self : t) (order : string) : list Z :=
  let rgb := [red self; green self; blue self] in
  if negb (bool_decide (3 <= String.length order <= 4)%nat) then rgb
  else match collect self (list_ascii_of_string order) with
       | Some result => result
       | None => rgb
       end.
End Pixel.

Module Worker.
(** The variables of one [for gpioPin in patchedFixtures.keys()] round,
    with the buffers the round writes to. *)
Record locals : Type := mk_locals {
  offsetInQueue : nat;
  patch_px_type : option Fixture.t;
  patch_profile_size : Z;
  patch_ch_offset : list Z;
  patch_ch_count : nat;
  patch_ch_info : list FixtureChannel.t;
  tmpPx : Pixel.t;
  buffers : PyDict.t GPIO Pi5PixelBuffer.t
}.

(** Body of [for pxch in range(patch_ch_count)]. *)
Definition read_channel (fixturePatch : FixturePatch.t) (L : locals)
    (patch_uni_data : list Z) (px : nat) (tmpPx : Pixel.t) (pxch : nat)
  : result Pixel.t :=
  match patch_ch_info L !! pxch, patch_ch_offset L !! pxch with
  | Some info, Some offset =>
      let dmxAddr :=
        FixturePatch.start_channel fixturePatch
        + Z.of_nat px * patch_profile_size L + offset in
      let! tmpValue := tuple_getitem patch_uni_data (dmxAddr - 1) in
      match FixtureChannel.label info with
      | RED => Pixel.set_red tmpPx tmpValue
      | GREEN => Pixel.set_green tmpPx tmpValue
      | BLUE => Pixel.set_blue tmpPx tmpValue
      | WHITE => Pixel.set_white tmpPx tmpValue
      end
  | _, _ => Raise (IndexError [])
  end.

(** The value of one pixel: reset [tmpPx], then read every channel. *)
Definition read_pixel (fixturePatch : FixturePatch.t) (L : locals)
    (patch_uni_data : list Z) (px : nat) : result Pixel.t :=
  let! p := Pixel.set_red (tmpPx L) 0 in
  let! p := Pixel.set_green p 0 in
  let! p := Pixel.set_blue p 0 in
  let! p := Pixel.set_white p 0 in
  for_each (seq 0 (patch_ch_count L))
    (read_channel fixturePatch L patch_uni_data px) p.

(** Body of [for px in range(fixturePatch.pixel_count)]. *)
Definition render_pixel (gpioPin : GPIO) (fixturePatch : FixturePatch.t)
    (patch_uni_data : list Z) (L : locals) (px : nat) : result locals :=
  let! p := read_pixel fixturePatch L patch_uni_data px in
  match PyDict.get (buffers L) gpioPin with
  | None => Raise KeyError
  | Some buf =>
      let! buf' :=
        Pi5PixelBuffer.setitem buf (offsetInQueue L)
          (Pixel.asTuple p (Pi5PixelBuffer.byteorder buf)) in
      Ok (mk_locals (S (offsetInQueue L)) (patch_px_type L)
            (patch_profile_size L) (patch_ch_offset L) (patch_ch_count L)
            (patch_ch_info L) p (PyDict.set (buffers L) gpioPin buf'))
  end.

(** Body of [for fixturePatch in patchedFixtures[gpioPin]]. *)
Definition render_patch (gpioPin : GPIO) (sacnData : gmap Z UniverseData.t)
    (L : locals) (fixturePatch : FixturePatch.t) : result locals :=
  let L1 :=
    match patch_px_type L with
    | None =>
        let ty := FixturePatch.pixel_type fixturePatch in
        mk_locals (offsetInQueue L) (Some ty) (Fixture.profile_size ty)
          (Fixture.channels_offset ty) (Fixture.channel_count ty)
          (Fixture.channels ty) Pixel.new8 (buffers L)
    | Some _ => L
    end in
  if bool_decide (patch_px_type L1 ≠ Some Fixture.PX_RGB_8) then Ok L1
  else
    match sacnData !! FixturePatch.universe fixturePatch with
    | None => Ok L1
    | Some uni =>
        for_each (seq 0 (Z.to_nat (FixturePatch.pixel_count fixturePatch)))
          (render_pixel gpioPin fixturePatch (UniverseData.dmxData uni)) L1
    end.

(** Body of [for gpioPin in patchedFixtures.keys()]. *)
Definition render_output (sacnData : gmap Z UniverseData.t)
    (bufs : PyDict.t GPIO Pi5PixelBuffer.t)
    (item : GPIO * list FixturePatch.t)
  : result (PyDict.t GPIO Pi5PixelBuffer.t) :=
  let '(gpioPin, patches) := item in
  let! L :=
    for_each patches (render_patch gpioPin sacnData)
      (mk_locals 0 None 0 [] 0 [] Pixel.new8 bufs) in
  Ok (buffers L).

Definition blackoutAll (pixelBuffers : PyDict.t GPIO Pi5PixelBuffer.t)
  : PyDict.t GPIO Pi5PixelBuffer.t :=
  prod_map id (fun buf => Pi5PixelBuffer.show (Pi5PixelBuffer.fill buf [0; 0; 0]))
    <$> pixelBuffers.

Definition show_all (pixelBuffers : PyDict.t GPIO Pi5PixelBuffer.t)
  : PyDict.t GPIO Pi5PixelBuffer.t :=
  prod_map id Pi5PixelBuffer.show <$> pixelBuffers.

Inductive status : Type :=
  | Running
  | Returned
  | Exited (code : Z)
  | Died (e : exn).

(** The worker process: its buffers (and through [transmitted] the
    physical lines), its end of the shared queue, its log, and whether it
    is still in its loop. *)
Record t : Type := mk {
  pixelBuffers : PyDict.t GPIO Pi5PixelBuffer.t;
  queue_closed : bool;
  logger : list Message;
  state : status
}.

(** Outputs with a buffer and no entry in the patch table; the source
    builds this through a set, so the order is only one of the possible
    ones. *)
Definition unpatched_outputs (patchedFixtures : PyDict.t GPIO (list FixturePatch.t))
    (pixelBuffers : PyDict.t GPIO Pi5PixelBuffer.t) : list GPIO :=
  filter (fun pin => pin ∉ PyDict.keys patchedFixtures) (PyDict.keys pixelBuffers).

(** One round of the main loop on the batch [raw] taken from the queue.
    The time stamps, which only feed the overrun warning, are left out.
    When rendering raises, the exception ends the process; the record then
    keeps the buffers the round started with, and only [transmitted], what
    the lines have received, is meant by it. *)
Definition iteration (patchedFixtures : PyDict.t GPIO (list FixturePatch.t))
    (w : t) (raw : gmap Z UniverseData.Dict) : t :=
  let sacnData := UniverseData.fromDict <$> raw in
  let tmp := unpatched_outputs patchedFixtures (pixelBuffers w) in
  if bool_decide (tmp ≠ []) then
    mk (pixelBuffers w) (queue_closed w)
      (logger w ++ [OutputsNotInFixtureManager tmp]) Returned
  else
    match for_each patchedFixtures (render_output sacnData) (pixelBuffers w) with
    | Raise e => mk (pixelBuffers w) (queue_closed w) (logger w) (Died e)
    | Ok bufs => mk (show_all bufs) (queue_closed w) (logger w) Running
    end.

Definition sigterm_handler (w : t) : t :=
  mk (blackoutAll (pixelBuffers w)) true
    (logger w ++ [SigtermReceived; WorkerExiting]) (Exited 0).

Inductive event : Type :=
  | Batch (raw : gmap Z UniverseData.Dict)
  | SIGTERM
  | SIGINT.

Definition step (patchedFixtures : PyDict.t GPIO (list FixturePatch.t))
    (w : t) (ev : event) : t :=
  match state w with
  | Running =>
      match ev with
      | Batch raw => iteration patchedFixtures w raw
      | SIGTERM => sigterm_handler w
      | SIGINT => w
      end
  | _ => w
  end.

(** [processSacnToGPIO] up to the point where the given events have been
    consumed; [logger_ok] tells whether [initGpioLogger()] succeeds. *)
Definition processSacnToGPIO
    (patchedFixtures : PyDict.t GPIO (list FixturePatch.t))
    (pixelBuffers : PyDict.t GPIO Pi5PixelBuffer.t)
    (logger_ok : bool) (events : list event) : t :=
  if negb logger_ok then
    mk (blackoutAll pixelBuffers) false [FailedToInitGpioLogger] (Exited 0)
  else
    foldl (step patchedFixtures)
      (mk pixelBuffers false [WorkerActive] Running) events.
End Worker.

(** ** gpio_manager.py *)

Module GpioManager.
(** Lines [_makePixelBuffers] sends to the logger. *)
Inductive line : Type :=
  | UnableToPatch (label : string) (gpioOut : GPIO)
  | SkippedPatching (gpioOut : GPIO).

(** The locals of one round of [for gpioOut in patchedFixtures.keys()]. *)
Record scan : Type := mk_scan {
  outPixCount : Z;
  rgbOrder : string;
  patchError : bool;
  lines : list line
}.

(** Body of [for fixPatch in patchedFixtures[gpioOut]]. *)
Definition scan_patch (gpioOut : GPIO) (s : scan) (fixPatch : FixturePatch.t)
  : scan :=
  if decide (FixturePatch.pixel_type fixPatch = Fixture.PX_RGB_8) then
    mk_scan (outPixCount s + FixturePatch.pixel_count fixPatch)
      (if decide (rgbOrder s = ""%string)
       then Fixture.channel_order (FixturePatch.pixel_type fixPatch)
       else rgbOrder s)
      (patchError s) (lines s)
  else
    mk_scan (outPixCount s) (rgbOrder s) true
      (lines s ++ [UnableToPatch (FixturePatch.label fixPatch) gpioOut]).

Definition make_buffer
    (acc : PyDict.t GPIO Pi5PixelBuffer.t * list line)
    (item : GPIO * list FixturePatch.t)
  : PyDict.t GPIO Pi5PixelBuffer.t * list line :=
  let s := foldl (scan_patch item.1) (mk_scan 0 "" false []) item.2 in
  if negb (patchError s) && bool_decide (outPixCount s > 0)
     && negb (bool_decide (rgbOrder s = ""%string))
  then
    (PyDict.set acc.1 item.1 (Pi5PixelBuffer.new (outPixCount s) (rgbOrder s)),
     acc.2 ++ lines s)
  else (acc.1, acc.2 ++ lines s ++ [SkippedPatching item.1]).

(** The buffers allocated for a patch table, and the lines logged. *)
Definition _makePixelBuffers
    (patchedFixtures : PyDict.t GPIO (list FixturePatch.t))
  : PyDict.t GPIO Pi5PixelBuffer.t * list line :=
  foldl make_buffer ([], []) patchedFixtures.
End GpioManager.

(** ** The design document's vocabulary *)

(** The render-cycle period: [1/refresh_rate] seconds, in microseconds. *)
Definition cycle_period_us : Z := 10 ^ 6 `div` WORKER_LED_REFRESH_RATE.

(** A push for universe [U] is due at instant [now]: [U] has no recorded
    push, or the time since its last one is at least 0.9 of the period. *)
Definition push_due (self : sACNmanager.t) (U now : Z) : Prop :=
  match sACNmanager.lastQueueUpdateTs self !! U with
  | None => True
  | Some last => 10 * (now - last) >= 9 * cycle_period_us
  end.

(** The manager with [now] recorded as the last push of universe [U]. *)
Definition stamp_push (self : sACNmanager.t) (U now : Z) : sACNmanager.t :=
  sACNmanager.mk (sACNmanager._db self)
    (<[U := now]> (sACNmanager.lastQueueUpdateTs self))
    (sACNmanager._registeredUniverses self) (sACNmanager.sacnShareQueue self)
    (sACNmanager._logger self).

(** The entry a pushed snapshot map holds for a stored packet: the packet's
    universe, priority, source name and bytes, with the time it was stored
    as text. *)
Definition snapshot_dict (str : Z -> string) (rec : TimedDataPacket.t)
  : UniverseData.Dict :=
  UniverseData.mk_dict
    (DataPacket.universe (TimedDataPacket.raw rec))
    (DataPacket.priority (TimedDataPacket.raw rec))
    (DataPacket.sourceName (TimedDataPacket.raw rec))
    (DataPacket.dmxData (TimedDataPacket.raw rec))
    (str (TimedDataPacket.timeStamp rec)).

(** The byte at DMX address [addr] (addresses start at 1) of a universe's
    512 bytes. *)
Definition dmx_byte (dmxData : list Z) (addr : Z) : option Z :=
  if bool_decide (1 <= addr) then dmxData !! Z.to_nat (addr - 1) else None.

(** The all-zero frame of an output line with [n] pixels. *)
Definition blackout_frame (n : nat) : list (list Z) := replicate n [0; 0; 0].

(** The round variables as [render_patch] sets them from an rgb8 strip. *)
Definition rgb8_locals (L : Worker.locals) : Prop :=
  Worker.patch_px_type L = Some Fixture.PX_RGB_8
  /\ Worker.patch_profile_size L = Fixture.profile_size Fixture.PX_RGB_8
  /\ Worker.patch_ch_offset L = Fixture.channels_offset Fixture.PX_RGB_8
  /\ Worker.patch_ch_count L = Fixture.channel_count Fixture.PX_RGB_8
  /\ Worker.patch_ch_info L = Fixture.channels Fixture.PX_RGB_8
  /\ Pixel.bitDepth (Worker.tmpPx L) = 8.

(** Ascending by start channel. *)
Definition by_start_channel (a b : FixturePatch.t) : Prop :=
  FixturePatch.start_channel a <= FixturePatch.start_channel b.

(** One pass of the bubble sort read as a recursion: [carry x l] walks [l]
    with [x] in hand, leaving the smaller of each compared pair behind. *)
Fixpoint carry (x : FixturePatch.t) (l : list FixturePatch.t)
  : list FixturePatch.t :=
  match l with
  | [] => [x]
  | y :: l' =>
      if bool_decide
           (FixturePatch.start_channel x > FixturePatch.start_channel y)
      then y :: carry x l'
      else x :: carry y l'
  end.

Definition pass (l : list FixturePatch.t) : list FixturePatch.t :=
  match l with
  | [] => []
  | x :: l' => carry x l'
  end.

(** Every strip of a configuration in declaration order, with the output
    it is declared under. *)
Definition declared_strips (cfg : FullConfig.t)
  : list (OutputLabel * PinConfig.t * LedStrip.t) :=
  FullConfig.outputs cfg
  ≫= (fun item => (fun strip => (item.1, item.2, strip)) <$> PinConfig.strips item.2).

Definition pin_of (item : OutputLabel * PinConfig.t) : GPIO :=
  PinConfig.gpio item.2.

Definition label_of (item : OutputLabel * PinConfig.t * LedStrip.t) : string :=
  LedStrip.label item.2.

(** Rule 1: an output whose pin an earlier output already uses. *)
Definition pin_reused (outputs : list (OutputLabel * PinConfig.t))
    (m : Message) : Prop :=
  exists earlier out pin later,
    outputs = earlier ++ (out, pin) :: later
    /\ PinConfig.gpio pin ∈ (pin_of <$> earlier)
    /\ m = PinUsedOnMultipleOutputs (PinConfig.gpio pin).

(** Rule 2: a strip whose label an earlier strip already carries. *)
Definition label_reused (strips : list (OutputLabel * PinConfig.t * LedStrip.t))
    (m : Message) : Prop :=
  exists earlier out pin strip later,
    strips = earlier ++ (out, pin, strip) :: later
    /\ LedStrip.label strip ∈ (label_of <$> earlier)
    /\ m = LabelUsedOnMultipleStrips out (LedStrip.label strip).

(** Rule 3: [start_channel - 1 + pixel_count * footprint] must not exceed
    512. *)
Definition last_channel (ty : Fixture.t) (strip : LedStrip.t) : Z :=
  LedStrip.start_channel strip - 1
  + LedStrip.pixel_count strip * Fixture.profile_size ty.

Definition overflows (strips : list (OutputLabel * PinConfig.t * LedStrip.t))
    (m : Message) : Prop :=
  exists out pin strip ty,
    (out, pin, strip) ∈ strips
    /\ Fixture.from_string (PinConfig.pixel_type pin) = Ok ty
    /\ last_channel ty strip > DMX_UNI_SIZE
    /\ m = DoesNotFitUniverse out (LedStrip.label strip).

(** [m] reports an offender of the configuration. *)
Definition violation (cfg : FullConfig.t) (m : Message) : Prop :=
  pin_reused (FullConfig.outputs cfg) m
  \/ label_reused (declared_strips cfg) m
  \/ overflows (declared_strips cfg) m.

(** What the configuration model guarantees of every output. *)
Definition valid_pixel_types (cfg : FullConfig.t) : Prop :=
  Forall
    (fun item =>
       PinConfig.validate_fixture_type (PinConfig.pixel_type item.2) = true)
    (FullConfig.outputs cfg).

(** The patch of a strip declared at position [pos] of its output. *)
Definition patch_of (pin : PinConfig.t) (ty : Fixture.t) (pos : nat)
    (strip : LedStrip.t) : FixturePatch.t :=
  FixturePatch.mk (LedStrip.label strip) ty (LedStrip.pixel_count strip)
    (LedStrip.universe strip) (LedStrip.start_channel strip)
    (PinConfig.gpio pin) pos.

Fixpoint patches_from (pin : PinConfig.t) (ty : Fixture.t) (pos : nat)
    (strips : list LedStrip.t) : list FixturePatch.t :=
  match strips with
  | [] => []
  | strip :: strips' =>
      patch_of pin ty pos strip :: patches_from pin ty (S pos) strips'
  end.

(** The patches of a configuration in declaration order. *)
Definition declared_patches (cfg : FullConfig.t) : list FixturePatch.t :=
  FullConfig.outputs cfg
  ≫= (fun item =>
        match Fixture.from_string (PinConfig.pixel_type item.2) with
        | Ok ty => patches_from item.2 ty 0 (PinConfig.strips item.2)
        | Raise _ => []
        end).

(** Appending a patch to its universe's list. *)
Definition uni_add (m : gmap Z (list FixturePatch.t)) (p : FixturePatch.t)
  : gmap Z (list FixturePatch.t) :=
  <[FixturePatch.universe p := default [] (m !! FixturePatch.universe p) ++ [p]]> m.

(** What [_validate_cfg] knows after the outputs [outs] and the strips
    [strips] have been checked. *)
Record checked (outs : list (OutputLabel * PinConfig.t))
    (strips : list (OutputLabel * PinConfig.t * LedStrip.t))
    (s : FixtureManager.vstate) : Prop := mk_checked {
  checked_gpio : forall g, g ∈ FixtureManager.declared_gpio s <-> g ∈ (pin_of <$> outs);
  checked_labels :
    forall l, l ∈ FixtureManager.declared_labels s <-> l ∈ (label_of <$> strips);
  checked_log :
    forall m, m ∈ FixtureManager.logmessage s
              <-> pin_reused outs m \/ label_reused strips m \/ overflows strips m;
  checked_valid :
    FixtureManager.tmp_valid s = true <-> FixtureManager.logmessage s = []
}.

(** [p] is a strip of the patch table, found through either index. *)
Definition in_table (self : FixtureManager.t) (p : FixturePatch.t) : Prop :=
  (exists pin queue,
     PyDict.get (FixtureManager._by_out self) pin = Some queue /\ p ∈ queue)
  \/ (exists universe, p ∈ FixtureManager.get_fixtures_by_uni self universe).

(** What the patching loops have built after the outputs [outs]. *)
Definition patched (outs : list (OutputLabel * PinConfig.t))
    (s : FixtureManager.pstate) : Prop :=
  FixtureManager.by_uni s
  = foldl uni_add ∅ (declared_patches (FullConfig.mk outs))
  /\ forall k queue, PyDict.get (FixtureManager.by_out s) k = Some queue ->
       exists out pin ty,
         (out, pin) ∈ outs /\ PinConfig.gpio pin = k
         /\ queue = patches_from pin ty 0 (PinConfig.strips pin)
         /\ (PinConfig.strips pin <> [] ->
             Fixture.from_string (PinConfig.pixel_type pin) = Ok ty).

(** The value of pixel [px] of an rgb8 strip that starts at DMX address
    [start]. *)
Definition rgb8_pixel (dmxData : list Z) (start : Z) (px : nat) : Pixel.t :=
  Pixel.mk 8
    (default 0 (dmx_byte dmxData (start + Z.of_nat px * 3 + 0)))
    (default 0 (dmx_byte dmxData (start + Z.of_nat px * 3 + 1)))
    (default 0 (dmx_byte dmxData (start + Z.of_nat px * 3 + 2)))
    0.

(** Pixels [first], [first + 1], ... ([count] of them) of such a strip, as
    stored in a buffer of byte order [order]. *)
Definition strip_frame_from (order : string) (dmxData : list Z) (start : Z)
    (first count : nat) : list (list Z) :=
  (fun px => Pixel.asTuple (rgb8_pixel dmxData start px) order)
    <$> seq first count.

Definition strip_frame (order : string) (sacnData : gmap Z UniverseData.t)
    (patch : FixturePatch.t) : list (list Z) :=
  match sacnData !! FixturePatch.universe patch with
  | Some uni =>
      strip_frame_from order (UniverseData.dmxData uni)
        (FixturePatch.start_channel patch) 0
        (Z.to_nat (FixturePatch.pixel_count patch))
  | None => []
  end.

(** What one iteration writes at the head of a line's buffer: the frames of
    the strips whose universe is in the batch, one after the other. *)
Fixpoint line_frame (order : string) (sacnData : gmap Z UniverseData.t)
    (patches : list FixturePatch.t) : list (list Z) :=
  match patches with
  | [] => []
  | patch :: patches' =>
      strip_frame order sacnData patch ++ line_frame order sacnData patches'
  end.

(** A universe of 512 byte values. *)
Definition snapshot_ok (dmxData : list Z) : Prop :=
  length dmxData = 512%nat /\ Forall (fun v => 0 <= v <= 255) dmxData.

(** An rgb8 strip as the patch table holds it. *)
Definition rgb8_strip_ok (patch : FixturePatch.t) : Prop :=
  FixturePatch.pixel_type patch = Fixture.PX_RGB_8
  /\ 1 <= FixturePatch.start_channel patch
  /\ FixturePatch.end_channel patch <= 512.

(** The round variables before the first strip, or as that strip set them. *)
Definition round_locals (L : Worker.locals) : Prop :=
  Worker.patch_px_type L = None \/ rgb8_locals L.

(** ** Sample inputs *)

Definition sample_str (instant : Z) : string := "2026-01-01 00:00:00".

Definition sample_packet : DataPacket.t :=
  DataPacket.mk 0 7 100 "desk" ([255; 128; 0] ++ replicate 509 0) 1.

Definition sample_manager : sACNmanager.t :=
  sACNmanager.mk {[7 := TimedDataPacket.mk sample_packet 1000]} {[7 := 1000]}
    [7] (Some (Queue.mk 50 [] false)) [].


(** Two strips of universe 7 declared in descending order of start channel. *)
Definition sample_pin : PinConfig.t :=
  PinConfig.mk gpio18 "rgb8"
    [LedStrip.mk "second" 5 7 31; LedStrip.mk "first" 10 7 1].

Definition sample_cfg : FullConfig.t := FullConfig.mk [(OUT1, sample_pin)].

(** A pin used twice, a label used twice, and a strip of 170 four-byte
    pixels starting at channel 1. *)
Definition sample_cfg_invalid : FullConfig.t :=
  FullConfig.mk
    [(OUT1, PinConfig.mk gpio18 "rgb8"
              [LedStrip.mk "a" 10 1 1; LedStrip.mk "a" 10 1 31]);
     (OUT2, PinConfig.mk gpio18 "rgbw8" [LedStrip.mk "z" 170 2 1])].

Definition sample_patch : FixturePatch.t :=
  FixturePatch.mk "strip" Fixture.PX_RGB_8 1 5 1 gpio18 0.

Definition sample_buffers : PyDict.t GPIO Pi5PixelBuffer.t :=
  [(gpio18, Pi5PixelBuffer.mk "GRB" [[9; 9; 9]] [[[9; 9; 9]]])].

Definition sample_locals : Worker.locals :=
  Worker.mk_locals 0 (Some Fixture.PX_RGB_8) 3 [0; 1; 2] 3
    [FixtureChannel.R8; FixtureChannel.G8; FixtureChannel.B8] Pixel.new8
    sample_buffers.

Definition sample_worker : Worker.t :=
  Worker.mk sample_buffers false [WorkerActive] Worker.Running.



(** A line of two strips, the first on universe 4, the second on universe
    5, and a batch that only carries universe 5. *)
Definition two_strips : PyDict.t GPIO (list FixturePatch.t) :=
  [(gpio18,
    [FixturePatch.mk "first" Fixture.PX_RGB_8 2 4 1 gpio18 0;
     FixturePatch.mk "second" Fixture.PX_RGB_8 1 5 1 gpio18 1])].

Definition three_pixels : PyDict.t GPIO Pi5PixelBuffer.t :=
  [(gpio18, Pi5PixelBuffer.mk "RGB" (blackout_frame 3) [])].

Definition universe5_only : gmap Z UniverseData.Dict :=
  {[5 := UniverseData.mk_dict 5 100 "desk" ([255; 128; 0] ++ replicate 509 0)
           "2026-01-01 00:00:00"]}.


(** A strip of four-byte pixels. *)
Definition rgbw_strip : FixturePatch.t :=
  FixturePatch.mk "white" Fixture.PX_RGBW_8 4 5 1 gpio18 0.

(** The sample packet arriving at 1 ms with nothing else touching the queue. *)
Definition first_arrival : sACNmanager.arrival :=
  sACNmanager.mk_arrival sample_packet 1000 sACNmanager.quiet.

(** ** Vocabulary for the rest of the code *)

(** The DMX bytes a run of channels takes. *)
Definition bytes_of (chs : list FixtureChannel.t) : Z :=
  foldr (fun ch acc => ChannelDepth.byteCount (FixtureChannel.depth ch) + acc)
    0 chs.

(** The queue of an output: its strips in declaration order, numbered from
    0. *)
Definition output_queue (pin : PinConfig.t) : list FixturePatch.t :=
  match Fixture.from_string (PinConfig.pixel_type pin) with
  | Ok ty => patches_from pin ty 0 (PinConfig.strips pin)
  | Raise _ => []
  end.

(** The state the ingest manager keeps between packets: every snapshot is
    filed under its own universe and is a DMX-data packet, a universe with a
    recorded push has a snapshot, and the queue, while there is one, has the
    configured capacity and holds no more than that. *)
Definition manager_ok (self : sACNmanager.t) : Prop :=
  (forall u rec, sACNmanager._db self !! u = Some rec ->
     DataPacket.universe (TimedDataPacket.raw rec) = u
     /\ DataPacket.dmxStartCode (TimedDataPacket.raw rec) = 0)
  /\ (forall u, is_Some (sACNmanager.lastQueueUpdateTs self !! u) ->
                is_Some (sACNmanager._db self !! u))
  /\ (forall q, sACNmanager.sacnShareQueue self = Some q ->
        Queue.maxsize q = sACNmanager._queueSize
        /\ (length (Queue.items q) ≤ sACNmanager._queueSize)%nat).

(** [registerUniverse] called for each universe of a list in turn, as the
    application does with the universes of the patch table. *)
Definition register_all (self : sACNmanager.t) (universes : list Z)
  : sACNmanager.t :=
  foldl (fun s u => (sACNmanager.registerUniverse s u).1) self universes.

(** [b'] is the buffer [b] with other pixel values: same byte order, same
    number of pixels, same frames transmitted. *)
Definition same_shape (b b' : Pi5PixelBuffer.t) : Prop :=
  Pi5PixelBuffer.byteorder b' = Pi5PixelBuffer.byteorder b
  /\ length (Pi5PixelBuffer.pixels b') = length (Pi5PixelBuffer.pixels b)
  /\ Pi5PixelBuffer.transmitted b' = Pi5PixelBuffer.transmitted b.

(** The same lines in the same order, each with a buffer of the same shape. *)
Definition shapes_kept (bufs bufs' : PyDict.t GPIO Pi5PixelBuffer.t) : Prop :=
  Forall2 (fun x y => y.1 = x.1 /\ same_shape x.2 y.2) bufs bufs'.

(** The pixels of a line. *)
Definition total_pixels (patches : list FixturePatch.t) : Z :=
  foldr (fun p acc => FixturePatch.pixel_count p + acc) 0 patches.

(** A strip as a table built from a validated configuration holds it. *)
Definition strip_ok (p : FixturePatch.t) : Prop :=
  1 <= FixturePatch.pixel_count p
  /\ 1 <= FixturePatch.start_channel p
  /\ FixturePatch.end_channel p <= 512.

(** A line of such a table: one profile for all its strips. *)
Definition line_ok (patches : list FixturePatch.t) : Prop :=
  Forall strip_ok patches
  /\ (Forall (fun p => FixturePatch.pixel_type p = Fixture.PX_RGB_8) patches
      \/ Forall (fun p => FixturePatch.pixel_type p <> Fixture.PX_RGB_8) patches).

Definition table_ok (patchedFixtures : PyDict.t GPIO (list FixturePatch.t))
  : Prop :=
  NoDup (PyDict.keys patchedFixtures)
  /\ Forall (fun item => line_ok item.2) patchedFixtures.

(** A batch whose universes all carry 512 byte values. *)
Definition batch_ok (raw : gmap Z UniverseData.Dict) : Prop :=
  forall u d, raw !! u = Some d -> snapshot_ok (UniverseData.d_dmxData d).

(** An event the worker can receive from a well-formed sender. *)
Definition event_ok (ev : Worker.event) : Prop :=
  match ev with
  | Worker.Batch raw => batch_ok raw
  | _ => True
  end.

(** Every buffer belongs to a line of the table, and a line of rgb8 strips
    has a buffer with room for all its pixels. *)
Definition buffers_fit (patchedFixtures : PyDict.t GPIO (list FixturePatch.t))
    (bufs : PyDict.t GPIO Pi5PixelBuffer.t) : Prop :=
  (forall k, k ∈ PyDict.keys bufs -> k ∈ PyDict.keys patchedFixtures)
  /\ Forall
       (fun item =>
          Forall (fun p => FixturePatch.pixel_type p = Fixture.PX_RGB_8) item.2 ->
          item.2 <> [] ->
          exists buf,
            PyDict.get bufs item.1 = Some buf
            /\ (Z.to_nat (total_pixels item.2)
                ≤ length (Pi5PixelBuffer.pixels buf))%nat)
       patchedFixtures.

(** [b'] is the buffer [b] later in a run: same byte order, same number of
    pixels, and the frames transmitted since, each as long as the line. *)
Definition later_buffer (b b' : Pi5PixelBuffer.t) : Prop :=
  Pi5PixelBuffer.byteorder b' = Pi5PixelBuffer.byteorder b
  /\ length (Pi5PixelBuffer.pixels b') = length (Pi5PixelBuffer.pixels b)
  /\ exists frames,
       Pi5PixelBuffer.transmitted b'
       = Pi5PixelBuffer.transmitted b ++ frames
       /\ Forall (fun frame => length frame = length (Pi5PixelBuffer.pixels b))
            frames.

Definition later_buffers (bufs bufs' : PyDict.t GPIO Pi5PixelBuffer.t) : Prop :=
  Forall2 (fun x y => y.1 = x.1 /\ later_buffer x.2 y.2) bufs bufs'.

(** A line that is dark and has been told so. *)
Definition dark (b : Pi5PixelBuffer.t) : Prop :=
  Pi5PixelBuffer.pixels b = blackout_frame (length (Pi5PixelBuffer.pixels b))
  /\ last (Pi5PixelBuffer.transmitted b) = Some (Pi5PixelBuffer.pixels b).

(** The buffer [b] of a line once an iteration has rendered the strips
    [patches] into it: the frames of the strips at its head, the pixels
    beyond as they were. *)
Definition rendered (sacnData : gmap Z UniverseData.t)
    (patches : list FixturePatch.t) (b : Pi5PixelBuffer.t) : Pi5PixelBuffer.t :=
  let frame := line_frame (Pi5PixelBuffer.byteorder b) sacnData patches in
  Pi5PixelBuffer.mk (Pi5PixelBuffer.byteorder b)
    (frame ++ drop (length frame) (Pi5PixelBuffer.pixels b))
    (Pi5PixelBuffer.transmitted b).

(** * Properties *)

(** ** Generic facts about the loop combinator and the dictionaries *)

Lemma PyDict_get_fmap {K V W} `{EqDecision K} (f : V -> W)
    (d : PyDict.t K V) (k : K) :
  PyDict.get (prod_map id f <$> d) k = f <$> PyDict.get d k.
Proof.
  induction d as [|[k' v] d IH]; simpl; [done|].
  by destruct (decide (k' = k)).
Qed.

Lemma PyDict_keys_fmap {K V W} `{EqDecision K} (f : V -> W) (d : PyDict.t K V) :
  PyDict.keys (prod_map id f <$> d) = PyDict.keys d.
Proof.
  unfold PyDict.keys. rewrite <- list_fmap_compose.
  apply list_fmap_ext. by intros _ [k v] _.
Qed.

Lemma PyDict_get_set_eq {K V} `{EqDecision K} (d : PyDict.t K V) (k : K) (v : V) :
  PyDict.get (PyDict.set d k v) k = Some v.
Proof.
  induction d as [|[k' v'] d IH]; simpl.
  - by rewrite decide_True.
  - destruct (decide (k' = k)); simpl; [by rewrite decide_True|].
    by rewrite decide_False.
Qed.

Lemma PyDict_get_set_ne {K V} `{EqDecision K} (d : PyDict.t K V) (k k' : K) (v : V) :
  k ≠ k' -> PyDict.get (PyDict.set d k v) k' = PyDict.get d k'.
Proof.
  intros Hne. induction d as [|[k0 v0] d IH]; simpl.
  - by rewrite decide_False.
  - destruct (decide (k0 = k)) as [->|]; simpl.
    + by rewrite !decide_False.
    + destruct (decide (k0 = k')); [done|apply IH].
Qed.

(** ** Validation of the configuration *)

Lemma for_each_prefix {A S} (P : list A -> S -> Prop) (xs : list A)
    (body : S -> A -> result S) (s s' : S) :
  P [] s ->
  (forall pre x s0 s1, P pre s0 -> body s0 x = Ok s1 -> P (pre ++ [x]) s1) ->
  for_each xs body s = Ok s' -> P xs s'.
Proof.
  intros Hinit Hstep.
  assert (forall pre s0, P pre s0 -> for_each xs body s0 = Ok s' ->
                         P (pre ++ xs) s') as Hgen.
  { induction xs as [|x xs IH]; intros pre s0 HP Hrun; simpl in Hrun.
    - injection Hrun as <-. by rewrite app_nil_r.
    - destruct (body s0 x) as [s1|e] eqn:Hb; simpl in Hrun; [|done].
      rewrite cons_middle, app_assoc. apply (IH _ s1); [|done].
      by eapply Hstep. }
  apply (Hgen [] s Hinit).
Qed.

Lemma for_each_total {A S} (xs : list A) (body : S -> A -> result S) (s : S) :
  (forall s0 x, x ∈ xs -> exists s1, body s0 x = Ok s1) ->
  exists s', for_each xs body s = Ok s'.
Proof.
  revert s. induction xs as [|x xs IH]; intros s Hbody; simpl; [by eexists|].
  destruct (Hbody s x) as [s1 ->]; [by left|]. simpl.
  apply IH. intros s0 y Hy. apply Hbody. by right.
Qed.

Lemma snoc_split {A} (pre l1 l2 : list A) (x y : A) :
  pre ++ [x] = l1 ++ y :: l2 ->
  (l2 = [] /\ l1 = pre /\ y = x)
  \/ (exists l2', l2 = l2' ++ [x] /\ pre = l1 ++ y :: l2').
Proof.
  destruct l2 as [|z l2 _] using rev_ind; intros Heq.
  - apply app_inj_tail in Heq as [-> ->]. by left.
  - rewrite app_comm_cons, app_assoc in Heq.
    apply app_inj_tail in Heq as [-> ->]. right. by exists l2.
Qed.

Section Validation.
Import FixtureManager.

Lemma pin_reused_snoc outs out pin m :
  pin_reused (outs ++ [(out, pin)]) m
  <-> pin_reused outs m
      \/ (PinConfig.gpio pin ∈ (pin_of <$> outs)
          /\ m = PinUsedOnMultipleOutputs (PinConfig.gpio pin)).
Proof.
  split.
  - intros (earlier & out' & pin' & later & Heq & Hin & ->).
    apply snoc_split in Heq as [(-> & -> & [= <- <-])|(later' & -> & ->)].
    + by right.
    + left. by exists earlier, out', pin', later'.
  - intros [(earlier & out' & pin' & later & -> & Hin & ->)|[Hin ->]].
    + exists earlier, out', pin', (later ++ [(out, pin)]).
      by rewrite <- app_assoc.
    + by exists outs, out, pin, [].
Qed.

Lemma label_reused_snoc strips out pin strip m :
  label_reused (strips ++ [(out, pin, strip)]) m
  <-> label_reused strips m
      \/ (LedStrip.label strip ∈ (label_of <$> strips)
          /\ m = LabelUsedOnMultipleStrips out (LedStrip.label strip)).
Proof.
  split.
  - intros (earlier & out' & pin' & strip' & later & Heq & Hin & ->).
    apply snoc_split in Heq as [(-> & -> & [= <- <- <-])|(later' & -> & ->)].
    + by right.
    + left. by exists earlier, out', pin', strip', later'.
  - intros [(earlier & out' & pin' & strip' & later & -> & Hin & ->)|[Hin ->]].
    + exists earlier, out', pin', strip', (later ++ [(out, pin, strip)]).
      by rewrite <- app_assoc.
    + by exists strips, out, pin, strip, [].
Qed.

Lemma overflows_snoc strips out pin strip ty m :
  Fixture.from_string (PinConfig.pixel_type pin) = Ok ty ->
  overflows (strips ++ [(out, pin, strip)]) m
  <-> overflows strips m
      \/ (last_channel ty strip > DMX_UNI_SIZE
          /\ m = DoesNotFitUniverse out (LedStrip.label strip)).
Proof.
  intros Hty. split.
  - intros (out' & pin' & strip' & ty' & Hin & Hty' & Hover & ->).
    apply elem_of_app in Hin as [Hin|Hin].
    + left. by exists out', pin', strip', ty'.
    + apply list_elem_of_singleton in Hin as [= -> -> ->].
      right. rewrite Hty in Hty'. by injection Hty' as <-.
  - intros [(out' & pin' & strip' & ty' & Hin & Hty' & Hover & ->)|[Hover ->]].
    + exists out', pin', strip', ty'. split; [|done].
      apply elem_of_app. by left.
    + exists out, pin, strip, ty. split; [|done].
      apply elem_of_app. right. by apply list_elem_of_singleton.
Qed.

Lemma validate_strip_checked outs strips out pin s strip s1 :
  checked outs strips s ->
  validate_strip out pin s strip = Ok s1 ->
  checked outs (strips ++ [(out, pin, strip)]) s1.
Proof.
  intros [Hgpio Hlabels Hlog Hvalid]. unfold validate_strip.
  destruct (Fixture.from_string (PinConfig.pixel_type pin)) as [ty|e] eqn:Hty;
    simpl; [|done].
  fold (last_channel ty strip).
  pose proof (fun m => overflows_snoc strips out pin strip ty m Hty) as Hover.
  pose proof (label_reused_snoc strips out pin strip) as Hreuse.
  assert (forall l, l ∈ label_of <$> strips ++ [(out, pin, strip)]
                    <-> l ∈ (label_of <$> strips) \/ l = LedStrip.label strip)
    as Hlab.
  { intros l. rewrite fmap_app, elem_of_app. simpl.
    by rewrite list_elem_of_singleton. }
  set (s' := if bool_decide (LedStrip.label strip ∈ declared_labels s)
             then _ else _).
  assert (declared_gpio s' = declared_gpio s
          /\ (forall l, l ∈ declared_labels s'
                        <-> l ∈ declared_labels s \/ l = LedStrip.label strip)
          /\ (forall m, m ∈ logmessage s'
                        <-> m ∈ logmessage s
                            \/ (LedStrip.label strip ∈ declared_labels s
                                /\ m = LabelUsedOnMultipleStrips out
                                         (LedStrip.label strip)))
          /\ (tmp_valid s' = true <-> logmessage s' = []))
    as (Hg' & Hl' & Hm' & Hv').
  { subst s'. case_bool_decide as Hin; simpl.
    - split; [done|]. split; [intuition (subst; auto)|]. split.
      + intros m. rewrite elem_of_app, list_elem_of_singleton. intuition (subst; auto).
      + split; [done|]. by intros [? ?]%app_eq_nil.
    - split; [done|]. split.
      + intros l. by rewrite elem_of_app, list_elem_of_singleton.
      + split; [intuition (subst; auto)|done]. }
  case_bool_decide as Hfit; intros [= <-]; split; simpl.
  - intros g. by rewrite Hg'.
  - intros l. by rewrite Hlab, Hl', Hlabels.
  - intros m. rewrite elem_of_app, list_elem_of_singleton.
    rewrite Hm', Hlog, Hover, Hreuse, Hlabels. intuition (subst; auto).
  - split; [done|]. by intros [? ?]%app_eq_nil.
  - intros g. by rewrite Hg'.
  - intros l. by rewrite Hlab, Hl', Hlabels.
  - intros m. rewrite Hm', Hlog, Hover, Hreuse, Hlabels. intuition (subst; auto).
  - done.
Qed.

Lemma declared_strips_snoc outs out pin :
  declared_strips (FullConfig.mk (outs ++ [(out, pin)]))
  = declared_strips (FullConfig.mk outs)
    ++ ((fun strip => (out, pin, strip)) <$> PinConfig.strips pin).
Proof.
  unfold declared_strips. simpl. rewrite bind_app. simpl.
  by rewrite app_nil_r.
Qed.

Lemma validate_output_checked outs s out pin s' :
  checked outs (declared_strips (FullConfig.mk outs)) s ->
  validate_output s (out, pin) = Ok s' ->
  checked (outs ++ [(out, pin)])
    (declared_strips (FullConfig.mk (outs ++ [(out, pin)]))) s'.
Proof.
  intros [Hgpio Hlabels Hlog Hvalid]. unfold validate_output.
  set (s1 := if bool_decide (PinConfig.gpio pin ∈ declared_gpio s)
             then _ else _).
  intros Hrun. rewrite declared_strips_snoc.
  set (done_strips := declared_strips (FullConfig.mk outs)) in *.
  apply (for_each_prefix
           (fun pre s0 =>
              checked (outs ++ [(out, pin)])
                (done_strips ++ ((fun strip => (out, pin, strip)) <$> pre)) s0)
           _ _ _ _) in Hrun; [done| |].
  - simpl. rewrite app_nil_r.
    pose proof (pin_reused_snoc outs out pin) as Hreuse.
    assert (forall g, g ∈ pin_of <$> outs ++ [(out, pin)]
                      <-> g ∈ (pin_of <$> outs) \/ g = PinConfig.gpio pin)
      as Hpins.
    { intros g. rewrite fmap_app, elem_of_app. simpl.
      by rewrite list_elem_of_singleton. }
    subst s1. case_bool_decide as Hin; split; simpl.
    + intros g. rewrite Hpins, Hgpio. apply Hgpio in Hin.
      intuition (subst; auto).
    + done.
    + intros m. rewrite elem_of_app, list_elem_of_singleton, Hlog, Hreuse.
      apply Hgpio in Hin. intuition (subst; auto).
    + split; [done|]. by intros [? ?]%app_eq_nil.
    + intros g. by rewrite elem_of_app, list_elem_of_singleton, Hpins, Hgpio.
    + done.
    + intros m. rewrite Hlog, Hreuse, <- Hgpio. intuition (subst; auto).
    + done.
  - intros pre strip s0 s2 Hchecked Hstep.
    rewrite fmap_app, app_assoc. simpl.
    by eapply validate_strip_checked.
Qed.

Lemma validation_checked (cfg : FullConfig.t) s :
  for_each (FullConfig.outputs cfg) validate_output (mk_vstate true [] [] [])
  = Ok s ->
  checked (FullConfig.outputs cfg) (declared_strips cfg) s.
Proof.
  intros Hrun. destruct cfg as [outs]. simpl in *.
  apply (for_each_prefix
           (fun pre s0 => checked pre (declared_strips (FullConfig.mk pre)) s0)
           _ _ _ _) in Hrun; [done| |].
  - split; simpl; try done.
    intros m. split; [by intros ?%elem_of_nil|].
    intros [(earlier & ? & ? & ? & Heq & _)
           |[(earlier & ? & ? & ? & ? & Heq & _)|(? & ? & ? & ? & Hin & _)]].
    + by destruct earlier.
    + by destruct earlier.
    + by apply elem_of_nil in Hin.
  - intros pre [out pin] s0 s1. apply validate_output_checked.
Qed.

Lemma from_string_valid (value : string) :
  PinConfig.validate_fixture_type value = true ->
  exists ty, Fixture.from_string value = Ok ty.
Proof.
  unfold PinConfig.validate_fixture_type. rewrite bool_decide_eq_true.
  unfold Fixture.getFixtureNames, Fixture.members. simpl.
  rewrite !elem_of_cons, elem_of_nil.
  intros [->|[->|[->|[->|[]]]]]; by eexists.
Qed.

Lemma validation_total (cfg : FullConfig.t) :
  valid_pixel_types cfg ->
  exists s,
    for_each (FullConfig.outputs cfg) validate_output (mk_vstate true [] [] [])
    = Ok s.
Proof.
  intros Hvalid. apply for_each_total. intros s0 [out pin] Hin.
  unfold valid_pixel_types in Hvalid. rewrite Forall_forall in Hvalid.
  unfold validate_output. apply for_each_total. intros s1 strip _.
  destruct (from_string_valid _ (Hvalid (out, pin) Hin)) as [ty Hty].
  simpl in Hty. unfold validate_strip. rewrite Hty. simpl. case_bool_decide; by eexists.
Qed.

(** With valid pixel types the validation visits the whole configuration
    and its text holds exactly the offenders. *)
Lemma validate_cfg_collects (cfg : FullConfig.t) :
  valid_pixel_types cfg ->
  exists msgs,
    (forall m, m ∈ msgs <-> violation cfg m)
    /\ _validate_cfg cfg
       = match msgs with
         | [] => ([ValidDmxConfiguration], Ok tt)
         | _ => ([InvalidDmxConfiguration], Raise (ValueError msgs))
         end.
Proof.
  intros Hvalid. destruct (validation_total cfg Hvalid) as [s Hrun].
  pose proof (validation_checked cfg s Hrun) as [_ _ Hlog Hflag].
  exists (logmessage s). split; [done|].
  unfold _validate_cfg. rewrite Hrun.
  destruct (tmp_valid s) eqn:Hok; simpl.
  - by rewrite (proj1 Hflag eq_refl).
  - destruct (logmessage s); [|done].
    destruct Hflag as [_ Hflag]. specialize (Hflag eq_refl). congruence.
Qed.

(** An accepted configuration has no offender. *)
Lemma validate_cfg_accepts (cfg : FullConfig.t) lines :
  _validate_cfg cfg = (lines, Ok tt) -> forall m, ~ violation cfg m.
Proof.
  unfold _validate_cfg.
  destruct (for_each _ _ _) as [s|e] eqn:Hrun; [|done].
  pose proof (validation_checked cfg s Hrun) as [_ _ Hlog Hflag].
  destruct (tmp_valid s); simpl; [|done].
  intros _ m Hm. apply Hlog in Hm.
  rewrite (proj1 Hflag eq_refl) in Hm. by apply elem_of_nil in Hm.
Qed.

(** C4. A configuration with any offender - a pin used by two outputs, a
    label used by two strips, a strip running past channel 512 - is
    checked from end to end: construction raises one validation error
    whose text names every offender, and neither index is touched. *)
Theorem invalid_configuration_rejected (self : FixtureManager.t)
    (cfg : FullConfig.t) :
  valid_pixel_types cfg ->
  (exists m, violation cfg m) ->
  exists msgs,
    (forall m, m ∈ msgs <-> violation cfg m)
    /\ _patch_fixtures self cfg
       = (self, [InvalidDmxConfiguration], Raise (ValueError msgs))
    /\ __init__ cfg = ([InvalidDmxConfiguration], Raise (ValueError msgs)).
Proof.
  intros Hvalid [m Hm].
  destruct (validate_cfg_collects cfg Hvalid) as (msgs & Hmsgs & Hrun).
  exists msgs. split; [done|].
  destruct msgs as [|m0 msgs].
  { apply Hmsgs in Hm. by apply elem_of_nil in Hm. }
  unfold __init__, _patch_fixtures. by rewrite Hrun.
Qed.
End Validation.

Lemma invalid_configuration_rejected_witness :
  valid_pixel_types sample_cfg_invalid
  /\ violation sample_cfg_invalid (PinUsedOnMultipleOutputs gpio18)
  /\ exists msgs,
       (forall m, m ∈ msgs <-> violation sample_cfg_invalid m)
       /\ FixtureManager.__init__ sample_cfg_invalid
          = ([InvalidDmxConfiguration], Raise (ValueError msgs)).
Proof.
  assert (valid_pixel_types sample_cfg_invalid) as Hvalid
    by (repeat constructor).
  assert (violation sample_cfg_invalid (PinUsedOnMultipleOutputs gpio18))
    as Hbad.
  { left.
    exists [(OUT1, PinConfig.mk gpio18 "rgb8"
                     [LedStrip.mk "a" 10 1 1; LedStrip.mk "a" 10 1 31])],
      OUT2, (PinConfig.mk gpio18 "rgbw8" [LedStrip.mk "z" 170 2 1]), [].
    split; [reflexivity|]. split; [|reflexivity]. simpl. left. }
  split; [exact Hvalid|]. split; [exact Hbad|].
  destruct (invalid_configuration_rejected (FixtureManager.mk [] ∅)
              sample_cfg_invalid Hvalid (ex_intro _ _ Hbad))
    as (msgs & Hmsgs & _ & Hinit).
  exists msgs. split; [exact Hmsgs|exact Hinit].
Defined.

(** ** The bubble sort of the by-universe index *)

Section BubbleSort.
Import FixtureManager.

Local Abbreviation key := FixturePatch.start_channel.

Lemma swap_if_greater_middle (pre : list FixturePatch.t) x y l :
  swap_if_greater (pre ++ x :: y :: l) (length pre)
  = if bool_decide (key x > key y) then pre ++ y :: x :: l
    else pre ++ x :: y :: l.
Proof.
  unfold swap_if_greater.
  rewrite (list_lookup_middle pre (y :: l) x (length pre)) by done.
  replace (S (length pre)) with (length (pre ++ [x])) at 1
    by (rewrite length_app; simpl; lia).
  rewrite (cons_middle x pre (y :: l)), app_assoc.
  rewrite (list_lookup_middle (pre ++ [x]) l y) by done.
  case_bool_decide; [|done].
  rewrite <- app_assoc. simpl.
  rewrite insert_app_r_alt by lia. rewrite Nat.sub_diag. simpl.
  rewrite insert_app_r_alt by lia.
  replace (S (length pre) - length pre)%nat with 1%nat by lia. done.
Qed.

Lemma foldl_swap_carry (l pre : list FixturePatch.t) x :
  foldl swap_if_greater (pre ++ x :: l) (seq (length pre) (length l))
  = pre ++ carry x l.
Proof.
  revert pre x. induction l as [|y l IH]; intros pre x; simpl; [done|].
  rewrite swap_if_greater_middle. case_bool_decide.
  - specialize (IH (pre ++ [y]) x). rewrite length_app in IH. simpl in IH.
    rewrite Nat.add_1_r, <- !app_assoc in IH. exact IH.
  - specialize (IH (pre ++ [x]) y). rewrite length_app in IH. simpl in IH.
    rewrite Nat.add_1_r, <- !app_assoc in IH. exact IH.
Qed.

Lemma bubble_pass_pass (l : list FixturePatch.t) : bubble_pass l = pass l.
Proof.
  unfold bubble_pass. destruct l as [|x l]; [done|]. simpl.
  rewrite Nat.sub_0_r. apply (foldl_swap_carry l [] x).
Qed.

Lemma foldl_ignore_index {A B} (f : A -> A) (a : A) (xs : list B) :
  foldl (fun acc _ => f acc) a xs = Nat.iter (length xs) f a.
Proof.
  revert a. induction xs as [|x xs IH]; intros a; simpl; [done|].
  by rewrite IH, <- Nat.iter_succ_r.
Qed.

Lemma bubblesort_iter (l : list FixturePatch.t) :
  bubblesort l = Nat.iter (length l - 1) pass l.
Proof.
  unfold bubblesort. rewrite foldl_ignore_index, length_seq.
  induction (length l - 1)%nat as [|n IH]; simpl; [done|].
  by rewrite IH, bubble_pass_pass.
Qed.

Lemma carry_perm x l : carry x l ≡ₚ x :: l.
Proof.
  revert x. induction l as [|y l IH]; intros x; simpl; [done|].
  case_bool_decide; rewrite IH; [apply Permutation_swap|done].
Qed.

Lemma pass_perm l : pass l ≡ₚ l.
Proof. destruct l; [done|]. apply carry_perm. Qed.

(** Elements with the same start channel keep their relative order. *)
Lemma carry_stable (c : Z) x l :
  filter (fun p => key p = c) (carry x l)
  = filter (fun p => key p = c) (x :: l).
Proof.
  revert x. induction l as [|y l IH]; intros x; simpl; [done|].
  case_bool_decide as Hgt.
  - rewrite filter_cons, IH, !filter_cons.
    repeat case_decide; try done; lia.
  - by rewrite filter_cons, IH, !filter_cons.
Qed.

Lemma pass_stable (c : Z) l :
  filter (fun p => key p = c) (pass l) = filter (fun p => key p = c) l.
Proof. destruct l; [done|]. apply carry_stable. Qed.

(** A pass leaves a largest element last. *)
Lemma carry_max_last x l :
  exists front m,
    carry x l = front ++ [m]
    /\ length front = length l
    /\ key x <= key m
    /\ Forall (fun p => key p <= key m) front.
Proof.
  revert x. induction l as [|y l IH]; intros x; simpl.
  - exists [], x. by repeat split.
  - case_bool_decide as Hgt.
    + destruct (IH x) as (front & m & -> & Hlen & Hx & Hall).
      exists (y :: front), m. simpl. repeat split; [by rewrite Hlen|done|].
      constructor; [lia|done].
    + destruct (IH y) as (front & m & -> & Hlen & Hy & Hall).
      exists (x :: front), m. simpl. repeat split; [by rewrite Hlen|lia|].
      constructor; [lia|done].
Qed.

Lemma carry_below_last x l m :
  key x <= key m -> Forall (fun p => key p <= key m) l ->
  carry x (l ++ [m]) = carry x l ++ [m].
Proof.
  revert x. induction l as [|y l IH]; intros x Hx Hall; simpl.
  - by rewrite bool_decide_false by lia.
  - apply Forall_cons in Hall as [Hy Hall].
    case_bool_decide; simpl; by rewrite IH.
Qed.

Lemma pass_below_last l m :
  Forall (fun p => key p <= key m) l -> pass (l ++ [m]) = pass l ++ [m].
Proof.
  destruct l as [|x l]; [done|]. intros [Hx Hall]%Forall_cons.
  by apply carry_below_last.
Qed.

Lemma iter_pass_below_last n l m :
  Forall (fun p => key p <= key m) l ->
  Nat.iter n pass (l ++ [m]) = Nat.iter n pass l ++ [m].
Proof.
  revert l. induction n as [|n IH]; intros l Hall; [done|].
  rewrite !Nat.iter_succ_r, pass_below_last by done.
  apply IH. by rewrite pass_perm.
Qed.

Lemma sorted_snoc l m :
  StronglySorted by_start_channel l ->
  Forall (fun p => key p <= key m) l ->
  StronglySorted by_start_channel (l ++ [m]).
Proof.
  induction 1 as [|x l Hsorted IH Hx]; intros Hall; simpl.
  - repeat constructor.
  - apply Forall_cons in Hall as [Hxm Hall]. constructor; [by apply IH|].
    apply Forall_app. split; [done|]. by constructor.
Qed.

Lemma iter_pass_sorted n l :
  (length l ≤ S n)%nat -> StronglySorted by_start_channel (Nat.iter n pass l).
Proof.
  revert l. induction n as [|n IH]; intros l Hlen.
  - destruct l as [|x [|y l]]; simpl in *; [constructor| |lia].
    by repeat constructor.
  - rewrite Nat.iter_succ_r. destruct l as [|x l]; simpl.
    + clear. induction n as [|n IHn]; [constructor|].
      by rewrite Nat.iter_succ_r.
    + destruct (carry_max_last x l) as (front & m & -> & Hfront & _ & Hall).
      rewrite iter_pass_below_last by done.
      apply sorted_snoc; [apply IH; simpl in Hlen; lia|].
      clear -Hall. induction n as [|n IHn]; [done|].
      rewrite Nat.iter_succ. by rewrite pass_perm.
Qed.

Lemma iter_pass_perm n l : Nat.iter n pass l ≡ₚ l.
Proof.
  induction n as [|n IH]; [done|]. rewrite Nat.iter_succ.
  by rewrite pass_perm.
Qed.

Lemma iter_pass_stable (c : Z) n l :
  filter (fun p => key p = c) (Nat.iter n pass l)
  = filter (fun p => key p = c) l.
Proof.
  induction n as [|n IH]; [done|]. by rewrite Nat.iter_succ, pass_stable.
Qed.

Lemma bubblesort_sorted l : StronglySorted by_start_channel (bubblesort l).
Proof. rewrite bubblesort_iter. apply iter_pass_sorted. lia. Qed.

Lemma bubblesort_perm l : bubblesort l ≡ₚ l.
Proof. rewrite bubblesort_iter. apply iter_pass_perm. Qed.

Lemma bubblesort_stable (c : Z) l :
  filter (fun p => key p = c) (bubblesort l) = filter (fun p => key p = c) l.
Proof. rewrite bubblesort_iter. apply iter_pass_stable. Qed.
End BubbleSort.

(** ** Building the two indexes *)

Section Patching.
Import FixtureManager.

Lemma patch_strip_step pin ty s strip queue :
  Fixture.from_string (PinConfig.pixel_type pin) = Ok ty ->
  PyDict.get (by_out s) (PinConfig.gpio pin) = Some queue ->
  patch_strip pin s strip
  = Ok (mk_pstate
          (PyDict.set (by_out s) (PinConfig.gpio pin)
             (queue ++ [patch_of pin ty (strip_queue_pos s) strip]))
          (uni_add (by_uni s) (patch_of pin ty (strip_queue_pos s) strip))
          (S (strip_queue_pos s))).
Proof.
  intros Hty Hqueue. unfold patch_strip. rewrite Hty. simpl. rewrite Hqueue.
  fold (patch_of pin ty (strip_queue_pos s) strip).
  do 2 f_equal. unfold uni_add. simpl.
  destruct (by_uni s !! LedStrip.universe strip) as [l|] eqn:Hl.
  - by rewrite Hl.
  - by rewrite lookup_insert_eq, insert_insert_eq.
Qed.

Lemma patch_strips_run pin ty strips s queue s' :
  Fixture.from_string (PinConfig.pixel_type pin) = Ok ty ->
  PyDict.get (by_out s) (PinConfig.gpio pin) = Some queue ->
  for_each strips (patch_strip pin) s = Ok s' ->
  PyDict.get (by_out s') (PinConfig.gpio pin)
  = Some (queue ++ patches_from pin ty (strip_queue_pos s) strips)
  /\ (forall k, k <> PinConfig.gpio pin ->
                PyDict.get (by_out s') k = PyDict.get (by_out s) k)
  /\ by_uni s'
     = foldl uni_add (by_uni s) (patches_from pin ty (strip_queue_pos s) strips).
Proof.
  intros Hty. revert s queue.
  induction strips as [|strip strips IH]; intros s queue Hqueue Hrun;
    simpl in Hrun.
  - injection Hrun as <-. simpl. by rewrite app_nil_r.
  - rewrite (patch_strip_step pin ty s strip queue Hty Hqueue) in Hrun.
    simpl in Hrun. apply IH with (queue := queue ++ [patch_of pin ty (strip_queue_pos s) strip]) in Hrun;
      [|apply PyDict_get_set_eq].
    simpl in Hrun. destruct Hrun as (Hout & Hother & Huni).
    split; [by rewrite Hout, <- app_assoc|]. split; [|done].
    intros k Hk. rewrite Hother by done. by apply PyDict_get_set_ne.
Qed.

Lemma patch_output_run out pin s s' :
  patch_output s (out, pin) = Ok s' ->
  (exists ty,
     PyDict.get (by_out s') (PinConfig.gpio pin)
     = Some (patches_from pin ty 0 (PinConfig.strips pin))
     /\ (PinConfig.strips pin <> [] ->
         Fixture.from_string (PinConfig.pixel_type pin) = Ok ty))
  /\ (forall k, k <> PinConfig.gpio pin ->
                PyDict.get (by_out s') k = PyDict.get (by_out s) k)
  /\ by_uni s'
     = foldl uni_add (by_uni s)
         (declared_patches (FullConfig.mk [(out, pin)])).
Proof.
  unfold patch_output, declared_patches. simpl. rewrite app_nil_r.
  set (s1 := mk_pstate _ _ _). intros Hrun.
  destruct (PinConfig.strips pin) as [|strip strips] eqn:Hstrips.
  - simpl in Hrun. injection Hrun as <-. simpl.
    split; [|split].
    + exists Fixture.PX_RGB_8. split; [apply PyDict_get_set_eq|done].
    + intros k Hk. by apply PyDict_get_set_ne.
    + by destruct (Fixture.from_string _).
  - destruct (Fixture.from_string (PinConfig.pixel_type pin)) as [ty|e] eqn:Hty.
    + apply (patch_strips_run pin ty _ s1 []) in Hrun;
        [|done|apply PyDict_get_set_eq].
      destruct Hrun as (Hout & Hother & Huni). split; [|split].
      * exists ty. by split.
      * intros k Hk. rewrite Hother by done. by apply PyDict_get_set_ne.
      * done.
    + simpl in Hrun. unfold patch_strip in Hrun. by rewrite Hty in Hrun.
Qed.

Lemma declared_patches_snoc outs out pin :
  declared_patches (FullConfig.mk (outs ++ [(out, pin)]))
  = declared_patches (FullConfig.mk outs)
    ++ declared_patches (FullConfig.mk [(out, pin)]).
Proof. unfold declared_patches. simpl. by rewrite bind_app. Qed.

Lemma patching_run (cfg : FullConfig.t) s :
  for_each (FullConfig.outputs cfg) patch_output (mk_pstate [] ∅ 0) = Ok s ->
  patched (FullConfig.outputs cfg) s.
Proof.
  apply (for_each_prefix patched).
  - split; [done|]. by intros k queue.
  - intros pre [out pin] s0 s1 [Huni Hout] Hstep.
    apply patch_output_run in Hstep as ((ty & Hnew & Hty) & Hother & Huni').
    split.
    + by rewrite Huni', Huni, declared_patches_snoc, foldl_app.
    + intros k queue Hk. destruct (decide (k = PinConfig.gpio pin)) as [->|Hne].
      * rewrite Hnew in Hk. injection Hk as <-.
        exists out, pin, ty. repeat split; [|done].
        apply elem_of_app. right. by apply list_elem_of_singleton.
      * rewrite Hother in Hk by done.
        destruct (Hout k queue Hk) as (out' & pin' & ty' & Hin & Hrest).
        exists out', pin', ty'. split; [|done]. apply elem_of_app. by left.
Qed.

Lemma uni_add_lookup m p u :
  uni_add m p !! u
  = if decide (FixturePatch.universe p = u)
    then Some (default [] (m !! u) ++ [p]) else m !! u.
Proof.
  unfold uni_add. case_decide as Hu.
  - subst u. by rewrite lookup_insert_eq.
  - by rewrite lookup_insert_ne.
Qed.

Lemma foldl_uni_add_lookup ps m u :
  foldl uni_add m ps !! u
  = match filter (fun p => FixturePatch.universe p = u) ps with
    | [] => m !! u
    | l => Some (default [] (m !! u) ++ l)
    end.
Proof.
  revert m. induction ps as [|p ps IH]; intros m; simpl; [done|].
  rewrite IH, uni_add_lookup, filter_cons. case_decide as Hu; simpl.
  - destruct (filter _ ps); [done|]. by rewrite <- app_assoc.
  - done.
Qed.

(** The by-universe query returns the bubble-sorted strips of that
    universe, taken in declaration order. *)
Lemma get_fixtures_by_uni_built self cfg self' lines u :
  _patch_fixtures self cfg = (self', lines, Ok tt) ->
  get_fixtures_by_uni self' u
  = bubblesort
      (filter (fun p => FixturePatch.universe p = u) (declared_patches cfg)).
Proof.
  unfold _patch_fixtures. destruct (_validate_cfg cfg) as [lines' [[]|e]];
    [|intros [= _ _]].
  destruct (for_each _ _ _) as [s|e] eqn:Hrun; [|done].
  intros [= <- _]. apply patching_run in Hrun as [Huni _].
  unfold get_fixtures_by_uni. simpl.
  rewrite lookup_fmap, Huni, foldl_uni_add_lookup, lookup_empty.
  destruct cfg as [outs]. simpl.
  by destruct (filter _ (declared_patches _)).
Qed.

Lemma patch_strips_total pin ty strips s queue :
  Fixture.from_string (PinConfig.pixel_type pin) = Ok ty ->
  PyDict.get (by_out s) (PinConfig.gpio pin) = Some queue ->
  exists s', for_each strips (patch_strip pin) s = Ok s'.
Proof.
  intros Hty. revert s queue.
  induction strips as [|strip strips IH]; intros s queue Hqueue; simpl.
  - by eexists.
  - rewrite (patch_strip_step pin ty s strip queue Hty Hqueue). simpl.
    eapply IH. simpl. apply PyDict_get_set_eq.
Qed.

(** A configuration with valid pixel types and no offender is built. *)
Lemma valid_configuration_builds self (cfg : FullConfig.t) :
  valid_pixel_types cfg -> (forall m, ~ violation cfg m) ->
  exists self',
    _patch_fixtures self cfg = (self', [ValidDmxConfiguration], Ok tt).
Proof.
  intros Hvalid Hclean.
  destruct (validate_cfg_collects cfg Hvalid) as (msgs & Hmsgs & Hrun).
  destruct msgs as [|m msgs].
  - unfold _patch_fixtures. rewrite Hrun.
    destruct (for_each_total (FullConfig.outputs cfg) patch_output
                (mk_pstate [] ∅ 0)) as [s ->]; [|by eexists].
    intros s0 [out pin] Hin. unfold patch_output.
    unfold valid_pixel_types in Hvalid. rewrite Forall_forall in Hvalid.
    destruct (from_string_valid _ (Hvalid (out, pin) Hin)) as [ty Hty].
    simpl in Hty. eapply (patch_strips_total pin ty); [done|].
    simpl. apply PyDict_get_set_eq.
  - destruct (Hclean m). apply Hmsgs. by left.
Qed.

Lemma patches_from_origin pin ty pos strips p :
  p ∈ patches_from pin ty pos strips ->
  exists strip pos', strip ∈ strips /\ p = patch_of pin ty pos' strip.
Proof.
  revert pos. induction strips as [|strip strips IH]; intros pos; simpl.
  - by intros ?%elem_of_nil.
  - intros [->|Hin]%elem_of_cons.
    + exists strip, pos. split; [by left|done].
    + destruct (IH _ Hin) as (strip' & pos' & Hin' & ->).
      exists strip', pos'. split; [by right|done].
Qed.

Lemma declared_strips_elem (cfg : FullConfig.t) out pin strip :
  (out, pin) ∈ FullConfig.outputs cfg -> strip ∈ PinConfig.strips pin ->
  (out, pin, strip) ∈ declared_strips cfg.
Proof.
  intros Hout Hstrip. unfold declared_strips. apply list_elem_of_bind.
  exists (out, pin). split; [|done]. simpl. apply list_elem_of_fmap.
  by exists strip.
Qed.

(** Every strip of a built table comes from a declared strip. *)
Lemma in_table_origin self cfg self' lines p :
  _patch_fixtures self cfg = (self', lines, Ok tt) ->
  in_table self' p ->
  exists out pin strip ty pos,
    (out, pin, strip) ∈ declared_strips cfg
    /\ Fixture.from_string (PinConfig.pixel_type pin) = Ok ty
    /\ p = patch_of pin ty pos strip.
Proof.
  intros Hbuilt Hin.
  assert (forall out pin ty,
            (out, pin) ∈ FullConfig.outputs cfg ->
            (PinConfig.strips pin <> [] ->
             Fixture.from_string (PinConfig.pixel_type pin) = Ok ty) ->
            p ∈ patches_from pin ty 0 (PinConfig.strips pin) ->
            exists out pin strip ty pos,
              (out, pin, strip) ∈ declared_strips cfg
              /\ Fixture.from_string (PinConfig.pixel_type pin) = Ok ty
              /\ p = patch_of pin ty pos strip) as Hfrom.
  { intros out pin ty Hout Hty Hp.
    destruct (patches_from_origin _ _ _ _ _ Hp) as (strip & pos & Hstrip & ->).
    exists out, pin, strip, ty, pos. split; [by apply declared_strips_elem|].
    split; [|done]. apply Hty. intros Hnil. rewrite Hnil in Hstrip.
    by apply elem_of_nil in Hstrip. }
  destruct Hin as [(k & queue & Hget & Hp)|[u Hp]].
  - unfold _patch_fixtures in Hbuilt.
    destruct (_validate_cfg cfg) as [lines' [[]|e]]; [|by injection Hbuilt].
    destruct (for_each _ _ _) as [s|e] eqn:Hrun; [|done].
    injection Hbuilt as <- _. apply patching_run in Hrun as [_ Hout].
    destruct (Hout k queue Hget) as (out & pin & ty & Hin & _ & -> & Hty).
    by apply (Hfrom out pin ty).
  - rewrite (get_fixtures_by_uni_built _ _ _ _ u Hbuilt) in Hp.
    rewrite bubblesort_perm in Hp. apply list_elem_of_filter in Hp as [_ Hp].
    unfold declared_patches in Hp.
    apply list_elem_of_bind in Hp as ([out pin] & Hp & Hout). simpl in Hp.
    destruct (Fixture.from_string (PinConfig.pixel_type pin)) as [ty|e] eqn:Hty.
    + by apply (Hfrom out pin ty).
    + by apply elem_of_nil in Hp.
Qed.

(** C5. Every strip of a successfully built table ends at
    start_channel + pixel_count * footprint - 1, which is at most 512; a
    configuration with a strip running past 512 is rejected by the
    validation. *)
Theorem built_table_within_universe self (cfg : FullConfig.t) self' lines :
  _patch_fixtures self cfg = (self', lines, Ok tt) ->
  (forall p, in_table self' p ->
     FixturePatch.end_channel p
     = FixturePatch.start_channel p
       + FixturePatch.pixel_count p
         * Fixture.profile_size (FixturePatch.pixel_type p) - 1
     /\ FixturePatch.end_channel p <= 512)
  /\ (forall cfg' m,
        valid_pixel_types cfg' -> overflows (declared_strips cfg') m ->
        exists msgs,
          m ∈ msgs
          /\ _validate_cfg cfg'
             = ([InvalidDmxConfiguration], Raise (ValueError msgs))).
Proof.
  intros Hbuilt. split.
  - intros p Hin. split; [done|].
    destruct (in_table_origin _ _ _ _ _ Hbuilt Hin)
      as (out & pin & strip & ty & pos & Hstrip & Hty & ->).
    assert (_validate_cfg cfg = (lines, Ok tt)) as Hok.
    { unfold _patch_fixtures in Hbuilt.
      destruct (_validate_cfg cfg) as [lines' [[]|e]]; [|by injection Hbuilt].
      destruct (for_each _ _ _); [|done]. by injection Hbuilt as _ ->. }
    pose proof (validate_cfg_accepts cfg lines Hok
                  (DoesNotFitUniverse out (LedStrip.label strip))) as Hno.
    unfold FixturePatch.end_channel, patch_of. simpl.
    destruct (decide (last_channel ty strip > DMX_UNI_SIZE)) as [Hover|Hfit].
    + destruct Hno. right. right. by exists out, pin, strip, ty.
    + unfold last_channel, DMX_UNI_SIZE in Hfit. lia.
  - intros cfg' m Hvalid Hover.
    destruct (validate_cfg_collects cfg' Hvalid) as (msgs & Hmsgs & Hrun).
    assert (m ∈ msgs) as Hm by (apply Hmsgs; right; by right).
    exists msgs. split; [done|]. destruct msgs; [|done].
    by apply elem_of_nil in Hm.
Qed.

(** C6. The by-universe query of a built table returns that universe's
    strips in ascending order of start channel, whatever the declaration
    order, strips with equal start channels staying in declaration
    order; strips declared at channels 31 and 1 come back 1 first; a
    universe without strips gives the empty list. *)
Theorem by_universe_sorted_stable self (cfg : FullConfig.t) self' lines
    (universe : Z) :
  _patch_fixtures self cfg = (self', lines, Ok tt) ->
  let declared :=
    filter (fun p => FixturePatch.universe p = universe) (declared_patches cfg) in
  let found := get_fixtures_by_uni self' universe in
  StronglySorted by_start_channel found
  /\ found ≡ₚ declared
  /\ (forall c,
        filter (fun p => FixturePatch.start_channel p = c) found
        = filter (fun p => FixturePatch.start_channel p = c) declared)
  /\ (declared = [] -> found = [])
  /\ (let strip31 := LedStrip.mk "second" 5 7 31 in
      let strip1 := LedStrip.mk "first" 10 7 1 in
      let reversed :=
        FullConfig.mk [(OUT1, PinConfig.mk gpio18 "rgb8" [strip31; strip1])] in
      exists table,
        (__init__ reversed).2 = Ok table
        /\ get_fixtures_by_uni table 7
           = [patch_of (PinConfig.mk gpio18 "rgb8" [strip31; strip1])
                Fixture.PX_RGB_8 1 strip1;
              patch_of (PinConfig.mk gpio18 "rgb8" [strip31; strip1])
                Fixture.PX_RGB_8 0 strip31]
        /\ get_fixtures_by_uni table 8 = []).
Proof.
  intros Hbuilt declared found. subst found.
  rewrite (get_fixtures_by_uni_built _ _ _ _ universe Hbuilt). fold declared.
  split; [apply bubblesort_sorted|]. split; [apply bubblesort_perm|].
  split; [intros c; apply bubblesort_stable|]. split; [by intros ->|].
  eexists. split; [by vm_compute|]. by vm_compute.
Qed.
End Patching.

Lemma built_table_within_universe_witness :
  FixtureManager._patch_fixtures (FixtureManager.mk [] ∅) sample_cfg
  = ((FixtureManager._patch_fixtures (FixtureManager.mk [] ∅) sample_cfg).1.1,
     [ValidDmxConfiguration], Ok tt)
  /\ FixturePatch.end_channel
       (patch_of sample_pin Fixture.PX_RGB_8 0 (LedStrip.mk "second" 5 7 31))
     <= 512.
Proof.
  assert (FixtureManager._patch_fixtures (FixtureManager.mk [] ∅) sample_cfg
          = ((FixtureManager._patch_fixtures (FixtureManager.mk [] ∅)
                sample_cfg).1.1,
             [ValidDmxConfiguration], Ok tt)) as Hbuilt by (by vm_compute).
  split; [exact Hbuilt|].
  apply (built_table_within_universe _ _ _ _ Hbuilt).
  left. exists gpio18. eexists. split; [by vm_compute|]. left.
Defined.

Lemma by_universe_sorted_stable_witness :
  FixtureManager._patch_fixtures (FixtureManager.mk [] ∅) sample_cfg
  = ((FixtureManager._patch_fixtures (FixtureManager.mk [] ∅) sample_cfg).1.1,
     [ValidDmxConfiguration], Ok tt)
  /\ StronglySorted by_start_channel
       (FixtureManager.get_fixtures_by_uni
          (FixtureManager._patch_fixtures (FixtureManager.mk [] ∅) sample_cfg).1.1
          7).
Proof.
  assert (FixtureManager._patch_fixtures (FixtureManager.mk [] ∅) sample_cfg
          = ((FixtureManager._patch_fixtures (FixtureManager.mk [] ∅)
                sample_cfg).1.1,
             [ValidDmxConfiguration], Ok tt)) as Hbuilt by (by vm_compute).
  split; [exact Hbuilt|].
  apply (by_universe_sorted_stable _ _ _ _ 7 Hbuilt).
Defined.

(** ** The shared queue under interference *)

Section QueueFacts.
Context {A : Type}.
Implicit Types (q : Queue.t A) (a : Queue.action A).

Lemma act_maxsize q a : Queue.maxsize (Queue.act q a) = Queue.maxsize q.
Proof. destruct a; simpl; [done|]. by destruct (Queue.full q). Qed.


Lemma act_bounded q a :
  (length (Queue.items q) ≤ Queue.maxsize q)%nat ->
  (length (Queue.items (Queue.act q a)) ≤ Queue.maxsize q)%nat.
Proof.
  intros Hle. destruct a as [|x]; simpl.
  - destruct (Queue.items q); simpl in *; lia.
  - unfold Queue.full. case_bool_decide; simpl; [done|].
    rewrite length_app. simpl. lia.
Qed.

Lemma interfere_maxsize q acts :
  Queue.maxsize (Queue.interfere q acts) = Queue.maxsize q.
Proof.
  unfold Queue.interfere. revert q.
  induction acts as [|a acts IH]; intros q; simpl; [done|].
  by rewrite IH, act_maxsize.
Qed.


Lemma interfere_bounded q acts :
  (length (Queue.items q) ≤ Queue.maxsize q)%nat ->
  (length (Queue.items (Queue.interfere q acts)) ≤ Queue.maxsize q)%nat.
Proof.
  unfold Queue.interfere. revert q.
  induction acts as [|a acts IH]; intros q Hle; simpl; [done|].
  rewrite <- (act_maxsize q a).
  apply IH. rewrite act_maxsize. by apply act_bounded.
Qed.


Lemma full_false q :
  Queue.full q = false <-> (length (Queue.items q) < Queue.maxsize q)%nat.
Proof. unfold Queue.full. rewrite bool_decide_eq_false. lia. Qed.

Lemma full_true q :
  Queue.full q = true <-> (Queue.maxsize q ≤ length (Queue.items q))%nat.
Proof. unfold Queue.full. by rewrite bool_decide_eq_true. Qed.


Lemma put_with_room q x :
  Queue.closed q = false -> Queue.full q = false ->
  Queue.put q x
  = Queue.PutDone (Queue.mk (Queue.maxsize q) (Queue.items q ++ [x]) false).
Proof. intros Hopen Hroom. unfold Queue.put. by rewrite Hopen, Hroom. Qed.
End QueueFacts.

Section QueueCalls.
Context {A : Type}.
Implicit Types (q : Queue.t A).

Lemma put_done_bounded q x q' :
  Queue.put q x = Queue.PutDone q' ->
  Queue.maxsize q' = Queue.maxsize q
  /\ (length (Queue.items q') ≤ Queue.maxsize q)%nat.
Proof.
  unfold Queue.put. destruct (Queue.closed q); [done|].
  destruct (Queue.full q) eqn:Hfull; [done|].
  intros [= <-]. simpl. split; [done|].
  apply full_false in Hfull. rewrite length_app. simpl. lia.
Qed.

Lemma get_item_bounded q readable x q' :
  Queue.get_nowait q readable = Queue.GetItem x q' ->
  Queue.maxsize q' = Queue.maxsize q
  /\ S (length (Queue.items q')) = length (Queue.items q).
Proof.
  unfold Queue.get_nowait. destruct (Queue.closed q); [done|].
  destruct (Queue.items q) as [|y rest]; [done|].
  destruct readable; [|done]. by intros [= _ <-].
Qed.
End QueueCalls.

Section PushProperties.
Variable str : Z -> string.

Import sACNmanager.

End PushProperties.



Section ThrottleProperties.
Variable str : Z -> string.

Import sACNmanager.

Lemma throttle_threshold_value :
  timedelta.mul_float _queueRefreshDelta
    (fst timedelta.ratio_0_9) (snd timedelta.ratio_0_9) = 22500.
Proof. reflexivity. Qed.

Lemma push_due_decides (self : sACNmanager.t) (U now : Z) :
  push_due self U now
  <-> match lastQueueUpdateTs self !! U with
      | None => true
      | Some last => bool_decide (now - last >= 22500)
      end = true.
Proof.
  unfold push_due, cycle_period_us.
  destruct (lastQueueUpdateTs self !! U) as [last|]; [|done].
  rewrite bool_decide_eq_true.
  change (10 ^ 6 `div` WORKER_LED_REFRESH_RATE) with 25000. lia.
Qed.

(** C8. After a packet for universe U is accepted, the whole snapshot map
    is pushed exactly when U has no recorded push or at least 0.9 of the
    25 ms cycle (22.5 ms) has passed since U's last push; otherwise
    nothing is pushed and U's last-push time stays as it was. The map
    pushed holds, for U, the packet just accepted with its time of
    arrival, and for every other universe the snapshot stored before. *)
Theorem onPacketReceived_throttle
    (self : sACNmanager.t) (packet : DataPacket.t) (now : Z)
    (env : interleaving) :
  DataPacket.dmxStartCode packet = 0 ->
  let U := DataPacket.universe packet in
  let batch :=
    snapshot_dict str <$> <[U := TimedDataPacket.mk packet now]> (_db self) in
  _queueRefreshDelta = cycle_period_us
  /\ cycle_period_us = 25000
  /\ timedelta.mul_float _queueRefreshDelta
       (fst timedelta.ratio_0_9) (snd timedelta.ratio_0_9) = 22500
  /\ batch !! U
     = Some (UniverseData.mk_dict U (DataPacket.priority packet)
               (DataPacket.sourceName packet) (DataPacket.dmxData packet)
               (str now))
  /\ (forall u, u <> U -> batch !! u = snapshot_dict str <$> _db self !! u)
  /\ exists self1,
      _db self1 = <[U := TimedDataPacket.mk packet now]> (_db self)
      /\ lastQueueUpdateTs self1 = lastQueueUpdateTs self
      /\ sacnShareQueue self1 = sacnShareQueue self
      /\ (push_due self U now ->
          _onPacketReceived str self packet now env
          = _updateQueue str (stamp_push self1 U now) env
          /\ getAllUniverseDataDict str (stamp_push self1 U now) = batch
          /\ dom batch = {[U]} ∪ dom (_db self))
      /\ (~ push_due self U now ->
          _onPacketReceived str self packet now env = Returns self1)
      /\ (forall q, sacnShareQueue self = Some q ->
          Queue.closed q = false -> Queue.full q = false ->
          (push_due self U now <->
           exists self',
             _onPacketReceived str self packet now quiet = Returns self'
             /\ sacnShareQueue self'
                = Some (Queue.mk (Queue.maxsize q) (Queue.items q ++ [batch])
                          false)
             /\ lastQueueUpdateTs self' !! U = Some now)).
Proof.
  intros Hcode U batch. split; [done|]. split; [done|]. split; [done|].
  split; [subst batch; by rewrite lookup_fmap, lookup_insert_eq|].
  split; [intros u Hu; subst batch;
          by rewrite lookup_fmap, lookup_insert_ne|].
  unfold _onPacketReceived. rewrite bool_decide_false by (by intros []).
  rewrite throttle_threshold_value. simpl. fold U.
  set (line := match _db self !! U with Some _ => _ | None => _ end).
  set (self1 := sACNmanager.mk
                  (<[U := TimedDataPacket.mk packet now]> (_db self))
                  (lastQueueUpdateTs self) (_registeredUniverses self)
                  (sacnShareQueue self) (_logger self ++ line)).
  change (sACNmanager.mk (_db self1) (<[U := now]> (lastQueueUpdateTs self1))
            (_registeredUniverses self1) (sacnShareQueue self1)
            (_logger self1))
    with (stamp_push self1 U now).
  exists self1. split; [done|]. split; [done|]. split; [done|].
  pose proof (push_due_decides self U now) as Hdue.
  destruct (match lastQueueUpdateTs self !! U with
            | Some last => bool_decide (now - last >= 22500)
            | None => true
            end) eqn:Hcond.
  - assert (push_due self U now) as Hyes by by apply Hdue.
    split; [|split; [done|]].
    + intros _. split; [done|]. split; [done|].
      subst batch. by rewrite dom_fmap_L, dom_insert_L.
    + intros q Hq Hopen Hroom. split; [intros _|done].
      eexists. unfold _updateQueue. simpl. rewrite Hq, Hroom. simpl.
      rewrite put_with_room by done. split; [done|]. simpl.
      split; [done|]. by rewrite lookup_insert_eq.
  - assert (~ push_due self U now) as Hno.
    { intros Hyes. apply Hdue in Hyes. congruence. }
    split; [done|]. split; [done|].
    intros q Hq Hopen Hroom. split; [done|].
    intros (self' & [= <-] & Hqueue & _). simpl in Hqueue.
    rewrite Hq in Hqueue. injection Hqueue as Hqueue.
    apply (f_equal (fun q => length (Queue.items q))) in Hqueue.
    simpl in Hqueue. rewrite length_app in Hqueue. simpl in Hqueue. lia.
Qed.
End ThrottleProperties.

Lemma onPacketReceived_throttle_witness :
  DataPacket.dmxStartCode sample_packet = 0
  /\ ~ push_due sample_manager 7 23499
  /\ push_due sample_manager 7 23500
  /\ exists self1,
       sACNmanager._onPacketReceived sample_str sample_manager sample_packet
         23499 sACNmanager.quiet
       = sACNmanager.Returns self1
       /\ sACNmanager.lastQueueUpdateTs self1
          = sACNmanager.lastQueueUpdateTs sample_manager.
Proof.
  split; [reflexivity|].
  assert (~ push_due sample_manager 7 23499) as Hearly.
  { unfold push_due. vm_compute. intros H. apply H. reflexivity. }
  split; [exact Hearly|].
  split; [unfold push_due; vm_compute; discriminate|].
  destruct (onPacketReceived_throttle sample_str sample_manager sample_packet
              23499 sACNmanager.quiet eq_refl)
    as (_ & _ & _ & _ & _ & self1 & _ & Hlast & _ & _ & Hskip & _).
  exists self1. split; [exact (Hskip Hearly)|exact Hlast].
Defined.

(** ** sACN ingest manager *)

Section IngestProperties.
Variable str : Z -> string.

Import sACNmanager.

(** C10. [getUniverseData] raises [IndexError] for a universe with no
    captured packet and, for a captured one, returns the stored universe
    id, priority, source name, DMX bytes and the time stamp as a string. *)
Theorem getUniverseData_spec (self : sACNmanager.t) (universe : Z) :
  (_db self !! universe = None ->
   getUniverseData str self universe
   = Raise (IndexError [NoExistingRecord universe]))
  /\ (forall rec, _db self !! universe = Some rec ->
      exists data,
        getUniverseData str self universe = Ok data
        /\ UniverseData.universe data
           = DataPacket.universe (TimedDataPacket.raw rec)
        /\ UniverseData.priority data
           = DataPacket.priority (TimedDataPacket.raw rec)
        /\ UniverseData.sourceName data
           = DataPacket.sourceName (TimedDataPacket.raw rec)
        /\ UniverseData.dmxData data
           = DataPacket.dmxData (TimedDataPacket.raw rec)
        /\ UniverseData.latestTimeStamp data
           = str (TimedDataPacket.timeStamp rec)).
Proof.
  unfold getUniverseData. split.
  - by intros ->.
  - intros rec ->. eexists. by repeat split.
Qed.
End IngestProperties.

Lemma getUniverseData_spec_witness :
  sACNmanager._db sample_manager !! 8 = None
  /\ sACNmanager.getUniverseData sample_str sample_manager 8
     = Raise (IndexError [NoExistingRecord 8])
  /\ sACNmanager._db sample_manager !! 7
     = Some (TimedDataPacket.mk sample_packet 1000)
  /\ exists data,
       sACNmanager.getUniverseData sample_str sample_manager 7 = Ok data
       /\ UniverseData.dmxData data = DataPacket.dmxData sample_packet.
Proof.
  split; [reflexivity|].
  split; [apply (getUniverseData_spec sample_str sample_manager 8); reflexivity|].
  split; [reflexivity|].
  destruct (proj2 (getUniverseData_spec sample_str sample_manager 7)
              (TimedDataPacket.mk sample_packet 1000) eq_refl)
    as (data & Hget & _ & _ & _ & Hdmx & _).
  exists data. split; [exact Hget|exact Hdmx].
Defined.

(** ** Render worker *)

Section WorkerProperties.
Import Worker.

Lemma blackoutAll_get (bufs : PyDict.t GPIO Pi5PixelBuffer.t) pin buf :
  PyDict.get bufs pin = Some buf ->
  PyDict.get (blackoutAll bufs) pin
  = Some (Pi5PixelBuffer.mk (Pi5PixelBuffer.byteorder buf)
            (blackout_frame (length (Pi5PixelBuffer.pixels buf)))
            (Pi5PixelBuffer.transmitted buf
             ++ [blackout_frame (length (Pi5PixelBuffer.pixels buf))])).
Proof.
  intros Hget. unfold blackoutAll. rewrite PyDict_get_fmap, Hget. done.
Qed.

Lemma step_stopped patched (w : Worker.t) (evs : list event) :
  state w <> Running -> foldl (step patched) w evs = w.
Proof.
  intros Hstop. induction evs as [|ev evs IH]; simpl; [done|].
  assert (step patched w ev = w) as ->; [|done].
  unfold step. by destruct (state w).
Qed.

(** C9. A termination signal closes the worker's end of the channel,
    fills every output line of the buffer map with zeros and transmits
    that frame, and ends the process, so the last frame on every line is
    the blackout frame; the same blackout runs when logger initialisation
    fails, before any frame has been rendered. *)
Theorem sigterm_blackout
    (patched : PyDict.t GPIO (list FixturePatch.t)) (w : Worker.t) :
  state w = Running ->
  let w' := step patched w SIGTERM in
  queue_closed w' = true
  /\ state w' = Exited 0
  /\ PyDict.keys (pixelBuffers w') = PyDict.keys (pixelBuffers w)
  /\ (forall pin buf, PyDict.get (pixelBuffers w) pin = Some buf ->
      exists buf',
        PyDict.get (pixelBuffers w') pin = Some buf'
        /\ Pi5PixelBuffer.pixels buf'
           = blackout_frame (length (Pi5PixelBuffer.pixels buf))
        /\ last (Pi5PixelBuffer.transmitted buf')
           = Some (blackout_frame (length (Pi5PixelBuffer.pixels buf))))
  /\ (forall later, foldl (step patched) w' later = w')
  /\ (forall bufs events,
      let w0 := processSacnToGPIO patched bufs false events in
      state w0 = Exited 0
      /\ forall pin buf, PyDict.get bufs pin = Some buf ->
         exists buf',
           PyDict.get (pixelBuffers w0) pin = Some buf'
           /\ Pi5PixelBuffer.transmitted buf'
              = Pi5PixelBuffer.transmitted buf
                ++ [blackout_frame (length (Pi5PixelBuffer.pixels buf))]).
Proof.
  intros Hrun w'. subst w'. unfold step. rewrite Hrun. simpl.
  split; [done|]. split; [done|]. split; [apply PyDict_keys_fmap|].
  split; [|split].
  - intros pin buf Hget. eexists. split; [by apply blackoutAll_get|].
    simpl. split; [done|]. by rewrite last_snoc.
  - intros later. by apply step_stopped.
  - intros bufs events. simpl. split; [done|].
    intros pin buf Hget. eexists. split; [by apply blackoutAll_get|done].
Qed.

Lemma iteration_mismatch patched (w : Worker.t) raw :
  unpatched_outputs patched (pixelBuffers w) <> [] ->
  iteration patched w raw
  = Worker.mk (pixelBuffers w) (queue_closed w)
      (logger w
       ++ [OutputsNotInFixtureManager
             (unpatched_outputs patched (pixelBuffers w))])
      Returned.
Proof. intros Hne. unfold iteration. by rewrite bool_decide_true. Qed.

Lemma iteration_consistent patched (w : Worker.t) raw :
  unpatched_outputs patched (pixelBuffers w) = [] ->
  state (iteration patched w raw) <> Returned.
Proof.
  intros Heq. unfold iteration. rewrite bool_decide_false by (by intros []).
  by destruct (for_each _ _ _).
Qed.




(** C2, at a line whose first strip (two pixels, universe 4) has no
    snapshot in the batch: the pixel of the second strip is written at
    offset 0, over the first strip's pixels, and offset 2, where the
    second strip starts, keeps its old content. *)
Theorem skipped_strip_shifts_later_strips :
  Pi5PixelBuffer.pixels
    <$> PyDict.get
          (pixelBuffers
             (iteration two_strips (Worker.mk three_pixels false [] Running)
                universe5_only))
          gpio18
  = Some [[255; 128; 0]; [0; 0; 0]; [0; 0; 0]].
Proof. by vm_compute. Qed.
End WorkerProperties.


Lemma sigterm_blackout_witness :
  Worker.state sample_worker = Worker.Running
  /\ Worker.pixelBuffers (Worker.step [] sample_worker Worker.SIGTERM)
     = [(gpio18, Pi5PixelBuffer.mk "GRB" [[0; 0; 0]] [[[9; 9; 9]]; [[0; 0; 0]]])]
  /\ Worker.queue_closed (Worker.step [] sample_worker Worker.SIGTERM) = true.
Proof.
  split; [reflexivity|].
  split; [reflexivity|].
  apply (sigterm_blackout [] sample_worker). reflexivity.
Defined.

Section PixelAddressing.
Import Worker.

Lemma tuple_getitem_dmx_byte (data : list Z) (addr v : Z) :
  dmx_byte data addr = Some v -> tuple_getitem data (addr - 1) = Ok v.
Proof.
  unfold dmx_byte, tuple_getitem. case_bool_decide as Haddr; [|done].
  intros Hlook. cbv zeta. rewrite (bool_decide_false (addr - 1 < 0)) by lia. cbv iota.
  pose proof (lookup_lt_Some _ _ _ Hlook) as Hlt.
  rewrite bool_decide_true by lia. by rewrite Hlook.
Qed.

Lemma set_red_8 (p : Pixel.t) (v : Z) :
  Pixel.bitDepth p = 8 -> 0 <= v <= 255 ->
  Pixel.set_red p v
  = Ok (Pixel.mk 8 v (Pixel.green p) (Pixel.blue p) (Pixel.white p)).
Proof.
  intros Hdepth Hv. unfold Pixel.set_red, Pixel.maxValue. rewrite Hdepth.
  by rewrite bool_decide_true by (unfold Pixel.max_8b; simpl; lia).
Qed.

Lemma set_green_8 (p : Pixel.t) (v : Z) :
  Pixel.bitDepth p = 8 -> 0 <= v <= 255 ->
  Pixel.set_green p v
  = Ok (Pixel.mk 8 (Pixel.red p) v (Pixel.blue p) (Pixel.white p)).
Proof.
  intros Hdepth Hv. unfold Pixel.set_green, Pixel.maxValue. rewrite Hdepth.
  by rewrite bool_decide_true by (unfold Pixel.max_8b; simpl; lia).
Qed.

Lemma set_blue_8 (p : Pixel.t) (v : Z) :
  Pixel.bitDepth p = 8 -> 0 <= v <= 255 ->
  Pixel.set_blue p v
  = Ok (Pixel.mk 8 (Pixel.red p) (Pixel.green p) v (Pixel.white p)).
Proof.
  intros Hdepth Hv. unfold Pixel.set_blue, Pixel.maxValue. rewrite Hdepth.
  by rewrite bool_decide_true by (unfold Pixel.max_8b; simpl; lia).
Qed.

Lemma read_pixel_rgb8 (fixturePatch : FixturePatch.t) (L : locals)
    (dmxData : list Z) (px : nat) (r g b : Z) :
  rgb8_locals L ->
  dmx_byte dmxData
    (FixturePatch.start_channel fixturePatch + Z.of_nat px * 3 + 0) = Some r ->
  dmx_byte dmxData
    (FixturePatch.start_channel fixturePatch + Z.of_nat px * 3 + 1) = Some g ->
  dmx_byte dmxData
    (FixturePatch.start_channel fixturePatch + Z.of_nat px * 3 + 2) = Some b ->
  0 <= r <= 255 -> 0 <= g <= 255 -> 0 <= b <= 255 ->
  read_pixel fixturePatch L dmxData px = Ok (Pixel.mk 8 r g b 0).
Proof.
  intros (Hty & Hsize & Hoff & Hcount & Hinfo & Hdepth)
    Hr Hg Hb Hr255 Hg255 Hb255.
  destruct L as [off ty size offs count info p bufs]. simpl in *. subst.
  destruct p as [depth r0 g0 b0 w0]. simpl in Hdepth. subst depth.
  change (Fixture.channels_offset Fixture.PX_RGB_8) with [0; 1; 2].
  unfold read_pixel. simpl.
  unfold read_channel. simpl.
  change (Fixture.profile_size Fixture.PX_RGB_8) with 3 in *.
  rewrite (tuple_getitem_dmx_byte _ _ _ Hr). simpl.
  rewrite (set_red_8 _ r) by done. simpl.
  rewrite (tuple_getitem_dmx_byte _ _ _ Hg). simpl.
  rewrite (set_green_8 _ g) by done. simpl.
  rewrite (tuple_getitem_dmx_byte _ _ _ Hb). simpl.
  by rewrite (set_blue_8 _ b) by done.
Qed.

End PixelAddressing.


(** ** What a whole line receives in one iteration *)

Section LineRendering.
Import Worker.

Variable pin : GPIO.
Variable sacnData : gmap Z UniverseData.t.
Hypothesis snapshots_ok :
forall u uni, sacnData !! u = Some uni -> snapshot_ok (UniverseData.dmxData uni).

Lemma dmx_byte_in_range (dmxData : list Z) (addr : Z) :
snapshot_ok dmxData -> 1 <= addr <= 512 ->
exists v, dmx_byte dmxData addr = Some v /\ 0 <= v <= 255.
Proof.
intros [Hlen Hbytes] Haddr. unfold dmx_byte.
rewrite bool_decide_true by lia.
destruct (lookup_lt_is_Some_2 dmxData (Z.to_nat (addr - 1))) as [v Hv];
  [lia|].
exists v. split; [done|]. by eapply (proj1 (Forall_lookup _ _) Hbytes).
Qed.

Lemma read_pixel_strip (patch : FixturePatch.t) (L : locals)
  (dmxData : list Z) (px : nat) :
rgb8_locals L -> snapshot_ok dmxData -> rgb8_strip_ok patch ->
(px < Z.to_nat (FixturePatch.pixel_count patch))%nat ->
read_pixel patch L dmxData px
= Ok (rgb8_pixel dmxData (FixturePatch.start_channel patch) px).
Proof.
intros HL Hdata (Hty & Hstart & Hend) Hpx.
unfold FixturePatch.end_channel in Hend. rewrite Hty in Hend.
change (Fixture.profile_size Fixture.PX_RGB_8) with 3 in Hend.
destruct (dmx_byte_in_range dmxData
            (FixturePatch.start_channel patch + Z.of_nat px * 3 + 0) Hdata)
  as (r & Hr & Hr255); [lia|].
destruct (dmx_byte_in_range dmxData
            (FixturePatch.start_channel patch + Z.of_nat px * 3 + 1) Hdata)
  as (g & Hg & Hg255); [lia|].
destruct (dmx_byte_in_range dmxData
            (FixturePatch.start_channel patch + Z.of_nat px * 3 + 2) Hdata)
  as (b & Hb & Hb255); [lia|].
unfold rgb8_pixel. rewrite Hr, Hg, Hb. simpl.
by apply read_pixel_rgb8.
Qed.

Lemma render_pixel_strip (patch : FixturePatch.t) (L : locals)
  (dmxData : list Z) (px : nat) (buf : Pi5PixelBuffer.t) :
rgb8_locals L -> snapshot_ok dmxData -> rgb8_strip_ok patch ->
(px < Z.to_nat (FixturePatch.pixel_count patch))%nat ->
PyDict.get (buffers L) pin = Some buf ->
(offsetInQueue L < length (Pi5PixelBuffer.pixels buf))%nat ->
render_pixel pin patch dmxData L px
= Ok (mk_locals (S (offsetInQueue L)) (patch_px_type L)
        (patch_profile_size L) (patch_ch_offset L) (patch_ch_count L)
        (patch_ch_info L)
        (rgb8_pixel dmxData (FixturePatch.start_channel patch) px)
        (PyDict.set (buffers L) pin
           (Pi5PixelBuffer.mk (Pi5PixelBuffer.byteorder buf)
              (<[offsetInQueue L :=
                   Pixel.asTuple
                     (rgb8_pixel dmxData (FixturePatch.start_channel patch) px)
                     (Pi5PixelBuffer.byteorder buf)]>
                 (Pi5PixelBuffer.pixels buf))
              (Pi5PixelBuffer.transmitted buf)))).
Proof.
intros HL Hdata Hpatch Hpx Hbuf Hroom. unfold render_pixel.
rewrite read_pixel_strip by done. simpl. rewrite Hbuf.
unfold Pi5PixelBuffer.setitem. by rewrite bool_decide_true by done.
Qed.

Lemma render_pixels_run (patch : FixturePatch.t) (dmxData : list Z) (n : nat) :
snapshot_ok dmxData -> rgb8_strip_ok patch ->
forall (first : nat) (L : locals) (buf : Pi5PixelBuffer.t)
       (done_px rest : list (list Z)),
  rgb8_locals L ->
  PyDict.get (buffers L) pin = Some buf ->
  Pi5PixelBuffer.pixels buf = done_px ++ rest ->
  offsetInQueue L = length done_px ->
  (n ≤ length rest)%nat ->
  (first + n ≤ Z.to_nat (FixturePatch.pixel_count patch))%nat ->
  exists L',
    for_each (seq first n) (render_pixel pin patch dmxData) L = Ok L'
    /\ rgb8_locals L'
    /\ offsetInQueue L' = (length done_px + n)%nat
    /\ PyDict.get (buffers L') pin
       = Some (Pi5PixelBuffer.mk (Pi5PixelBuffer.byteorder buf)
                 (done_px
                  ++ strip_frame_from (Pi5PixelBuffer.byteorder buf) dmxData
                       (FixturePatch.start_channel patch) first n
                  ++ drop n rest)
                 (Pi5PixelBuffer.transmitted buf))
    /\ (forall k, k <> pin ->
                  PyDict.get (buffers L') k = PyDict.get (buffers L) k).
Proof.
intros Hdata Hpatch.
induction n as [|n IH];
  intros first L buf done_px rest HL Hbuf Hpixels Hoff Hroom Hcount; simpl.
- exists L. split; [done|]. split; [done|]. split; [lia|].
  split; [|done]. rewrite Hbuf. f_equal. destruct buf; simpl in *.
  by rewrite Hpixels.
- destruct rest as [|old rest]; [simpl in Hroom; lia|].
  rewrite (render_pixel_strip patch L dmxData first buf) by
    (try done; rewrite ?Hpixels, ?length_app, ?Hoff; simpl; lia).
  simpl. set (v := Pixel.asTuple _ _).
  set (L1 := mk_locals _ _ _ _ _ _ _ _).
  destruct (IH (S first) L1
              (Pi5PixelBuffer.mk (Pi5PixelBuffer.byteorder buf)
                 ((done_px ++ [v]) ++ rest) (Pi5PixelBuffer.transmitted buf))
              (done_px ++ [v]) rest)
    as (L' & Hrun & HL' & Hoff' & Hget' & Hother').
  + destruct HL as (? & ? & ? & ? & ? & ?). by repeat split.
  + subst L1. simpl. rewrite PyDict_get_set_eq. do 2 f_equal.
    rewrite Hpixels, Hoff, <- app_assoc. simpl.
    replace (length done_px) with (length done_px + 0)%nat at 1 by lia.
    by rewrite insert_app_r.
  + done.
  + subst L1. simpl. rewrite length_app. simpl. lia.
  + simpl in Hroom. lia.
  + lia.
  + exists L'. split; [done|]. split; [done|].
    split; [rewrite Hoff', length_app; simpl; lia|]. split.
    * rewrite Hget'. simpl. do 2 f_equal.
      unfold strip_frame_from. simpl. by rewrite <- app_assoc.
    * intros k Hk. rewrite Hother' by done. subst L1. simpl.
      by apply PyDict_get_set_ne.
Qed.

Lemma render_patch_run (patch : FixturePatch.t) (L : locals)
  (buf : Pi5PixelBuffer.t) (done_px rest : list (list Z)) :
round_locals L -> rgb8_strip_ok patch ->
PyDict.get (buffers L) pin = Some buf ->
Pi5PixelBuffer.pixels buf = done_px ++ rest ->
offsetInQueue L = length done_px ->
let frame := strip_frame (Pi5PixelBuffer.byteorder buf) sacnData patch in
(length frame ≤ length rest)%nat ->
exists L',
  render_patch pin sacnData L patch = Ok L'
  /\ rgb8_locals L'
  /\ offsetInQueue L' = (length done_px + length frame)%nat
  /\ PyDict.get (buffers L') pin
     = Some (Pi5PixelBuffer.mk (Pi5PixelBuffer.byteorder buf)
               (done_px ++ frame ++ drop (length frame) rest)
               (Pi5PixelBuffer.transmitted buf))
  /\ (forall k, k <> pin ->
                PyDict.get (buffers L') k = PyDict.get (buffers L) k).
Proof.
intros HL Hpatch Hbuf Hpixels Hoff frame Hroom. unfold render_patch.
set (L1 := match patch_px_type L with Some _ => L | None => _ end).
assert (rgb8_locals L1 /\ offsetInQueue L1 = offsetInQueue L
        /\ buffers L1 = buffers L) as (HL1 & Hoff1 & Hbufs1).
{ subst L1. destruct HL as [Hnone|HL].
  - rewrite Hnone. simpl. destruct Hpatch as (-> & _). by repeat split.
  - pose proof HL as (Hsome & _). rewrite Hsome. by split. }
rewrite bool_decide_false by (destruct HL1 as (-> & _); by intros []).
subst frame. unfold strip_frame in *. revert Hroom.
destruct (sacnData !! FixturePatch.universe patch) as [uni|] eqn:Huni;
  intros Hroom.
- unfold strip_frame_from in Hroom. rewrite length_fmap, length_seq in Hroom.
  destruct (render_pixels_run patch (UniverseData.dmxData uni)
              (Z.to_nat (FixturePatch.pixel_count patch))
              (snapshots_ok _ _ Huni) Hpatch 0%nat L1 buf done_px rest)
    as (L' & Hrun & HL' & Hoff' & Hget' & Hother');
    try done; try congruence; try lia.
  exists L'. unfold strip_frame_from at 1 3. rewrite length_fmap, length_seq.
  split; [done|]. split; [done|]. split; [done|]. split; [done|].
  intros k Hk. by rewrite Hother', Hbufs1.
- exists L1. simpl. split; [done|]. split; [done|]. split; [lia|].
  split; [|by rewrite Hbufs1]. rewrite Hbufs1, Hbuf. f_equal.
  destruct buf; simpl in *. by rewrite Hpixels.
Qed.

Lemma render_line_run (patches : list FixturePatch.t) :
Forall rgb8_strip_ok patches ->
forall (L : locals) (buf : Pi5PixelBuffer.t) (done_px rest : list (list Z)),
  round_locals L ->
  PyDict.get (buffers L) pin = Some buf ->
  Pi5PixelBuffer.pixels buf = done_px ++ rest ->
  offsetInQueue L = length done_px ->
  let frame := line_frame (Pi5PixelBuffer.byteorder buf) sacnData patches in
  (length frame ≤ length rest)%nat ->
  exists L',
    for_each patches (render_patch pin sacnData) L = Ok L'
    /\ PyDict.get (buffers L') pin
       = Some (Pi5PixelBuffer.mk (Pi5PixelBuffer.byteorder buf)
                 (done_px ++ frame ++ drop (length frame) rest)
                 (Pi5PixelBuffer.transmitted buf))
    /\ (forall k, k <> pin ->
                  PyDict.get (buffers L') k = PyDict.get (buffers L) k).
Proof.
induction 1 as [|patch patches Hpatch _ IH];
  intros L buf done_px rest HL Hbuf Hpixels Hoff frame Hroom; simpl.
- exists L. split; [done|]. split; [|done]. rewrite Hbuf. f_equal.
  destruct buf; simpl in *. by rewrite Hpixels.
- subst frame. simpl in *.
  set (here := strip_frame (Pi5PixelBuffer.byteorder buf) sacnData patch) in *.
  set (later := line_frame (Pi5PixelBuffer.byteorder buf) sacnData patches)
    in *.
  rewrite length_app in Hroom.
  destruct (render_patch_run patch L buf done_px rest HL Hpatch Hbuf Hpixels
              Hoff) as (L1 & -> & HL1 & Hoff1 & Hget1 & Hother1); [fold here; lia|].
  fold here in Hoff1, Hget1. simpl.
  destruct (IH L1 (Pi5PixelBuffer.mk (Pi5PixelBuffer.byteorder buf)
                     (done_px ++ here ++ drop (length here) rest)
                     (Pi5PixelBuffer.transmitted buf))
              (done_px ++ here) (drop (length here) rest))
    as (L' & Hrun & Hget' & Hother').
  + by right.
  + done.
  + simpl. by rewrite app_assoc.
  + by rewrite Hoff1, length_app.
  + simpl. fold later. rewrite length_drop. lia.
  + exists L'. split; [done|]. split.
    * rewrite Hget'. simpl. fold later. do 2 f_equal.
      rewrite <- !app_assoc. do 2 f_equal.
      by rewrite drop_drop, length_app.
    * intros k Hk. by rewrite Hother', Hother1.
Qed.

(** One round of [for gpioPin in patchedFixtures.keys()] on a line of rgb8
  strips: the head of the line's buffer receives, back to back, the
  frames of the strips that have a snapshot; a strip without one takes no
  room, so the strips after it move up by its pixel count. *)
Lemma render_output_run (patches : list FixturePatch.t)
  (bufs : PyDict.t GPIO Pi5PixelBuffer.t) (buf : Pi5PixelBuffer.t) :
Forall rgb8_strip_ok patches ->
PyDict.get bufs pin = Some buf ->
let frame := line_frame (Pi5PixelBuffer.byteorder buf) sacnData patches in
(length frame ≤ length (Pi5PixelBuffer.pixels buf))%nat ->
exists bufs',
  render_output sacnData bufs (pin, patches) = Ok bufs'
  /\ PyDict.get bufs' pin
     = Some (Pi5PixelBuffer.mk (Pi5PixelBuffer.byteorder buf)
               (frame ++ drop (length frame) (Pi5PixelBuffer.pixels buf))
               (Pi5PixelBuffer.transmitted buf))
  /\ (forall k, k <> pin -> PyDict.get bufs' k = PyDict.get bufs k).
Proof.
intros Hpatches Hbuf frame Hroom. unfold render_output.
destruct (render_line_run patches Hpatches
            (mk_locals 0 None 0 [] 0 [] Pixel.new8 bufs) buf []
            (Pi5PixelBuffer.pixels buf))
  as (L' & -> & Hget & Hother); try done; [by left|].
simpl. by exists (buffers L').
Qed.
End LineRendering.

(** * Further properties *)

(** ** The fixture catalogue *)

Section Catalogue.

Lemma offsets_from_lookup (chs : list FixtureChannel.t) (c : Z) (i : nat)
    (ch : FixtureChannel.t) :
  chs !! i = Some ch ->
  Fixture.offsets_from c chs !! i = Some (c + bytes_of (take i chs)).
Proof.
  revert c i. induction chs as [|ch0 chs IH]; intros c i Hi; [done|].
  destruct i as [|i]; simpl in *.
  - f_equal. lia.
  - rewrite (IH _ _ Hi). f_equal. lia.
Qed.

Lemma bytes_of_app (l1 l2 : list FixtureChannel.t) :
  bytes_of (l1 ++ l2) = bytes_of l1 + bytes_of l2.
Proof. induction l1 as [|ch l1 IH]; simpl; [done|]. rewrite IH. lia. Qed.

Lemma bytes_of_nonneg (l : list FixtureChannel.t) : 0 <= bytes_of l.
Proof.
  induction l as [|ch l IH]; simpl; [done|].
  destruct ch; simpl; unfold ChannelDepth.byteCount; simpl; lia.
Qed.

Lemma offsets_from_length (chs : list FixtureChannel.t) (c : Z) :
  length (Fixture.offsets_from c chs) = length chs.
Proof. revert c. induction chs as [|ch chs IH]; intros c; simpl; [done|]. by rewrite IH. Qed.

(** X1. In every pixel profile the channels lie back to back from byte 0:
    channel [i] starts at the total width of the channels before it, ends
    inside the profile's footprint, and the next channel starts where it
    ends. *)
Theorem channels_lie_back_to_back (f : Fixture.t) (i : nat)
    (ch : FixtureChannel.t) :
  Fixture.channels f !! i = Some ch ->
  let width := ChannelDepth.byteCount (FixtureChannel.depth ch) in
  exists offset,
    Fixture.channels_offset f !! i = Some offset
    /\ offset = bytes_of (take i (Fixture.channels f))
    /\ 0 <= offset
    /\ 1 <= width
    /\ offset + width <= Fixture.profile_size f
    /\ length (Fixture.channels_offset f) = Fixture.channel_count f
    /\ (forall next, Fixture.channels_offset f !! S i = Some next ->
                     next = offset + width)
    /\ (S i = Fixture.channel_count f -> offset + width = Fixture.profile_size f).
Proof.
  intros Hch width. exists (bytes_of (take i (Fixture.channels f))).
  unfold Fixture.channels_offset, Fixture.channel_count.
  rewrite (offsets_from_lookup _ 0 i ch Hch), offsets_from_length.
  assert (Fixture.profile_size f
          = bytes_of (take i (Fixture.channels f)) + width
            + bytes_of (drop (S i) (Fixture.channels f))) as Hsize.
  { change (Fixture.profile_size f) with (bytes_of (Fixture.channels f)).
    rewrite <- (take_drop_middle _ _ _ Hch) at 1.
    rewrite bytes_of_app. simpl. subst width. lia. }
  pose proof (bytes_of_nonneg (take i (Fixture.channels f))).
  pose proof (bytes_of_nonneg (drop (S i) (Fixture.channels f))).
  assert (1 <= width) by (subst width; by destruct ch).
  repeat split; try done; try lia.
  - intros next Hnext.
    destruct (lookup_lt_is_Some_2 (Fixture.channels f) (S i)) as [ch' Hch'].
    { apply lookup_lt_Some in Hnext. by rewrite offsets_from_length in Hnext. }
    rewrite (offsets_from_lookup _ 0 (S i) ch' Hch') in Hnext.
    injection Hnext as <-. rewrite (take_S_r _ _ _ Hch), bytes_of_app. simpl.
    subst width. lia.
  - intros Hlast. rewrite Hsize, drop_ge by lia. simpl. lia.
Qed.

(** X2. A profile is found again by its label, [from_string] only returns
    the profile that carries the string as its label, and the configuration
    model's [pixel_type] validator accepts exactly the strings [from_string]
    resolves; any other string raises [ValueError]. *)
Theorem from_string_label_round_trip (value : string) :
  (forall f, Fixture.from_string (Fixture.label f) = Ok f)
  /\ (forall f, Fixture.from_string value = Ok f -> Fixture.label f = value)
  /\ (PinConfig.validate_fixture_type value = true
      <-> exists f, Fixture.from_string value = Ok f)
  /\ (PinConfig.validate_fixture_type value = false
      -> Fixture.from_string value
         = Raise (ValueError [NotAValidFixtureType value])).
Proof.
  assert (forall f, Fixture.from_string value = Ok f -> Fixture.label f = value)
    as Hsound.
  { intros f. unfold Fixture.from_string, Fixture.members. simpl.
    repeat (case_decide; [by intros [= <-]|]). intros [=]. }
  split; [by intros []|]. split; [done|]. split; [split|].
  - apply from_string_valid.
  - intros [f Hf]. apply Hsound in Hf as <-.
    unfold PinConfig.validate_fixture_type. apply bool_decide_eq_true.
    unfold Fixture.getFixtureNames, Fixture.members. simpl.
    destruct f; set_solver.
  - unfold PinConfig.validate_fixture_type. rewrite bool_decide_eq_false.
    unfold Fixture.getFixtureNames, Fixture.members, Fixture.from_string. simpl.
    intros Hnot.
    repeat (destruct (decide _) as [Heq|_];
            [exfalso; apply Hnot; rewrite <- Heq, !elem_of_cons; tauto|]).
    done.
Qed.
End Catalogue.

(** ** The patch table, continued *)

Section Table.
Import FixtureManager.

Lemma PyDict_set_fresh {K V} `{EqDecision K} (d : PyDict.t K V) (k : K) (v : V) :
  k ∉ PyDict.keys d -> PyDict.set d k v = d ++ [(k, v)].
Proof.
  induction d as [|[k' v'] d IH]; simpl; [done|].
  intros Hfresh. apply not_elem_of_cons in Hfresh as [Hne Hfresh].
  rewrite decide_False by done. by rewrite IH.
Qed.

Lemma PyDict_set_last {K V} `{EqDecision K} (d : PyDict.t K V) (k : K) (v v' : V) :
  k ∉ PyDict.keys d -> PyDict.set (d ++ [(k, v)]) k v' = d ++ [(k, v')].
Proof.
  induction d as [|[k0 v0] d IH]; simpl.
  - intros _. by rewrite decide_True.
  - intros Hfresh. apply not_elem_of_cons in Hfresh as [Hne Hfresh].
    rewrite decide_False by done. by rewrite IH.
Qed.

Lemma PyDict_get_last {K V} `{EqDecision K} (d : PyDict.t K V) (k : K) (v : V) :
  k ∉ PyDict.keys d -> PyDict.get (d ++ [(k, v)]) k = Some v.
Proof.
  intros Hfresh. rewrite <- (PyDict_set_fresh d k v Hfresh).
  apply PyDict_get_set_eq.
Qed.

Lemma PyDict_get_absent {K V} `{EqDecision K} (d : PyDict.t K V) (k : K) :
  k ∉ PyDict.keys d -> PyDict.get d k = None.
Proof.
  induction d as [|[k' v'] d IH]; simpl; [done|].
  intros Hfresh. apply not_elem_of_cons in Hfresh as [Hne Hfresh].
  rewrite decide_False by done. by apply IH.
Qed.

Lemma no_reuse_NoDup (outs : list (OutputLabel * PinConfig.t)) :
  (forall m, ~ pin_reused outs m) -> NoDup (pin_of <$> outs).
Proof.
  induction outs as [|[out pin] outs IH] using rev_ind; intros Hclean.
  - constructor.
  - rewrite fmap_app. apply NoDup_app. split; [|split].
    + apply IH. intros m Hm. apply (Hclean m), pin_reused_snoc. by left.
    + intros g Hg Hlast. simpl in Hlast.
      apply list_elem_of_singleton in Hlast as ->.
      apply (Hclean (PinUsedOnMultipleOutputs (PinConfig.gpio pin))).
      apply pin_reused_snoc. by right.
    + simpl. apply NoDup_singleton.
Qed.

Lemma patch_strips_list pin ty strips s d queue s' :
  Fixture.from_string (PinConfig.pixel_type pin) = Ok ty ->
  by_out s = d ++ [(PinConfig.gpio pin, queue)] ->
  PinConfig.gpio pin ∉ PyDict.keys d ->
  for_each strips (patch_strip pin) s = Ok s' ->
  by_out s'
  = d ++ [(PinConfig.gpio pin,
           queue ++ patches_from pin ty (strip_queue_pos s) strips)].
Proof.
  intros Hty. revert s queue.
  induction strips as [|strip strips IH]; intros s queue Hout Hfresh Hrun;
    simpl in Hrun.
  - injection Hrun as <-. simpl. by rewrite app_nil_r.
  - rewrite (patch_strip_step pin ty s strip queue Hty) in Hrun
      by (rewrite Hout; by apply PyDict_get_last).
    simpl in Hrun. apply IH with (queue := queue ++ [patch_of pin ty (strip_queue_pos s) strip])
      in Hrun; [|simpl; rewrite Hout; by apply PyDict_set_last|done].
    simpl in Hrun. by rewrite Hrun, <- app_assoc.
Qed.

Lemma patches_from_positions pin ty pos strips :
  FixturePatch.pos_in_out_queue <$> patches_from pin ty pos strips
  = seq pos (length strips).
Proof.
  revert pos. induction strips as [|strip strips IH]; intros pos; simpl; [done|].
  by rewrite IH.
Qed.

Lemma patches_from_labels pin ty pos strips :
  FixturePatch.label <$> patches_from pin ty pos strips
  = LedStrip.label <$> strips.
Proof.
  revert pos. induction strips as [|strip strips IH]; intros pos; simpl; [done|].
  by rewrite IH.
Qed.

Lemma patches_from_output pin ty pos strips :
  Forall (fun p => FixturePatch.output p = PinConfig.gpio pin)
    (patches_from pin ty pos strips).
Proof.
  revert pos. induction strips as [|strip strips IH]; intros pos; simpl;
    constructor; [done|apply IH].
Qed.

Lemma patch_output_list out pin s s' :
  PinConfig.gpio pin ∉ PyDict.keys (by_out s) ->
  patch_output s (out, pin) = Ok s' ->
  by_out s' = by_out s ++ [(PinConfig.gpio pin, output_queue pin)]
  /\ (PinConfig.strips pin <> [] ->
      exists ty, Fixture.from_string (PinConfig.pixel_type pin) = Ok ty).
Proof.
  intros Hfresh. unfold patch_output, output_queue.
  set (s1 := mk_pstate _ _ _). intros Hrun.
  assert (by_out s1 = by_out s ++ [(PinConfig.gpio pin, [])]) as Hout1
    by (subst s1; simpl; by apply PyDict_set_fresh).
  destruct (PinConfig.strips pin) as [|strip strips] eqn:Hstrips.
  - simpl in Hrun. injection Hrun as <-. split; [|done].
    rewrite Hout1. by destruct (Fixture.from_string _).
  - destruct (Fixture.from_string (PinConfig.pixel_type pin)) as [ty|e] eqn:Hty.
    + split; [|by eexists].
      exact (patch_strips_list pin ty _ s1 (by_out s) [] s' Hty Hout1 Hfresh Hrun).
    + simpl in Hrun. unfold patch_strip in Hrun. by rewrite Hty in Hrun.
Qed.

(** The by-output index after a successful patching run. *)
Lemma by_out_built (cfg : FullConfig.t) s :
  NoDup (pin_of <$> FullConfig.outputs cfg) ->
  for_each (FullConfig.outputs cfg) patch_output (mk_pstate [] ∅ 0) = Ok s ->
  by_out s
  = (fun item => (pin_of item, output_queue item.2)) <$> FullConfig.outputs cfg
  /\ Forall (fun item =>
               PinConfig.strips item.2 <> [] ->
               exists ty, Fixture.from_string (PinConfig.pixel_type item.2) = Ok ty)
       (FullConfig.outputs cfg).
Proof.
  intros Hnodup Hrun.
  refine (for_each_prefix
            (fun pre s0 =>
               NoDup (pin_of <$> pre) ->
               by_out s0 = (fun item => (pin_of item, output_queue item.2)) <$> pre
               /\ Forall (fun item =>
                            PinConfig.strips item.2 <> [] ->
                            exists ty,
                              Fixture.from_string (PinConfig.pixel_type item.2)
                              = Ok ty) pre)
            (FullConfig.outputs cfg) patch_output (mk_pstate [] ∅ 0) s
            _ _ Hrun Hnodup); [done|].
  intros pre [out pin] s0 s1 IH Hstep Hnd.
  rewrite fmap_app in Hnd. apply NoDup_app in Hnd as (Hnd & Hfresh & _).
  destruct (IH Hnd) as [Hout Hty].
  apply patch_output_list in Hstep as [Hout1 Hty1].
  - split.
    + by rewrite Hout1, Hout, fmap_app.
    + apply Forall_app. split; [done|]. by constructor.
  - rewrite Hout. unfold PyDict.keys. rewrite <- list_fmap_compose.
    intros Hin. apply (Hfresh _ Hin). simpl. by left.
Qed.

Lemma built_clean self (cfg : FullConfig.t) self' lines :
  _patch_fixtures self cfg = (self', lines, Ok tt) ->
  (forall m, ~ violation cfg m)
  /\ exists s,
       for_each (FullConfig.outputs cfg) patch_output (mk_pstate [] ∅ 0) = Ok s
       /\ self' = FixtureManager.mk (by_out s) (bubblesort <$> by_uni s).
Proof.
  unfold _patch_fixtures.
  destruct (_validate_cfg cfg) as [lines' [[]|e]] eqn:Hval; [|by intros [=]].
  destruct (for_each _ _ _) as [s|e] eqn:Hrun; [|done].
  intros [= <- <-]. split; [by eapply validate_cfg_accepts|]. by exists s.
Qed.

Lemma built_by_out self (cfg : FullConfig.t) self' lines :
  _patch_fixtures self cfg = (self', lines, Ok tt) ->
  NoDup (pin_of <$> FullConfig.outputs cfg)
  /\ _by_out self'
     = (fun item => (pin_of item, output_queue item.2)) <$> FullConfig.outputs cfg
  /\ Forall (fun item =>
               PinConfig.strips item.2 <> [] ->
               exists ty, Fixture.from_string (PinConfig.pixel_type item.2) = Ok ty)
       (FullConfig.outputs cfg).
Proof.
  intros Hbuilt. destruct (built_clean _ _ _ _ Hbuilt) as (Hclean & s & Hrun & ->).
  assert (NoDup (pin_of <$> FullConfig.outputs cfg)) as Hnd.
  { apply no_reuse_NoDup. intros m Hm. apply (Hclean m). by left. }
  split; [done|]. by apply by_out_built.
Qed.

Lemma PyDict_get_mapped {A K V} `{EqDecision K} (f : A -> K) (g : A -> V)
    (l : list A) (x : A) :
  NoDup (f <$> l) -> x ∈ l ->
  PyDict.get ((fun a => (f a, g a)) <$> l) (f x) = Some (g x).
Proof.
  induction l as [|a l IH]; intros Hnd Hin; [by apply elem_of_nil in Hin|].
  simpl in *. apply NoDup_cons in Hnd as [Hfresh Hnd].
  apply elem_of_cons in Hin as [->|Hin]; [by rewrite decide_True|].
  rewrite decide_False; [by apply IH|].
  intros Heq. apply Hfresh. rewrite Heq. apply list_elem_of_fmap. by exists x.
Qed.

Lemma PyDict_keys_mapped {A K V} (f : A -> K) (g : A -> V) (l : list A) :
  PyDict.keys ((fun a => (f a, g a)) <$> l) = f <$> l.
Proof. unfold PyDict.keys. by rewrite <- list_fmap_compose. Qed.

(** X3. For a configuration with valid pixel types, construction succeeds
    exactly when no rule has an offender, and fails with the validation
    error exactly when one has. *)
Theorem construction_succeeds_iff_clean self (cfg : FullConfig.t) :
  valid_pixel_types cfg ->
  ((forall m, ~ violation cfg m)
   <-> exists self',
         _patch_fixtures self cfg = (self', [ValidDmxConfiguration], Ok tt))
  /\ ((exists m, violation cfg m)
      <-> exists msgs,
            _patch_fixtures self cfg
            = (self, [InvalidDmxConfiguration], Raise (ValueError msgs))).
Proof.
  intros Hvalid. split; split.
  - by apply valid_configuration_builds.
  - intros [self' Hbuilt]. by destruct (built_clean _ _ _ _ Hbuilt).
  - intros [m Hm].
    destruct (validate_cfg_collects cfg Hvalid) as (msgs & Hmsgs & Hrun).
    destruct msgs as [|m0 msgs].
    { apply Hmsgs in Hm. by apply elem_of_nil in Hm. }
    exists (m0 :: msgs). unfold _patch_fixtures. by rewrite Hrun.
  - intros [msgs Hfail].
    destruct (validate_cfg_collects cfg Hvalid) as (msgs' & Hmsgs & Hrun).
    destruct msgs' as [|m0 msgs'].
    + unfold _patch_fixtures in Hfail. rewrite Hrun in Hfail.
      by destruct (for_each _ _ _).
    + exists m0. apply Hmsgs. by left.
Qed.

(** X4. The by-output index of a built table lists the outputs in
    declaration order, no pin twice, each with its strips in declaration
    order and queue positions 0, 1, 2, ...; asking for a pin no output uses
    gives the empty list. *)
Theorem by_output_index_built self (cfg : FullConfig.t) self' lines :
  _patch_fixtures self cfg = (self', lines, Ok tt) ->
  get_fixtures_all self'
  = (fun item => (pin_of item, output_queue item.2)) <$> FullConfig.outputs cfg
  /\ NoDup (PyDict.keys (get_fixtures_all self'))
  /\ (forall out pin, (out, pin) ∈ FullConfig.outputs cfg ->
        get_fixtures_by_out self' (PinConfig.gpio pin) = output_queue pin
        /\ FixturePatch.label <$> output_queue pin
           = LedStrip.label <$> PinConfig.strips pin
        /\ FixturePatch.pos_in_out_queue <$> output_queue pin
           = seq 0 (length (PinConfig.strips pin)))
  /\ (forall k, k ∉ (pin_of <$> FullConfig.outputs cfg) ->
        get_fixtures_by_out self' k = []).
Proof.
  intros Hbuilt. destruct (built_by_out _ _ _ _ Hbuilt) as (Hnd & Hout & Hty).
  unfold get_fixtures_all, get_fixtures_by_out. rewrite Hout.
  split; [done|]. split; [by rewrite PyDict_keys_mapped|]. split.
  - intros out pin Hin.
    rewrite (PyDict_get_mapped pin_of (fun item => output_queue item.2)
               _ (out, pin) Hnd Hin). simpl.
    split; [done|]. unfold output_queue.
    destruct (PinConfig.strips pin) as [|strip strips] eqn:Hstrips.
    { by destruct (Fixture.from_string _). }
    rewrite Forall_forall in Hty.
    destruct (Hty (out, pin) Hin) as [ty Hok]; [simpl; by rewrite Hstrips|].
    simpl in Hok. rewrite Hok.
    by rewrite patches_from_labels, patches_from_positions.
  - intros k Hk. rewrite PyDict_get_absent; [done|].
    by rewrite PyDict_keys_mapped.
Qed.

Lemma output_queue_output (pin : PinConfig.t) :
  Forall (fun p => FixturePatch.output p = PinConfig.gpio pin) (output_queue pin).
Proof.
  unfold output_queue. destruct (Fixture.from_string _); [|constructor].
  apply patches_from_output.
Qed.

Lemma filter_all {A} (P : A -> Prop) `{forall x, Decision (P x)} (l : list A) :
  Forall P l -> filter P l = l.
Proof.
  induction 1 as [|x l Hx _ IH]; [done|].
  by rewrite filter_cons, decide_True, IH.
Qed.

Lemma filter_none {A} (P : A -> Prop) `{forall x, Decision (P x)} (l : list A) :
  Forall (fun x => ~ P x) l -> filter P l = [].
Proof.
  induction 1 as [|x l Hx _ IH]; [done|].
  by rewrite filter_cons, decide_False, IH.
Qed.

Lemma filter_output_absent (outs : list (OutputLabel * PinConfig.t)) (o : GPIO) :
  o ∉ (pin_of <$> outs) ->
  filter (fun p => FixturePatch.output p = o)
    (outs ≫= (fun item => output_queue item.2)) = [].
Proof.
  induction outs as [|[out pin] outs IH]; [done|].
  rewrite fmap_cons, bind_cons.
  intros Hfresh. apply not_elem_of_cons in Hfresh as [Hne Hfresh].
  rewrite filter_app, IH, app_nil_r by done.
  apply filter_none. eapply Forall_impl; [apply output_queue_output|].
  simpl. intros p -> Heq. by apply Hne.
Qed.

Lemma filter_output_declared (outs : list (OutputLabel * PinConfig.t)) (o : GPIO) :
  NoDup (pin_of <$> outs) ->
  filter (fun p => FixturePatch.output p = o)
    (outs ≫= (fun item => output_queue item.2))
  = default []
      (PyDict.get ((fun item => (pin_of item, output_queue item.2)) <$> outs) o).
Proof.
  induction outs as [|[out pin] outs IH]; [done|].
  rewrite !fmap_cons, bind_cons.
  intros [Hfresh Hnd]%NoDup_cons. rewrite filter_app.
  cbn [PyDict.get]. change (pin_of (out, pin)) with (PinConfig.gpio pin) in *.
  cbn [snd]. destruct (decide (PinConfig.gpio pin = o)) as [<-|Hne].
  - rewrite filter_output_absent, app_nil_r by done. simpl.
    apply filter_all, output_queue_output.
  - rewrite IH by done. rewrite filter_none; [done|].
    eapply Forall_impl; [apply output_queue_output|].
    simpl. intros p -> Heq. by apply Hne.
Qed.

(** X5. The two indexes of a built table agree: the strips found by
    (output, universe) are, up to order, the strips the by-universe index
    holds for that universe whose output is the given one. *)
Theorem by_output_and_universe_agree self (cfg : FullConfig.t) self' lines
    (output : GPIO) (universe : Z) :
  _patch_fixtures self cfg = (self', lines, Ok tt) ->
  get_fixtures_by_out_uni self' output universe
  ≡ₚ filter (fun p => FixturePatch.output p = output)
        (get_fixtures_by_uni self' universe)
  /\ get_fixtures_by_out_uni self' output universe
     = filter (fun p => FixturePatch.universe p = universe)
         (get_fixtures_by_out self' output)
  /\ Forall (fun p => FixturePatch.output p = output
                      /\ FixturePatch.universe p = universe)
       (get_fixtures_by_out_uni self' output universe).
Proof.
  intros Hbuilt.
  destruct (built_by_out _ _ _ _ Hbuilt) as (Hnd & Hout & _).
  assert (get_fixtures_by_out_uni self' output universe
          = filter (fun p => FixturePatch.universe p = universe)
              (get_fixtures_by_out self' output)) as Hdef.
  { unfold get_fixtures_by_out_uni, get_fixtures_by_out.
    by destruct (PyDict.get _ _). }
  assert (get_fixtures_by_out self' output
          = filter (fun p => FixturePatch.output p = output)
              (declared_patches cfg)) as Hqueue.
  { unfold get_fixtures_by_out. rewrite Hout.
    unfold declared_patches. fold output_queue.
    change (FullConfig.outputs cfg
            ≫= (fun item =>
                  match Fixture.from_string (PinConfig.pixel_type item.2) with
                  | Ok ty => patches_from item.2 ty 0 (PinConfig.strips item.2)
                  | Raise _ => []
                  end))
      with (FullConfig.outputs cfg ≫= (fun item => output_queue item.2)).
    rewrite (filter_output_declared _ output Hnd).
    by destruct (PyDict.get _ _). }
  split; [|split; [done|]].
  - rewrite Hdef, Hqueue.
    rewrite (get_fixtures_by_uni_built _ _ _ _ universe Hbuilt), bubblesort_perm.
    rewrite !list_filter_filter. apply reflexive_eq.
    apply list_filter_iff. intros p. tauto.
  - rewrite Hdef, Hqueue, list_filter_filter. apply Forall_forall.
    intros p Hp. apply list_elem_of_filter in Hp as [[Hu Ho] _]. by split.
Qed.

(** X6. When the declared strips satisfy their field constraints, every
    strip of a built table converts to the reporting model: the conversion
    passes that model's own constraints, carries the computed end channel
    (between 1 and 512), and names the pixel type by a label that resolves
    back to it. *)
Theorem built_strips_convert self (cfg : FullConfig.t) self' lines
    (p : FixturePatch.t) :
  _patch_fixtures self cfg = (self', lines, Ok tt) ->
  Forall (fun item => LedStrip.fields_ok item.2) (declared_strips cfg) ->
  in_table self' p ->
  exists info,
    FixturePatch.toPatchInfo p = Some info
    /\ FixturePatchInfo.label info = FixturePatch.label p
    /\ FixturePatchInfo.end_channel info = FixturePatch.end_channel p
    /\ 1 <= FixturePatchInfo.end_channel info <= 512
    /\ Fixture.from_string (FixturePatchInfo.pixel_type info)
       = Ok (FixturePatch.pixel_type p).
Proof.
  intros Hbuilt Hfields Hin.
  destruct (in_table_origin _ _ _ _ _ Hbuilt Hin)
    as (out & pin & strip & ty & pos & Hstrip & Hty & ->).
  destruct (built_clean _ _ _ _ Hbuilt) as (Hclean & _).
  rewrite Forall_forall in Hfields.
  destruct (Hfields _ Hstrip) as (Hcount & Huni & Hstart). simpl in *.
  assert (~ last_channel ty strip > DMX_UNI_SIZE) as Hfit.
  { intros Hover.
    apply (Hclean (DoesNotFitUniverse out (LedStrip.label strip))).
    right. right. by exists out, pin, strip, ty. }
  assert (1 <= Fixture.profile_size ty) as Hsize by (by destruct ty).
  unfold last_channel, DMX_UNI_SIZE in Hfit.
  unfold DMX_UNI_SIZE, SACN_UNI_MAX in *.
  eexists. unfold FixturePatch.toPatchInfo, FixturePatchInfo.validated.
  rewrite bool_decide_true.
  - split; [done|]. simpl. split; [done|]. split; [done|].
    unfold FixturePatch.end_channel. simpl.
    split; [nia|]. by destruct ty.
  - simpl. unfold FixturePatch.end_channel, DMX_UNI_SIZE, SACN_UNI_MAX. simpl.
    nia.
Qed.
End Table.

(** ** The ingest manager, continued *)

Section Ingest.
Variable str : Z -> string.

Import sACNmanager.

Lemma updateQueue_keeps_records (self self' : sACNmanager.t) (env : interleaving) :
  _updateQueue str self env = Returns self' ->
  _db self' = _db self
  /\ lastQueueUpdateTs self' = lastQueueUpdateTs self
  /\ _registeredUniverses self' = _registeredUniverses self
  /\ (sacnShareQueue self = None -> self' = self).
Proof.
  unfold _updateQueue. destruct (sacnShareQueue self) as [q|]; [|by intros [= <-]].
  destruct (Queue.full q); simpl.
  - destruct (Queue.get_nowait _) as [x q2| |]; [|by intros [= <-]..].
    destruct (Queue.full _); simpl; [by intros [= <-]|].
    destruct (Queue.put _ _); [by intros [= <-]..|done].
  - destruct (Queue.put _ _); [by intros [= <-]..|done].
Qed.

Lemma updateQueue_bounded (self self' : sACNmanager.t) (env : interleaving)
    (q : Queue.t (gmap Z UniverseData.Dict)) (n : nat) :
  sacnShareQueue self = Some q ->
  Queue.maxsize q = n -> (length (Queue.items q) ≤ n)%nat ->
  _updateQueue str self env = Returns self' ->
  exists q', sacnShareQueue self' = Some q'
             /\ Queue.maxsize q' = n /\ (length (Queue.items q') ≤ n)%nat.
Proof.
  intros Hq Hsize Hlen. unfold _updateQueue. rewrite Hq.
  set (q1 := Queue.interfere q (after_first_full env)).
  assert (Queue.maxsize q1 = n /\ (length (Queue.items q1) ≤ n)%nat)
    as [Hm1 Hl1].
  { subst q1. rewrite interfere_maxsize. split; [done|].
    rewrite <- Hsize. apply interfere_bounded. lia. }
  destruct (Queue.full q); simpl.
  - destruct (Queue.get_nowait q1 _) as [x q2| |] eqn:Hget.
    + apply get_item_bounded in Hget as [Hm2 Hl2].
      set (q3 := Queue.interfere q2 (after_get env)).
      assert (Queue.maxsize q3 = n /\ (length (Queue.items q3) ≤ n)%nat)
        as [Hm3 Hl3].
      { subst q3. rewrite interfere_maxsize, Hm2. split; [done|].
        rewrite <- Hm1, <- Hm2. apply interfere_bounded. lia. }
      destruct (Queue.full q3); simpl.
      * intros [= <-]. by exists q3.
      * set (q4 := Queue.interfere q3 (after_second_full env)).
        assert (Queue.maxsize q4 = n /\ (length (Queue.items q4) ≤ n)%nat)
          as [Hm4 Hl4].
        { subst q4. rewrite interfere_maxsize. split; [done|].
          rewrite <- Hm3. apply interfere_bounded. lia. }
        destruct (Queue.put q4 _) as [q5| |] eqn:Hput; [| |done].
        -- apply put_done_bounded in Hput as [Hm5 Hl5].
           intros [= <-]. exists q5. simpl. repeat split; lia.
        -- intros [= <-]. by exists q4.
    + intros [= <-]. by exists q1.
    + intros [= <-]. by exists q1.
  - destruct (Queue.put q1 _) as [q2| |] eqn:Hput; [| |done].
    + apply put_done_bounded in Hput as [Hm2 Hl2].
      intros [= <-]. exists q2. simpl. repeat split; lia.
    + intros [= <-]. by exists q1.
Qed.

Lemma updateQueue_keeps_ok (self self' : sACNmanager.t) (env : interleaving) :
  manager_ok self -> _updateQueue str self env = Returns self' ->
  manager_ok self'.
Proof.
  intros (Hdb & Hlast & Hqueue) Hrun.
  destruct (updateQueue_keeps_records _ _ _ Hrun) as (Hdb' & Hlast' & _ & Hnone).
  split; [by rewrite Hdb'|]. split; [by rewrite Hdb', Hlast'|].
  destruct (sacnShareQueue self) as [q|] eqn:Hq.
  - destruct (Hqueue q eq_refl) as [Hsize Hlen].
    destruct (updateQueue_bounded _ _ _ q _ Hq Hsize Hlen Hrun)
      as (q' & Hq' & Hsize' & Hlen').
    intros q0 Hq0. rewrite Hq' in Hq0. by injection Hq0 as <-.
  - rewrite (Hnone eq_refl). intros q0 Hq0. congruence.
Qed.

(** The manager once the snapshot of an accepted packet is stored, and what
    the throttle then does. *)
Lemma onPacketReceived_decided (self : sACNmanager.t) (packet : DataPacket.t)
    (now : Z) (env : interleaving) :
  DataPacket.dmxStartCode packet = 0 ->
  exists self1,
    _db self1
    = <[DataPacket.universe packet := TimedDataPacket.mk packet now]> (_db self)
    /\ lastQueueUpdateTs self1 = lastQueueUpdateTs self
    /\ _registeredUniverses self1 = _registeredUniverses self
    /\ sacnShareQueue self1 = sacnShareQueue self
    /\ _onPacketReceived str self packet now env
       = if match lastQueueUpdateTs self !! DataPacket.universe packet with
            | None => true
            | Some last => bool_decide (now - last >= 22500)
            end
         then _updateQueue str
                (stamp_push self1 (DataPacket.universe packet) now) env
         else Returns self1.
Proof.
  intros Hcode. unfold _onPacketReceived.
  rewrite bool_decide_false by (by intros []).
  rewrite throttle_threshold_value.
  set (line := match _db self !! DataPacket.universe packet with
               | Some _ => _ | None => _ end).
  by exists (sACNmanager.mk
               (<[DataPacket.universe packet :=
                    TimedDataPacket.mk packet now]> (_db self))
               (lastQueueUpdateTs self) (_registeredUniverses self)
               (sacnShareQueue self) (_logger self ++ line)).
Qed.

Lemma onPacketReceived_cases (self : sACNmanager.t) (packet : DataPacket.t)
    (now : Z) (env : interleaving) :
  DataPacket.dmxStartCode packet = 0 ->
  exists self1,
    _db self1
    = <[DataPacket.universe packet := TimedDataPacket.mk packet now]> (_db self)
    /\ lastQueueUpdateTs self1 = lastQueueUpdateTs self
    /\ _registeredUniverses self1 = _registeredUniverses self
    /\ sacnShareQueue self1 = sacnShareQueue self
    /\ (_onPacketReceived str self packet now env = Returns self1
        \/ _onPacketReceived str self packet now env
           = _updateQueue str (stamp_push self1 (DataPacket.universe packet) now)
               env).
Proof.
  intros Hcode.
  destruct (onPacketReceived_decided self packet now env Hcode)
    as (self1 & Hdb & Hlast & Hreg & Hq & Hrun).
  exists self1. repeat split; try done. rewrite Hrun.
  destruct (match lastQueueUpdateTs self !! DataPacket.universe packet with
            | Some _ => _ | None => _ end); [by right|by left].
Qed.

Lemma onPacketReceived_keeps_ok (self self' : sACNmanager.t)
    (packet : DataPacket.t) (now : Z) (env : interleaving) :
  manager_ok self ->
  _onPacketReceived str self packet now env = Returns self' ->
  manager_ok self'.
Proof.
  intros Hok Hrun.
  destruct (decide (DataPacket.dmxStartCode packet = 0)) as [Hcode|Hcode].
  - destruct (onPacketReceived_cases self packet now env Hcode)
      as (self1 & Hdb1 & Hlast1 & _ & Hq1 & Hcases).
    destruct Hok as (Hdb & Hlast & Hqueue).
    assert (manager_ok self1) as Hok1.
    { split; [|split].
      - intros u rec. rewrite Hdb1, lookup_insert. case_decide as Hu.
        + intros [= <-]. simpl. by split.
        + apply Hdb.
      - intros u. rewrite Hdb1, Hlast1, lookup_insert. case_decide; [done|].
        apply Hlast.
      - by rewrite Hq1. }
    destruct Hcases as [Hskip|Hpush].
    + rewrite Hskip in Hrun. by injection Hrun as <-.
    + rewrite Hpush in Hrun. apply (updateQueue_keeps_ok _ _ _) in Hrun; [done|].
      destruct Hok1 as (Hdb1' & Hlast1' & Hqueue1).
      split; [done|]. split; [|done].
      intros u. unfold stamp_push. simpl. rewrite lookup_insert.
      case_decide as Hu; [|apply Hlast1'].
      intros _. subst u. rewrite Hdb1, lookup_insert_eq. by eexists.
  - unfold _onPacketReceived in Hrun. rewrite bool_decide_true in Hrun by done.
    by injection Hrun as <-.
Qed.

Lemma init_ok : manager_ok sACNmanager.__init__.
Proof.
  split; [|split].
  - intros u rec Hrec. simpl in Hrec. by rewrite lookup_empty in Hrec.
  - intros u [x Hx]. simpl in Hx. by rewrite lookup_empty in Hx.
  - intros q [= <-]. simpl. split; [done|]. lia.
Qed.

(** X7. Whatever packets arrive, with whatever timing and whatever the
    other processes do to the queue in between, a manager that has
    returned from every callback files each snapshot under its own
    universe, has a snapshot for every universe with a recorded push, and
    holds at most 50 entries in its queue. *)
Theorem receive_keeps_manager_ok (arrivals : list arrival)
    (self' : sACNmanager.t) :
  receive str sACNmanager.__init__ arrivals = Returns self' ->
  manager_ok self'
  /\ exists q, sacnShareQueue self' = Some q
               /\ (length (Queue.items q) ≤ 50)%nat.
Proof.
  assert (forall self, manager_ok self -> is_Some (sacnShareQueue self) ->
                       receive str self arrivals = Returns self' ->
                       manager_ok self' /\ is_Some (sacnShareQueue self')) as Hgen.
  { induction arrivals as [|a arrivals IH]; intros self Hok Hsome Hrun;
      simpl in Hrun.
    - by injection Hrun as <-.
    - destruct (_onPacketReceived str self _ _ _) as [self1|] eqn:Hstep; [|done].
      apply (IH self1); [by eapply onPacketReceived_keeps_ok| |done].
      destruct (decide (DataPacket.dmxStartCode (arrived a) = 0)) as [Hcode|Hcode].
      + destruct (onPacketReceived_cases self _ (arrived_at a) (meanwhile a) Hcode)
          as (self2 & _ & _ & _ & Hq2 & [Hskip|Hpush]).
        * rewrite Hskip in Hstep. injection Hstep as <-. by rewrite Hq2.
        * rewrite Hpush in Hstep. destruct Hsome as [q Hq].
          destruct Hok as (_ & _ & Hqueue). destruct (Hqueue q Hq) as [Hsize Hlen].
          assert (sacnShareQueue
                    (stamp_push self2 (DataPacket.universe (arrived a))
                       (arrived_at a)) = Some q) as Hq3
            by (simpl; congruence).
          destruct (updateQueue_bounded _ _ _ q _ Hq3 Hsize Hlen Hstep)
            as (q' & -> & _).
          by eexists.
      + unfold _onPacketReceived in Hstep.
        rewrite bool_decide_true in Hstep by done. by injection Hstep as <-. }
  intros Hrun. destruct (Hgen _ init_ok (ltac:(by eexists)) Hrun) as [Hok [q Hq]].
  split; [done|]. exists q. split; [done|].
  destruct Hok as (_ & _ & Hqueue). by destruct (Hqueue q Hq).
Qed.

(** X8. Once the callback has returned from an accepted packet, the query
    for the packet's universe returns that packet's universe id, priority,
    source name and bytes with the time of arrival, whether or not the
    snapshot map was pushed; the answer for every other universe is what it
    was before. *)
Theorem accepted_packet_is_reported (self self' : sACNmanager.t)
    (packet : DataPacket.t) (now : Z) (env : interleaving) :
  DataPacket.dmxStartCode packet = 0 ->
  _onPacketReceived str self packet now env = Returns self' ->
  getUniverseData str self' (DataPacket.universe packet)
  = Ok (UniverseData.mk (DataPacket.universe packet) (DataPacket.priority packet)
          (DataPacket.sourceName packet) (DataPacket.dmxData packet) (str now))
  /\ (forall u, u <> DataPacket.universe packet ->
        getUniverseData str self' u = getUniverseData str self u).
Proof.
  intros Hcode Hrun.
  destruct (onPacketReceived_cases self packet now env Hcode)
    as (self1 & Hdb1 & _ & _ & _ & Hcases).
  assert (_db self' = _db self1) as Hdb.
  { destruct Hcases as [Hskip|Hpush].
    - rewrite Hskip in Hrun. by injection Hrun as <-.
    - rewrite Hpush in Hrun.
      by destruct (updateQueue_keeps_records _ _ _ Hrun) as (-> & _). }
  unfold getUniverseData. rewrite Hdb, Hdb1. split.
  - by rewrite lookup_insert_eq.
  - intros u Hu. by rewrite lookup_insert_ne.
Qed.

(** X9. What the worker decodes from a pushed batch is, universe by
    universe, what [getUniverseData] reports at the time of the push; a
    universe the query raises [IndexError] for is absent from the batch. *)
Theorem batch_decodes_to_reported_data (self : sACNmanager.t) (u : Z) :
  (UniverseData.fromDict <$> getAllUniverseDataDict str self) !! u
  = match getUniverseData str self u with
    | Ok data => Some data
    | Raise _ => None
    end.
Proof.
  unfold getAllUniverseDataDict, getUniverseData. rewrite !lookup_fmap.
  by destruct (_db self !! u).
Qed.

(** X10. After [stop()] no packet can block the callback or bring the queue
    back: every arrival returns, the queue stays absent, and accepted
    packets still replace their universe's snapshot. *)
Theorem stopped_manager_never_pushes (self : sACNmanager.t)
    (arrivals : list arrival) :
  exists self',
    receive str (stop self) arrivals = Returns self'
    /\ sacnShareQueue self' = None
    /\ (forall a, last arrivals = Some a ->
          DataPacket.dmxStartCode (arrived a) = 0 ->
          _db self' !! DataPacket.universe (arrived a)
          = Some (TimedDataPacket.mk (arrived a) (arrived_at a))).
Proof.
  assert (forall self0, sacnShareQueue self0 = None ->
            exists self',
              receive str self0 arrivals = Returns self'
              /\ sacnShareQueue self' = None
              /\ (forall a, last arrivals = Some a ->
                    DataPacket.dmxStartCode (arrived a) = 0 ->
                    _db self' !! DataPacket.universe (arrived a)
                    = Some (TimedDataPacket.mk (arrived a) (arrived_at a))))
    as Hgen; [|by apply Hgen].
  induction arrivals as [|a arrivals IH]; intros self0 Hnone; simpl.
  - exists self0. by repeat split.
  - assert (exists self1,
              _onPacketReceived str self0 (arrived a) (arrived_at a) (meanwhile a)
              = Returns self1
              /\ sacnShareQueue self1 = None
              /\ (DataPacket.dmxStartCode (arrived a) = 0 ->
                  _db self1 !! DataPacket.universe (arrived a)
                  = Some (TimedDataPacket.mk (arrived a) (arrived_at a))))
      as (self1 & -> & Hnone1 & Hstored).
    { destruct (decide (DataPacket.dmxStartCode (arrived a) = 0)) as [Hcode|Hcode].
      - destruct (onPacketReceived_cases self0 _ (arrived_at a) (meanwhile a) Hcode)
          as (self2 & Hdb2 & _ & _ & Hq2 & [Hskip|Hpush]).
        + exists self2. rewrite Hskip, Hq2, Hdb2.
          split; [done|]. split; [done|]. intros _. by rewrite lookup_insert_eq.
        + exists (stamp_push self2 (DataPacket.universe (arrived a)) (arrived_at a)).
          rewrite Hpush. unfold _updateQueue. simpl. rewrite Hq2, Hnone.
          split; [done|]. split; [done|]. intros _.
          by rewrite Hdb2, lookup_insert_eq.
      - exists self0. unfold _onPacketReceived.
        rewrite bool_decide_true by done. by repeat split. }
    destruct (IH self1 Hnone1) as (self' & Hrun & Hnone' & Hlast).
    exists self'. split; [done|]. split; [done|].
    intros a' Ha' Hcode. destruct arrivals as [|a2 arrivals].
    + simpl in *. injection Ha' as <-. injection Hrun as <-. by apply Hstored.
    + by apply Hlast.
Qed.
End Ingest.

Section IngestRate.
Variable str : Z -> string.

Import sACNmanager.

Lemma updateQueue_quiet (self : sACNmanager.t)
    (q : Queue.t (gmap Z UniverseData.Dict)) :
  sacnShareQueue self = Some q -> Queue.closed q = false ->
  (0 < Queue.maxsize q)%nat ->
  (length (Queue.items q) ≤ Queue.maxsize q)%nat ->
  _updateQueue str self quiet
  = Returns
      (with_queue self
         (Queue.mk (Queue.maxsize q)
            ((if Queue.full q then tail (Queue.items q) else Queue.items q)
             ++ [getAllUniverseDataDict str self])
            false)).
Proof.
  intros Hq Hopen Hcap Hlen. unfold _updateQueue. rewrite Hq. simpl.
  destruct (Queue.full q) eqn:Hfull; simpl.
  - apply full_true in Hfull. unfold Queue.get_nowait. rewrite Hopen.
    destruct q as [m items c]. simpl in *. subst c.
    destruct items as [|x items]; [simpl in *; lia|]. simpl in *.
    unfold Queue.full. simpl. rewrite bool_decide_false by lia. simpl.
    unfold Queue.put, Queue.full. simpl. by rewrite bool_decide_false by lia.
  - by rewrite put_with_room.
Qed.

Lemma updateQueue_lagging (self : sACNmanager.t)
    (q : Queue.t (gmap Z UniverseData.Dict)) :
  sacnShareQueue self = Some q -> Queue.closed q = false ->
  (0 < Queue.maxsize q)%nat ->
  (length (Queue.items q) ≤ Queue.maxsize q)%nat ->
  _updateQueue str self lagging
  = if Queue.full q
    then Returns (log_error (with_queue self q) FailedToFreeSpace)
    else Returns
           (with_queue self
              (Queue.mk (Queue.maxsize q)
                 (Queue.items q ++ [getAllUniverseDataDict str self]) false)).
Proof.
  intros Hq Hopen Hcap Hlen. unfold _updateQueue. rewrite Hq. simpl.
  destruct (Queue.full q) eqn:Hfull; simpl.
  - unfold Queue.get_nowait. rewrite Hopen.
    by destruct (Queue.items q).
  - by rewrite put_with_room.
Qed.

(** X11. Packets of one universe, however fast they arrive, put at most
    one entry per 22.5 ms into an untouched queue: after any run of arrivals
    timed between [t0] and [t1] ([t0 <= t1]), the queue holds at most
    1 + (t1 - t0) / 22500 entries, whether or not its oldest entry can be
    read when the manager tries to make room. *)
Theorem one_universe_push_rate (U t0 t1 : Z) (arrivals : list arrival)
    (self' : sACNmanager.t) :
  t0 <= t1 ->
  Forall (fun a => DataPacket.universe (arrived a) = U
                   /\ (meanwhile a = quiet \/ meanwhile a = lagging)
                   /\ t0 <= arrived_at a <= t1) arrivals ->
  receive str sACNmanager.__init__ arrivals = Returns self' ->
  exists q,
    sacnShareQueue self' = Some q
    /\ 22500 * (Z.of_nat (length (Queue.items q)) - 1) <= t1 - t0.
Proof.
  set (paced := fun self : sACNmanager.t =>
         exists q,
           sacnShareQueue self = Some q /\ Queue.closed q = false
           /\ Queue.maxsize q = 50%nat /\ (length (Queue.items q) ≤ 50)%nat
           /\ match lastQueueUpdateTs self !! U with
              | None => Queue.items q = []
              | Some last =>
                  t0 <= last <= t1
                  /\ 22500 * (Z.of_nat (length (Queue.items q)) - 1) <= last - t0
              end).
  assert (forall self (a : arrival) self1,
            paced self -> DataPacket.universe (arrived a) = U ->
            t0 <= arrived_at a <= t1 ->
            DataPacket.dmxStartCode (arrived a) = 0 ->
            forall env,
              (forall q, sacnShareQueue self = Some q ->
                 Queue.closed q = false -> Queue.maxsize q = 50%nat ->
                 (length (Queue.items q) ≤ 50)%nat ->
                 forall s, sacnShareQueue s = Some q ->
                   exists entries line,
                     _updateQueue str s env
                     = Returns
                         (sACNmanager.mk (_db s) (lastQueueUpdateTs s)
                            (_registeredUniverses s)
                            (Some (Queue.mk 50 entries false))
                            (_logger s ++ line))
                     /\ (length entries ≤ 50)%nat
                     /\ (length entries ≤ S (length (Queue.items q)))%nat
                     /\ (Queue.items q = [] -> (length entries ≤ 1)%nat)) ->
              _onPacketReceived str self (arrived a) (arrived_at a) env
              = Returns self1 ->
              paced self1) as Hone.
  { intros self a self1 Hpaced Huni Ht Hcode env Henv Hstep.
    destruct Hpaced as (q & Hq & Hopen & Hsize & Hlen & Hlast).
    destruct (onPacketReceived_decided str self (arrived a) (arrived_at a)
                env Hcode)
      as (self2 & Hdb2 & Hlast2 & _ & Hq2 & Hrun).
    rewrite Hrun in Hstep. rewrite Huni in *. clear Hrun.
    assert (sacnShareQueue (stamp_push self2 U (arrived_at a)) = Some q)
      as Hq3 by (simpl; congruence).
    destruct (Henv q Hq Hopen Hsize Hlen _ Hq3)
      as (entries & line & Hpush & Hcap & Hgrow & Hfirst).
    destruct (lastQueueUpdateTs self !! U) as [last|] eqn:Hlast0.
    - case_bool_decide as Hdue.
      + rewrite Hpush in Hstep. injection Hstep as <-.
        eexists. split; [done|]. simpl. split; [done|]. split; [done|].
        split; [done|]. rewrite lookup_insert_eq.
        destruct Hlast as ([? ?] & ?). split; [lia|]. lia.
      + injection Hstep as <-. exists q. rewrite Hq2, Hlast2, Hlast0.
        destruct Hlast as ([? ?] & ?). by repeat split.
    - rewrite Hpush in Hstep. injection Hstep as <-.
      eexists. split; [done|]. simpl. split; [done|]. split; [done|].
      split; [done|]. rewrite lookup_insert_eq.
      specialize (Hfirst Hlast). split; [lia|]. lia. }
  assert (forall self, paced self -> Forall (fun a =>
             DataPacket.universe (arrived a) = U
             /\ (meanwhile a = quiet \/ meanwhile a = lagging)
             /\ t0 <= arrived_at a <= t1) arrivals ->
           receive str self arrivals = Returns self' -> paced self') as Hgen.
  { induction arrivals as [|a arrivals IH]; intros self Hpaced Hall Hrun;
      simpl in Hrun.
    - by injection Hrun as <-.
    - apply Forall_cons in Hall as [(Huni & Henv & Ht) Hall].
      destruct (_onPacketReceived str self _ _ _) as [self1|] eqn:Hstep; [|done].
      apply (IH self1); [|done|done]. clear IH Hrun Hall.
      destruct (decide (DataPacket.dmxStartCode (arrived a) = 0)) as [Hcode|Hcode].
      2:{ unfold _onPacketReceived in Hstep.
          rewrite bool_decide_true in Hstep by done. by injection Hstep as <-. }
      apply (Hone self a self1 Hpaced Huni Ht Hcode (meanwhile a)); [|done].
      intros q Hq Hopen Hsize Hlen s Hs.
      destruct Henv as [-> | ->].
      + rewrite (updateQueue_quiet s q) by (try done; lia).
        eexists _, []. unfold with_queue. rewrite Hsize, app_nil_r.
        split; [done|]. rewrite length_app. simpl.
        destruct (Queue.full q) eqn:Hfull.
        * apply full_true in Hfull.
          destruct (Queue.items q) as [|x entries]; simpl in *; [lia|].
          repeat split; try lia. done.
        * apply full_false in Hfull. repeat split; try lia.
          intros ->. simpl. lia.
      + rewrite (updateQueue_lagging s q) by (try done; lia).
        destruct (Queue.full q) eqn:Hfull.
        * exists (Queue.items q), [FailedToFreeSpace].
          unfold log_error, with_queue. simpl.
          destruct q as [m entries c]. simpl in *. subst m c.
          repeat split; try lia. intros ->. simpl. lia.
        * eexists _, []. unfold with_queue. rewrite Hsize, app_nil_r.
          split; [done|]. rewrite length_app. simpl.
          apply full_false in Hfull. repeat split; try lia.
          intros ->. simpl. lia. }
  intros Hspan Hall Hrun.
  destruct (Hgen sACNmanager.__init__) as (q & Hq & _ & _ & Hlen & Hlast);
    [|done|done|].
  - exists (Queue.mk 50 [] false). simpl. repeat split; try done; lia.
  - exists q. split; [done|].
    destruct (lastQueueUpdateTs self' !! U) as [last|]; [lia|].
    rewrite Hlast. simpl. lia.
Qed.
End IngestRate.

Section Registration.
Import sACNmanager.

(** X12. Registering a list of universes keeps exactly those between 1 and
    63999, in call order (a repeated one is listed again); the others only
    draw a warning. Snapshots, push times and queue are not touched. *)
Theorem register_all_keeps_valid (self : sACNmanager.t) (universes : list Z) :
  _registeredUniverses (register_all self universes)
  = _registeredUniverses self
    ++ filter (fun u => 1 <= u <= SACN_UNI_MAX) universes
  /\ _db (register_all self universes) = _db self
  /\ lastQueueUpdateTs (register_all self universes) = lastQueueUpdateTs self
  /\ sacnShareQueue (register_all self universes) = sacnShareQueue self
  /\ (forall u, (registerUniverse self u).2
                = if bool_decide (1 <= u <= SACN_UNI_MAX)
                  then [NowListening u] else [InvalidUniverse u])
  /\ (Forall (fun u => 1 <= u <= 63999) (_registeredUniverses self) ->
      Forall (fun u => 1 <= u <= 63999)
        (_registeredUniverses (register_all self universes))).
Proof.
  assert (forall self0,
            _registeredUniverses (register_all self0 universes)
            = _registeredUniverses self0
              ++ filter (fun u => 1 <= u <= SACN_UNI_MAX) universes
            /\ _db (register_all self0 universes) = _db self0
            /\ lastQueueUpdateTs (register_all self0 universes)
               = lastQueueUpdateTs self0
            /\ sacnShareQueue (register_all self0 universes)
               = sacnShareQueue self0) as Hgen.
  { unfold register_all.
    induction universes as [|u universes IH]; intros self0; simpl.
    - by rewrite app_nil_r.
    - destruct (IH (registerUniverse self0 u).1) as (-> & -> & -> & ->).
      unfold registerUniverse. rewrite filter_cons.
      case_bool_decide as Hu; simpl.
      + rewrite decide_True by done. by rewrite <- app_assoc.
      + by rewrite decide_False by done. }
  destruct (Hgen self) as (Hreg & Hdb & Hlast & Hq).
  split; [done|]. split; [done|]. split; [done|]. split; [done|]. split.
  - intros u. unfold registerUniverse. by case_bool_decide.
  - intros Hall. rewrite Hreg. apply Forall_app. split; [done|].
    apply Forall_forall. intros u Hu. by apply list_elem_of_filter in Hu as [? _].
Qed.
End Registration.

(** ** The render worker, continued *)

Section WorkerShapes.
Import Worker.

Lemma same_shape_refl (b : Pi5PixelBuffer.t) : same_shape b b.
Proof. by repeat split. Qed.

Lemma same_shape_trans (b1 b2 b3 : Pi5PixelBuffer.t) :
  same_shape b1 b2 -> same_shape b2 b3 -> same_shape b1 b3.
Proof.
  intros (? & ? & ?) (? & ? & ?). repeat split; congruence.
Qed.

Lemma shapes_kept_refl (bufs : PyDict.t GPIO Pi5PixelBuffer.t) :
  shapes_kept bufs bufs.
Proof.
  induction bufs as [|x bufs IH]; constructor; [|done].
  split; [done|apply same_shape_refl].
Qed.

Lemma shapes_kept_trans (d1 d2 d3 : PyDict.t GPIO Pi5PixelBuffer.t) :
  shapes_kept d1 d2 -> shapes_kept d2 d3 -> shapes_kept d1 d3.
Proof.
  intros H12. revert d3. induction H12 as [|x y d1 d2 [Hk Hs] _ IH];
    intros d3 H23; inversion H23 as [|y' z d2' d3' [Hk' Hs'] Hrest]; subst.
  - constructor.
  - constructor; [|by apply IH].
    split; [congruence|by eapply same_shape_trans].
Qed.

Lemma shapes_kept_set (d : PyDict.t GPIO Pi5PixelBuffer.t) (k : GPIO)
    (b b' : Pi5PixelBuffer.t) :
  PyDict.get d k = Some b -> same_shape b b' ->
  shapes_kept d (PyDict.set d k b').
Proof.
  induction d as [|[k0 b0] d IH]; simpl; [done|].
  destruct (decide (k0 = k)) as [->|Hne].
  - intros [= ->] Hs. constructor; [by split|apply shapes_kept_refl].
  - intros Hget Hs. constructor; [|by apply IH].
    split; [done|apply same_shape_refl].
Qed.

Lemma shapes_kept_get (d d' : PyDict.t GPIO Pi5PixelBuffer.t) (k : GPIO) :
  shapes_kept d d' ->
  match PyDict.get d k with
  | None => PyDict.get d' k = None
  | Some b => exists b', PyDict.get d' k = Some b' /\ same_shape b b'
  end.
Proof.
  induction 1 as [|[k0 b0] [k1 b1] d d' [Hk Hs] _ IH]; simpl in *; [done|].
  subst k1. destruct (decide (k0 = k)); [by exists b1|done].
Qed.

Lemma shapes_kept_keys (d d' : PyDict.t GPIO Pi5PixelBuffer.t) :
  shapes_kept d d' -> PyDict.keys d' = PyDict.keys d.
Proof.
  induction 1 as [|x y d d' [Hk _] _ IH]; simpl; [done|]. by rewrite Hk, IH.
Qed.

Lemma for_each_related {A S} (R : S -> S -> Prop) (xs : list A)
    (body : S -> A -> result S) (s s' : S) :
  (forall s0, R s0 s0) ->
  (forall s0 s1 s2, R s0 s1 -> R s1 s2 -> R s0 s2) ->
  (forall s0 x s1, x ∈ xs -> body s0 x = Ok s1 -> R s0 s1) ->
  for_each xs body s = Ok s' -> R s s'.
Proof.
  intros Hrefl Htrans. revert s.
  induction xs as [|x xs IH]; intros s Hstep Hrun; simpl in Hrun.
  - injection Hrun as <-. apply Hrefl.
  - destruct (body s x) as [s1|e] eqn:Hb; simpl in Hrun; [|done].
    apply (Htrans _ s1); [eapply Hstep; [by left|done]|].
    apply IH; [|done]. intros s0 y s2 Hy. apply Hstep. by right.
Qed.

Lemma render_pixel_shapes pin patch data (L L' : locals) (px : nat) :
  render_pixel pin patch data L px = Ok L' ->
  shapes_kept (buffers L) (buffers L').
Proof.
  unfold render_pixel. destruct (read_pixel _ _ _ _) as [p|e]; simpl; [|done].
  destruct (PyDict.get (buffers L) pin) as [buf|] eqn:Hbuf; [|done].
  unfold Pi5PixelBuffer.setitem. case_bool_decide; simpl; [|done].
  intros [= <-]. simpl. apply (shapes_kept_set _ _ buf); [done|].
  repeat split; simpl. apply length_insert.
Qed.

Lemma render_patch_shapes pin sacnData (L L' : locals) patch :
  render_patch pin sacnData L patch = Ok L' ->
  shapes_kept (buffers L) (buffers L').
Proof.
  unfold render_patch.
  set (L1 := match patch_px_type L with Some _ => L | None => _ end).
  assert (buffers L1 = buffers L) as <- by (subst L1; by destruct (patch_px_type L)).
  case_bool_decide; [intros [= <-]; apply shapes_kept_refl|].
  destruct (sacnData !! FixturePatch.universe patch) as [uni|];
    [|intros [= <-]; apply shapes_kept_refl].
  apply (for_each_related (fun La Lb => shapes_kept (buffers La) (buffers Lb))).
  - intros ?. apply shapes_kept_refl.
  - intros ? ? ?. apply shapes_kept_trans.
  - intros La px Lb _. apply render_pixel_shapes.
Qed.

Lemma render_output_shapes sacnData bufs bufs' item :
  render_output sacnData bufs item = Ok bufs' -> shapes_kept bufs bufs'.
Proof.
  destruct item as [pin patches]. unfold render_output.
  destruct (for_each _ _ _) as [L|e] eqn:Hrun; simpl; [|done].
  intros [= <-].
  apply (for_each_related (fun La Lb => shapes_kept (buffers La) (buffers Lb)))
    in Hrun; [done| | |].
  - intros ?. apply shapes_kept_refl.
  - intros ? ? ?. apply shapes_kept_trans.
  - intros La patch Lb _. apply render_patch_shapes.
Qed.

Lemma render_all_shapes sacnData patched bufs bufs' :
  for_each patched (render_output sacnData) bufs = Ok bufs' ->
  shapes_kept bufs bufs'.
Proof.
  apply for_each_related.
  - apply shapes_kept_refl.
  - apply shapes_kept_trans.
  - intros b item b' _. apply render_output_shapes.
Qed.

Lemma iteration_running patched (w : Worker.t) raw :
  state (iteration patched w raw) = Running ->
  exists bufs',
    for_each patched (render_output (UniverseData.fromDict <$> raw))
      (pixelBuffers w) = Ok bufs'
    /\ iteration patched w raw
       = Worker.mk (show_all bufs') (queue_closed w) (logger w) Running.
Proof.
  unfold iteration. case_bool_decide; [done|].
  destruct (for_each _ _ _) as [bufs'|e]; [|done]. intros _. by exists bufs'.
Qed.

(** X13. An iteration that completes changes no line's byte order or
    pixel count, keeps the lines and their order, and transmits exactly one
    frame per line: the content its buffer has at the end of the
    iteration. *)
Theorem iteration_transmits_one_frame_per_line
    (patched : PyDict.t GPIO (list FixturePatch.t)) (w : Worker.t)
    (raw : gmap Z UniverseData.Dict) (pin : GPIO) :
  state (iteration patched w raw) = Running ->
  let w' := iteration patched w raw in
  PyDict.keys (pixelBuffers w') = PyDict.keys (pixelBuffers w)
  /\ match PyDict.get (pixelBuffers w) pin with
     | None => PyDict.get (pixelBuffers w') pin = None
     | Some b =>
         exists b',
           PyDict.get (pixelBuffers w') pin = Some b'
           /\ Pi5PixelBuffer.byteorder b' = Pi5PixelBuffer.byteorder b
           /\ length (Pi5PixelBuffer.pixels b') = length (Pi5PixelBuffer.pixels b)
           /\ Pi5PixelBuffer.transmitted b'
              = Pi5PixelBuffer.transmitted b ++ [Pi5PixelBuffer.pixels b']
     end.
Proof.
  intros Hrun w'. subst w'.
  destruct (iteration_running _ _ _ Hrun) as (bufs' & Hrender & ->). simpl.
  apply render_all_shapes in Hrender.
  unfold show_all. rewrite PyDict_keys_fmap, PyDict_get_fmap.
  split; [by apply shapes_kept_keys|].
  pose proof (shapes_kept_get _ _ pin Hrender) as Hget.
  destruct (PyDict.get (pixelBuffers w) pin) as [b|].
  - destruct Hget as (b' & -> & Hbo & Hlen & Htx). simpl.
    eexists. split; [done|]. simpl. by rewrite Htx.
  - by rewrite Hget.
Qed.





Lemma render_patch_unsupported pin sacnData (L : locals) patch ty :
  patch_px_type L = Some ty -> ty <> Fixture.PX_RGB_8 ->
  render_patch pin sacnData L patch = Ok L.
Proof.
  intros HL Hty. unfold render_patch. rewrite HL.
  by rewrite bool_decide_true by (rewrite HL; by intros [= ?]).
Qed.

Lemma render_patches_unsupported pin sacnData patches (L : locals) ty :
  patch_px_type L = Some ty -> ty <> Fixture.PX_RGB_8 ->
  for_each patches (render_patch pin sacnData) L = Ok L.
Proof.
  intros HL Hty. induction patches as [|p patches IH]; cbn [for_each]; [done|].
  by rewrite (render_patch_unsupported _ _ _ _ ty).
Qed.

Lemma render_output_skips (sacnData : gmap Z UniverseData.t)
    (bufs : PyDict.t GPIO Pi5PixelBuffer.t)
    (pin : GPIO) (first : FixturePatch.t) (others : list FixturePatch.t) :
  FixturePatch.pixel_type first <> Fixture.PX_RGB_8 ->
  render_output sacnData bufs (pin, first :: others) = Ok bufs.
Proof.
  intros Hty. unfold render_output. cbn [for_each].
  set (L0 := mk_locals 0 None 0 [] 0 [] Pixel.new8 bufs).
  set (ty := FixturePatch.pixel_type first) in *.
  assert (render_patch pin sacnData L0 first
          = Ok (mk_locals 0 (Some ty) (Fixture.profile_size ty)
                  (Fixture.channels_offset ty) (Fixture.channel_count ty)
                  (Fixture.channels ty) Pixel.new8 bufs)) as ->.
  { unfold render_patch. cbn [patch_px_type L0]. fold ty.
    by rewrite bool_decide_true by (by intros [= ?]). }
  cbn [bind]. by rewrite (render_patches_unsupported _ _ _ _ ty).
Qed.

(** X15. The profile of a line's first strip decides for the whole line:
    when it is not rgb8 the line is left alone - nothing is read from the
    batch, no buffer is looked up or written - whatever strips follow. *)
Theorem unsupported_line_is_left_alone
    (sacnData : gmap Z UniverseData.t) (bufs : PyDict.t GPIO Pi5PixelBuffer.t)
    (pin : GPIO) (first : FixturePatch.t) (others : list FixturePatch.t) :
  FixturePatch.pixel_type first <> Fixture.PX_RGB_8 ->
  render_output sacnData bufs (pin, first :: others) = Ok bufs.
Proof. apply render_output_skips. Qed.
End WorkerShapes.

(** ** Buffer allocation and the life of the worker *)

Section WorkerLife.
Import Worker GpioManager.

Local Abbreviation rgb8 :=
  (fun p : FixturePatch.t => FixturePatch.pixel_type p = Fixture.PX_RGB_8).

Lemma PyDict_get_keys {K V} `{EqDecision K} (d : PyDict.t K V) (k : K) :
  k ∈ PyDict.keys d <-> is_Some (PyDict.get d k).
Proof.
  induction d as [|[k' v] d IH]; simpl.
  - split; [by intros ?%elem_of_nil|by intros [? ?]].
  - rewrite elem_of_cons, IH. destruct (decide (k' = k)) as [->|Hne].
    + split; [by eexists|by left].
    + split; [by intros [->|?]|by right].
Qed.

Lemma PyDict_get_elem {K V} `{EqDecision K} (d : PyDict.t K V) (k : K) (v : V) :
  NoDup (PyDict.keys d) -> (k, v) ∈ d -> PyDict.get d k = Some v.
Proof.
  induction d as [|[k' v'] d IH]; simpl; [by intros _ ?%elem_of_nil|].
  intros [Hfresh Hnodup]%NoDup_cons [[= -> ->]|Hin]%elem_of_cons.
  - by rewrite decide_True.
  - rewrite decide_False; [by apply IH|].
    intros ->. apply Hfresh. apply list_elem_of_fmap. by exists (k, v).
Qed.

Lemma scan_all_rgb8 (pin : GPIO) (patches : list FixturePatch.t) (s : scan) :
  Forall rgb8 patches ->
  foldl (scan_patch pin) s patches
  = mk_scan (outPixCount s + total_pixels patches)
      (if decide (patches = []) then rgbOrder s
       else if decide (rgbOrder s = ""%string) then "RGB"%string else rgbOrder s)
      (patchError s) (lines s).
Proof.
  intros Hall. revert s. induction Hall as [|p patches Hp _ IH]; intros s.
  - simpl. destruct s; simpl. f_equal. lia.
  - cbn [foldl]. rewrite IH. unfold scan_patch. rewrite decide_True by done.
    simpl. f_equal; [lia|]. rewrite Hp.
    change (Fixture.channel_order Fixture.PX_RGB_8) with "RGB"%string.
    destruct (decide (patches = [])), (decide (rgbOrder s = ""%string));
      try done; by rewrite decide_False.
Qed.

Lemma scan_error_stays (pin : GPIO) (patches : list FixturePatch.t) (s : scan) :
  patchError s = true -> patchError (foldl (scan_patch pin) s patches) = true.
Proof.
  revert s. induction patches as [|p patches IH]; intros s Herr; [done|].
  cbn [foldl]. apply IH. unfold scan_patch. by destruct (decide _).
Qed.

Lemma scan_unsupported (pin : GPIO) (patches : list FixturePatch.t) (s : scan) :
  ~ Forall rgb8 patches ->
  patchError (foldl (scan_patch pin) s patches) = true.
Proof.
  revert s. induction patches as [|p patches IH]; intros s Hnot.
  - by destruct Hnot.
  - cbn [foldl]. destruct (decide (rgb8 p)) as [Hp|Hp].
    + apply IH. intros Hall. apply Hnot. by constructor.
    + apply scan_error_stays. unfold scan_patch. by rewrite decide_False.
Qed.

Lemma make_buffer_buffers (acc : PyDict.t GPIO Pi5PixelBuffer.t * list line)
    (pin : GPIO) (patches : list FixturePatch.t) :
  (make_buffer acc (pin, patches)).1
  = if decide (Forall rgb8 patches /\ 0 < total_pixels patches)
    then PyDict.set acc.1 pin (Pi5PixelBuffer.new (total_pixels patches) "RGB")
    else acc.1.
Proof.
  unfold make_buffer. cbn [fst snd].
  destruct (decide (Forall rgb8 patches)) as [Hall|Hnot].
  - rewrite (scan_all_rgb8 _ _ _ Hall).
    cbn [patchError outPixCount rgbOrder negb andb]. rewrite Z.add_0_l.
    destruct (decide (Forall rgb8 patches /\ 0 < total_pixels patches))
      as [[_ Hpos]|Hneg].
    + rewrite bool_decide_true by lia.
      assert (patches <> []) as Hne by (intros ->; simpl in Hpos; lia).
      rewrite (decide_False (P := patches = [])) by done.
      rewrite decide_True by done.
      by rewrite (bool_decide_false ("RGB"%string = ""%string)).
    + rewrite bool_decide_false; [done|]. intros ?. apply Hneg.
      split; [done|lia].
  - rewrite (scan_unsupported _ _ _ Hnot). simpl.
    rewrite decide_False; [done|]. by intros [? _].
Qed.

Lemma make_buffers_get (patched : PyDict.t GPIO (list FixturePatch.t))
    (acc : PyDict.t GPIO Pi5PixelBuffer.t * list line) (pin : GPIO) :
  NoDup (PyDict.keys patched) ->
  PyDict.get (foldl make_buffer acc patched).1 pin
  = match PyDict.get patched pin with
    | Some patches =>
        if decide (Forall rgb8 patches /\ 0 < total_pixels patches)
        then Some (Pi5PixelBuffer.new (total_pixels patches) "RGB")
        else PyDict.get acc.1 pin
    | None => PyDict.get acc.1 pin
    end.
Proof.
  revert acc. induction patched as [|[k ps] rest IH]; intros acc Hnodup;
    [done|].
  simpl in Hnodup. apply NoDup_cons in Hnodup as [Hfresh Hnodup].
  cbn [foldl PyDict.get]. rewrite IH by done.
  rewrite make_buffer_buffers.
  destruct (decide (k = pin)) as [->|Hne].
  - rewrite (PyDict_get_absent rest pin Hfresh).
    destruct (decide _); [apply PyDict_get_set_eq|done].
  - assert (PyDict.get
              (if decide (Forall rgb8 ps /\ 0 < total_pixels ps)
               then PyDict.set acc.1 k
                      (Pi5PixelBuffer.new (total_pixels ps) "RGB")
               else acc.1) pin = PyDict.get acc.1 pin) as ->; [|done].
    destruct (decide _); [by apply PyDict_get_set_ne|done].
Qed.

Lemma unpatched_outputs_none (patched : PyDict.t GPIO (list FixturePatch.t))
    (bufs : PyDict.t GPIO Pi5PixelBuffer.t) :
  (forall k, k ∈ PyDict.keys bufs -> k ∈ PyDict.keys patched) ->
  unpatched_outputs patched bufs = [].
Proof.
  intros Hsub. unfold unpatched_outputs.
  induction (PyDict.keys bufs) as [|k ks IH]; [done|].
  rewrite filter_cons, decide_False.
  - apply IH. intros k' Hk'. apply Hsub. by right.
  - intros Hnot. apply Hnot, Hsub. by left.
Qed.

(** X16. The manager allocates a buffer for exactly the lines it can
    drive: a line whose strips are all rgb8, with at least one pixel in
    total, gets a dark RGB buffer of the line's total pixel count with
    nothing transmitted; any other line gets none; and no buffer is made for
    an output outside the table, so the worker's consistency check passes
    on what the manager hands over. *)
Theorem makePixelBuffers_allocation
    (patched : PyDict.t GPIO (list FixturePatch.t)) :
  NoDup (PyDict.keys patched) ->
  let bufs := (_makePixelBuffers patched).1 in
  unpatched_outputs patched bufs = []
  /\ forall pin,
       PyDict.get bufs pin
       = match PyDict.get patched pin with
         | Some patches =>
             if decide (Forall rgb8 patches /\ 0 < total_pixels patches)
             then Some (Pi5PixelBuffer.mk "RGB"
                          (blackout_frame (Z.to_nat (total_pixels patches))) [])
             else None
         | None => None
         end.
Proof.
  intros Hnodup bufs.
  assert (forall pin,
            PyDict.get bufs pin
            = match PyDict.get patched pin with
              | Some patches =>
                  if decide (Forall rgb8 patches /\ 0 < total_pixels patches)
                  then Some (Pi5PixelBuffer.mk "RGB"
                               (blackout_frame (Z.to_nat (total_pixels patches)))
                               [])
                  else None
              | None => None
              end) as Hget.
  { intros pin. subst bufs. unfold _makePixelBuffers.
    by rewrite make_buffers_get. }
  split; [|done]. apply unpatched_outputs_none. intros k Hk.
  apply PyDict_get_keys. apply PyDict_get_keys in Hk. rewrite Hget in Hk.
  destruct (PyDict.get patched k); [done|by destruct Hk].
Qed.

Lemma for_each_invariant {A S} (I : S -> Prop) (xs : list A)
    (body : S -> A -> result S) (s : S) :
  I s ->
  (forall s0 x, x ∈ xs -> I s0 -> exists s1, body s0 x = Ok s1 /\ I s1) ->
  exists s', for_each xs body s = Ok s' /\ I s'.
Proof.
  revert s. induction xs as [|x xs IH]; intros s Hs Hbody; cbn [for_each].
  - by exists s.
  - destruct (Hbody s x) as (s1 & -> & Hs1); [by left|done|]. cbn [bind].
    apply IH; [done|]. intros s0 y Hy. apply Hbody. by right.
Qed.

Lemma strip_frame_length order sacnData (p : FixturePatch.t) :
  (length (strip_frame order sacnData p)
   ≤ Z.to_nat (FixturePatch.pixel_count p))%nat.
Proof.
  unfold strip_frame, strip_frame_from.
  destruct (sacnData !! FixturePatch.universe p); simpl; [|lia].
  by rewrite length_fmap, length_seq.
Qed.

Lemma line_frame_length order sacnData (patches : list FixturePatch.t) :
  Forall strip_ok patches ->
  (length (line_frame order sacnData patches)
   ≤ Z.to_nat (total_pixels patches))%nat
  /\ 0 <= total_pixels patches.
Proof.
  induction 1 as [|p patches (Hcount & _ & _) _ [IH Hpos]]; simpl; [lia|].
  rewrite length_app. pose proof (strip_frame_length order sacnData p). lia.
Qed.

Lemma buffers_fit_kept (patched : PyDict.t GPIO (list FixturePatch.t))
    (bufs bufs' : PyDict.t GPIO Pi5PixelBuffer.t) :
  PyDict.keys bufs' = PyDict.keys bufs ->
  (forall pin buf, PyDict.get bufs pin = Some buf ->
     exists buf', PyDict.get bufs' pin = Some buf'
       /\ length (Pi5PixelBuffer.pixels buf')
          = length (Pi5PixelBuffer.pixels buf)) ->
  buffers_fit patched bufs -> buffers_fit patched bufs'.
Proof.
  intros Hkeys Hget [Hsub Hroom]. split; [by rewrite Hkeys|].
  eapply Forall_impl; [exact Hroom|]. intros item Hitem Hall Hne.
  destruct (Hitem Hall Hne) as (buf & Hbuf & Hlen).
  destruct (Hget _ _ Hbuf) as (buf' & Hbuf' & Hlen').
  exists buf'. split; [done|]. by rewrite Hlen'.
Qed.

Lemma shapes_kept_lengths (bufs bufs' : PyDict.t GPIO Pi5PixelBuffer.t) :
  shapes_kept bufs bufs' ->
  forall pin buf, PyDict.get bufs pin = Some buf ->
    exists buf', PyDict.get bufs' pin = Some buf'
      /\ length (Pi5PixelBuffer.pixels buf')
         = length (Pi5PixelBuffer.pixels buf).
Proof.
  intros Hshapes pin buf Hget.
  pose proof (shapes_kept_get _ _ pin Hshapes) as H. rewrite Hget in H.
  destruct H as (buf' & Hget' & _ & Hlen & _). by exists buf'.
Qed.

Lemma render_output_fits (raw : gmap Z UniverseData.Dict)
    (patched : PyDict.t GPIO (list FixturePatch.t))
    (bufs : PyDict.t GPIO Pi5PixelBuffer.t) (item : GPIO * list FixturePatch.t) :
  batch_ok raw -> line_ok item.2 -> item ∈ patched ->
  buffers_fit patched bufs ->
  exists bufs',
    render_output (UniverseData.fromDict <$> raw) bufs item = Ok bufs'
    /\ buffers_fit patched bufs'.
Proof.
  intros Hbatch [Hstrips Htypes] Hin Hfit. destruct item as [pin patches].
  simpl in *.
  assert (forall bufs', render_output (UniverseData.fromDict <$> raw) bufs
                          (pin, patches) = Ok bufs' ->
                        buffers_fit patched bufs') as Hkept.
  { intros bufs' Hrun. apply render_output_shapes in Hrun.
    apply (buffers_fit_kept _ bufs); [by apply shapes_kept_keys| |done].
    by apply shapes_kept_lengths. }
  destruct patches as [|first others]; [by exists bufs|].
  destruct Htypes as [Hrgb|Hother].
  - destruct Hfit as [_ Hroom]. rewrite Forall_forall in Hroom.
    destruct (Hroom _ Hin Hrgb) as (buf & Hbuf & Hlen); [done|]. simpl in *.
    destruct (render_output_run pin (UniverseData.fromDict <$> raw))
      with (patches := first :: others) (bufs := bufs) (buf := buf)
      as (bufs' & Hrun & _).
    + intros u uni. rewrite lookup_fmap.
      destruct (raw !! u) as [d|] eqn:Hd; [|done]. intros [= <-].
      by apply (Hbatch u).
    + rewrite Forall_forall in Hstrips, Hrgb. apply Forall_forall.
      intros p Hp. destruct (Hstrips p Hp) as (_ & ? & ?).
      split; [by apply Hrgb|done].
    + done.
    + pose proof (line_frame_length (Pi5PixelBuffer.byteorder buf)
                    (UniverseData.fromDict <$> raw) (first :: others) Hstrips)
        as [Hframe _].
      etrans; [exact Hframe|exact Hlen].
    + exists bufs'. split; [done|]. by apply Hkept.
  - exists bufs. split; [|done]. apply render_output_skips.
    by inversion Hother.
Qed.

Lemma iteration_fits (patched : PyDict.t GPIO (list FixturePatch.t))
    (w : Worker.t) (raw : gmap Z UniverseData.Dict) :
  table_ok patched -> batch_ok raw -> buffers_fit patched (pixelBuffers w) ->
  state (iteration patched w raw) = Running
  /\ buffers_fit patched (pixelBuffers (iteration patched w raw)).
Proof.
  intros [_ Hlines] Hbatch Hfit. unfold iteration.
  rewrite (unpatched_outputs_none _ _ (proj1 Hfit)).
  rewrite bool_decide_false by (by intros []).
  destruct (for_each_invariant (buffers_fit patched) patched
              (render_output (UniverseData.fromDict <$> raw)) (pixelBuffers w))
    as (bufs' & -> & Hfit'); [done| |].
  - intros bufs0 item Hitem Hfit0. apply render_output_fits; try done.
    rewrite Forall_forall in Hlines. by apply Hlines.
  - split; [done|]. simpl. apply (buffers_fit_kept _ bufs'); [| |done].
    + apply PyDict_keys_fmap.
    + intros pin buf Hget. unfold show_all. rewrite PyDict_get_fmap, Hget.
      by eexists.
Qed.

Lemma allocated_buffers_fit (patched : PyDict.t GPIO (list FixturePatch.t)) :
  table_ok patched -> buffers_fit patched (_makePixelBuffers patched).1.
Proof.
  intros [Hnodup Hlines]. split.
  - intros k Hk. apply PyDict_get_keys. apply PyDict_get_keys in Hk.
    unfold _makePixelBuffers in Hk. rewrite make_buffers_get in Hk by done.
    destruct (PyDict.get patched k); [done|by destruct Hk].
  - rewrite Forall_forall in Hlines. apply Forall_forall.
    intros [pin patches] Hin Hall Hne. simpl in *.
    destruct (Hlines _ Hin) as [Hstrips _]. simpl in Hstrips.
    unfold _makePixelBuffers. rewrite make_buffers_get by done.
    rewrite (PyDict_get_elem _ _ _ Hnodup Hin). rewrite decide_True.
    + eexists. split; [done|]. simpl. by rewrite length_replicate.
    + split; [done|]. destruct Hstrips as [|p ps (Hcount & _) Hps]; [done|].
      simpl. pose proof (line_frame_length "" ∅ ps Hps) as [_ Hpos]. lia.
Qed.

Lemma run_fits (patched : PyDict.t GPIO (list FixturePatch.t))
    (events : list event) (w : Worker.t) :
  table_ok patched -> Forall event_ok events ->
  (state w = Running -> buffers_fit patched (pixelBuffers w)) ->
  (state w = Running \/ state w = Exited 0) ->
  let w' := foldl (step patched) w events in
  state w' = Running \/ state w' = Exited 0.
Proof.
  intros Htable Hevents. revert w.
  induction Hevents as [|ev events Hev _ IH]; intros w Hfit Hstate; [done|].
  cbn [foldl]. apply IH.
  - unfold step. destruct (state w) eqn:Hw; try (by rewrite Hw).
    destruct ev as [raw| |]; [|done|by rewrite Hw].
    intros _. by apply iteration_fits; [| |apply Hfit].
  - unfold step. destruct (state w) eqn:Hw; try (by rewrite Hw).
    destruct ev as [raw| |]; [|by right|by rewrite Hw; left].
    left. by apply iteration_fits; [| |apply Hfit].
Qed.

(** X17. A worker started on the buffers the manager allocated from the
    same table never dies of an exception and never leaves through the
    consistency check: whatever well-formed batches and signals arrive, it
    is still in its loop or has exited with code 0. The table is one whose
    lines are distinct outputs, each with strips of one profile that have at
    least one pixel and lie within channels 1 to 512. *)
Theorem worker_on_allocated_buffers_survives
    (patched : PyDict.t GPIO (list FixturePatch.t)) (events : list event) :
  table_ok patched -> Forall event_ok events ->
  let w := processSacnToGPIO patched (_makePixelBuffers patched).1 true events in
  state w = Running \/ state w = Exited 0.
Proof.
  intros Htable Hevents. unfold processSacnToGPIO. cbn [negb].
  apply run_fits; [done|done| |by left].
  intros _. by apply allocated_buffers_fit.
Qed.
End WorkerLife.

(** ** From the configuration to the lines *)

Section Pipeline.
Import FixtureManager.

Lemma built_table_ok self (cfg : FullConfig.t) self' lines :
  _patch_fixtures self cfg = (self', lines, Ok tt) ->
  Forall (fun item => LedStrip.fields_ok item.2) (declared_strips cfg) ->
  table_ok (get_fixtures_all self').
Proof.
  intros Hbuilt Hfields.
  destruct (built_by_out _ _ _ _ Hbuilt) as (Hnodup & Hout & _).
  destruct (built_clean _ _ _ _ Hbuilt) as (Hclean & _).
  unfold get_fixtures_all. rewrite Hout. split.
  - by rewrite PyDict_keys_mapped.
  - apply Forall_fmap, Forall_forall. intros [out pin] Hin. simpl.
    unfold output_queue.
    destruct (Fixture.from_string (PinConfig.pixel_type pin)) as [ty|e] eqn:Hty;
      [|split; [constructor|left; constructor]].
    assert (forall p, p ∈ patches_from pin ty 0 (PinConfig.strips pin) ->
              strip_ok p /\ FixturePatch.pixel_type p = ty) as Hall.
    { intros p Hp.
      destruct (patches_from_origin _ _ _ _ _ Hp) as (strip & pos & Hstrip & ->).
      pose proof (declared_strips_elem cfg out pin strip Hin Hstrip) as Hdecl.
      rewrite Forall_forall in Hfields.
      destruct (Hfields _ Hdecl) as (Hcount & _ & Hstart). simpl in *.
      assert (~ last_channel ty strip > DMX_UNI_SIZE) as Hfit.
      { intros Hover.
        apply (Hclean (DoesNotFitUniverse out (LedStrip.label strip))).
        right. right. by exists out, pin, strip, ty. }
      unfold last_channel, DMX_UNI_SIZE in *.
      split; [|done]. unfold strip_ok, FixturePatch.end_channel. simpl. lia. }
    split.
    + apply Forall_forall. intros p Hp. by apply Hall.
    + destruct (decide (ty = Fixture.PX_RGB_8)) as [->|Hne].
      * left. apply Forall_forall. intros p Hp. by apply Hall.
      * right. apply Forall_forall. intros p Hp.
        destruct (Hall p Hp) as [_ ->]. done.
Qed.

(** X18. From the configuration to the lines: the table built from a
    configuration whose strips satisfy their field constraints has distinct
    outputs, each with strips of one profile, at least one pixel and
    channels within 1 to 512; so the worker the manager starts on it, with
    the buffers the manager allocated for it, never dies of an exception
    and never leaves through the consistency check. *)
Theorem configured_worker_survives self (cfg : FullConfig.t) self' lines
    (events : list Worker.event) :
  _patch_fixtures self cfg = (self', lines, Ok tt) ->
  Forall (fun item => LedStrip.fields_ok item.2) (declared_strips cfg) ->
  Forall event_ok events ->
  let table := get_fixtures_all self' in
  let w :=
    Worker.processSacnToGPIO table (GpioManager._makePixelBuffers table).1
      true events in
  table_ok table
  /\ (Worker.state w = Worker.Running \/ Worker.state w = Worker.Exited 0).
Proof.
  intros Hbuilt Hfields Hevents table w.
  assert (table_ok table) as Htable by (by eapply built_table_ok).
  split; [done|]. subst w. unfold Worker.processSacnToGPIO. cbn [negb].
  apply run_fits; [done|done| |by left].
  intros _. by apply allocated_buffers_fit.
Qed.
End Pipeline.

Section WorkerRuns.
Import Worker.

Lemma later_buffer_refl (b : Pi5PixelBuffer.t) : later_buffer b b.
Proof.
  split; [done|]. split; [done|]. exists []. by rewrite app_nil_r.
Qed.

Lemma later_buffer_trans (b1 b2 b3 : Pi5PixelBuffer.t) :
  later_buffer b1 b2 -> later_buffer b2 b3 -> later_buffer b1 b3.
Proof.
  intros (Ho & Hl & f12 & Ht & Hf) (Ho' & Hl' & f23 & Ht' & Hf').
  split; [congruence|]. split; [congruence|]. exists (f12 ++ f23).
  split; [by rewrite Ht', Ht, app_assoc|].
  apply Forall_app. split; [done|]. by rewrite <- Hl.
Qed.

Lemma later_buffers_refl (bufs : PyDict.t GPIO Pi5PixelBuffer.t) :
  later_buffers bufs bufs.
Proof.
  induction bufs as [|x bufs IH]; constructor; [|done].
  split; [done|apply later_buffer_refl].
Qed.

Lemma later_buffers_trans (d1 d2 d3 : PyDict.t GPIO Pi5PixelBuffer.t) :
  later_buffers d1 d2 -> later_buffers d2 d3 -> later_buffers d1 d3.
Proof.
  intros H12. revert d3. induction H12 as [|x y d1 d2 [Hk Hs] _ IH];
    intros d3 H23; inversion H23 as [|y' z d2' d3' [Hk' Hs'] Hrest]; subst.
  - constructor.
  - constructor; [|by apply IH].
    split; [congruence|by eapply later_buffer_trans].
Qed.

Lemma shapes_kept_later (bufs bufs' : PyDict.t GPIO Pi5PixelBuffer.t) :
  shapes_kept bufs bufs' -> later_buffers bufs bufs'.
Proof.
  induction 1 as [|x y d d' (Hk & Ho & Hl & Ht) _ IH]; constructor; [|done].
  split; [done|]. split; [done|]. split; [done|].
  exists []. by rewrite app_nil_r.
Qed.

Lemma show_all_later (bufs : PyDict.t GPIO Pi5PixelBuffer.t) :
  later_buffers bufs (show_all bufs).
Proof.
  induction bufs as [|[k b] bufs IH]; constructor; [|done].
  split; [done|]. split; [done|]. split; [done|]. simpl.
  exists [Pi5PixelBuffer.pixels b]. split; [done|]. by constructor.
Qed.

Lemma blackoutAll_later (bufs : PyDict.t GPIO Pi5PixelBuffer.t) :
  later_buffers bufs (blackoutAll bufs).
Proof.
  induction bufs as [|[k b] bufs IH]; constructor; [|done].
  split; [done|]. split; [done|]. simpl. split; [apply length_replicate|].
  eexists. split; [done|]. constructor; [apply length_replicate|done].
Qed.

Lemma blackoutAll_dark (bufs : PyDict.t GPIO Pi5PixelBuffer.t) :
  Forall (fun x => dark x.2) (blackoutAll bufs).
Proof.
  induction bufs as [|[k b] bufs IH]; constructor; [|done].
  split; simpl.
  - unfold blackout_frame. by rewrite length_replicate.
  - by rewrite last_snoc.
Qed.

Lemma iteration_later patched (w : Worker.t) raw :
  later_buffers (pixelBuffers w) (pixelBuffers (iteration patched w raw))
  /\ forall c, state (iteration patched w raw) <> Exited c.
Proof.
  unfold iteration. case_bool_decide; [split; [apply later_buffers_refl|done]|].
  destruct (for_each _ _ _) as [bufs'|e] eqn:Hrun;
    [|split; [apply later_buffers_refl|done]].
  split; [|done]. simpl. apply (later_buffers_trans _ bufs').
  - by eapply shapes_kept_later, render_all_shapes.
  - apply show_all_later.
Qed.

Lemma later_buffers_keys (bufs bufs' : PyDict.t GPIO Pi5PixelBuffer.t) :
  later_buffers bufs bufs' -> PyDict.keys bufs' = PyDict.keys bufs.
Proof.
  induction 1 as [|x y d d' [Hk _] _ IH]; simpl; [done|]. by rewrite Hk, IH.
Qed.

(** X19. Over a whole run - whatever the table, the buffers, the batches
    and the signals, and however the worker ends - every line keeps its
    output, byte order and pixel count, nothing already transmitted is
    lost, and every frame sent has the line's length. The three ways out:
    a worker that left through [sys.exit] (termination signal, logger
    failure) did so with code 0 and left every line dark, the dark frame
    being the last one sent; a worker that left through the return of the
    consistency check was started on a buffer map with an output the table
    lacks, has written and sent nothing at all - its buffers are the ones
    it was given, not blacked out - and has not closed the channel; a
    worker that died of an exception has sent only whole frames. *)
Theorem run_keeps_lines_and_exits_dark
    (patched : PyDict.t GPIO (list FixturePatch.t))
    (bufs : PyDict.t GPIO Pi5PixelBuffer.t) (logger_ok : bool)
    (events : list event) :
  let w := processSacnToGPIO patched bufs logger_ok events in
  later_buffers bufs (pixelBuffers w)
  /\ (forall c, state w = Exited c ->
        c = 0 /\ Forall (fun x => dark x.2) (pixelBuffers w))
  /\ (state w = Returned ->
        unpatched_outputs patched bufs <> []
        /\ pixelBuffers w = bufs
        /\ queue_closed w = false)
  /\ (unpatched_outputs patched bufs = [] -> state w <> Returned).
Proof.
  intros w. subst w. unfold processSacnToGPIO.
  destruct logger_ok; cbn [negb].
  - set (inv := fun w : Worker.t =>
           later_buffers bufs (pixelBuffers w)
           /\ (forall c, state w = Exited c ->
                 c = 0 /\ Forall (fun x => dark x.2) (pixelBuffers w))
           /\ (state w = Returned \/ state w = Running ->
                 unpatched_outputs patched bufs <> [] ->
                 pixelBuffers w = bufs /\ queue_closed w = false)
           /\ (state w = Returned -> unpatched_outputs patched bufs <> [])).
    assert (forall w, inv w -> inv (foldl (step patched) w events)) as Hgen.
    { induction events as [|ev events IH]; intros w Hinv; [done|].
      cbn [foldl]. apply IH. unfold step.
      destruct (state w) eqn:Hw; try exact Hinv.
      destruct ev as [raw| |]; [| |exact Hinv].
      all: destruct Hinv as (Hlater & Hexit & Hkept & Hret).
      - assert (unpatched_outputs patched (pixelBuffers w)
                = unpatched_outputs patched bufs) as Hsame.
        { unfold unpatched_outputs. by rewrite (later_buffers_keys _ _ Hlater). }
        destruct (decide (unpatched_outputs patched bufs = [])) as [Heq|Hne].
        + destruct (iteration_later patched w raw) as [Hit Hnot].
          pose proof (iteration_consistent patched w raw) as Hcons.
          rewrite Hsame in Hcons. specialize (Hcons Heq).
          split; [by eapply later_buffers_trans|].
          split; [intros c Hc; by destruct (Hnot c)|].
          split; [by intros _ ?|done].
        + rewrite iteration_mismatch by (by rewrite Hsame). simpl.
          split; [done|]. split; [done|].
          split; [|done]. intros _ _. apply Hkept; [by right|done].
      - split; simpl.
        + eapply later_buffers_trans; [done|apply blackoutAll_later].
        + split; [intros c [= <-]; split; [done|apply blackoutAll_dark]|].
          split; [by intros [?|?]|done]. }
    destruct (Hgen (Worker.mk bufs false [WorkerActive] Running))
      as (Hlater & Hexit & Hkept & Hret).
    { split; [apply later_buffers_refl|]. by repeat split. }
    split; [done|]. split; [done|]. split.
    + intros Hstate. split; [by apply Hret|]. apply Hkept; [by left|].
      by apply Hret.
    + intros Heq Hstate. by apply (Hret Hstate).
  - simpl. split; [apply blackoutAll_later|].
    split; [intros c [= <-]; split; [done|apply blackoutAll_dark]|].
    split; [done|by intros _ ?].
Qed.
End WorkerRuns.

(** ** What an iteration puts on every line *)

Section IterationFrames.
Import Worker.

Local Abbreviation rgb8 :=
  (fun p : FixturePatch.t => FixturePatch.pixel_type p = Fixture.PX_RGB_8).

Local Abbreviation has_room bufs :=
  (fun item : GPIO * list FixturePatch.t =>
     Forall rgb8 item.2 -> item.2 <> [] ->
     exists buf,
       PyDict.get bufs item.1 = Some buf
       /\ (Z.to_nat (total_pixels item.2)
           ≤ length (Pi5PixelBuffer.pixels buf))%nat).

Lemma render_output_described (sacnData : gmap Z UniverseData.t)
    (bufs : PyDict.t GPIO Pi5PixelBuffer.t) (pin : GPIO)
    (patches : list FixturePatch.t) :
  (forall u uni, sacnData !! u = Some uni ->
                 snapshot_ok (UniverseData.dmxData uni)) ->
  line_ok patches -> has_room bufs (pin, patches) ->
  exists bufs1,
    render_output sacnData bufs (pin, patches) = Ok bufs1
    /\ (forall k, k <> pin -> PyDict.get bufs1 k = PyDict.get bufs k)
    /\ PyDict.get bufs1 pin
       = match PyDict.get bufs pin with
         | Some b =>
             if decide (Forall rgb8 patches)
             then Some (rendered sacnData patches b) else Some b
         | None => None
         end.
Proof.
  intros Hsnap [Hstrips Htypes] Hroom. simpl in Hroom.
  destruct patches as [|first others].
  - exists bufs. split; [done|]. split; [done|].
    destruct (PyDict.get bufs pin) as [b|]; [|done].
    rewrite decide_True by constructor. by destruct b.
  - destruct Htypes as [Hrgb|Hother].
    + destruct (Hroom Hrgb) as (buf & Hbuf & Hlen); [done|].
      destruct (render_output_run pin sacnData Hsnap (first :: others) bufs buf)
        as (bufs1 & Hrun & Hget & Hrest); [| done | |].
      * rewrite Forall_forall in Hstrips, Hrgb. apply Forall_forall.
        intros p Hp. destruct (Hstrips p Hp) as (_ & ? & ?).
        split; [by apply Hrgb|done].
      * pose proof (line_frame_length (Pi5PixelBuffer.byteorder buf)
                      sacnData (first :: others) Hstrips) as [Hframe _].
        etrans; [exact Hframe|exact Hlen].
      * exists bufs1. split; [done|]. split; [done|].
        by rewrite Hget, Hbuf, decide_True.
    + exists bufs. split; [apply render_output_skips; by inversion Hother|].
      split; [done|]. destruct (PyDict.get bufs pin) as [b|]; [|done].
      rewrite decide_False; [done|]. intros Hall.
      inversion Hall; inversion Hother; by subst.
Qed.

Lemma render_all_described (sacnData : gmap Z UniverseData.t)
    (patched : PyDict.t GPIO (list FixturePatch.t)) :
  (forall u uni, sacnData !! u = Some uni ->
                 snapshot_ok (UniverseData.dmxData uni)) ->
  NoDup (PyDict.keys patched) ->
  Forall (fun item => line_ok item.2) patched ->
  forall bufs, Forall (has_room bufs) patched ->
  exists bufs',
    for_each patched (render_output sacnData) bufs = Ok bufs'
    /\ forall pin,
         PyDict.get bufs' pin
         = match PyDict.get patched pin, PyDict.get bufs pin with
           | Some patches, Some b =>
               if decide (Forall rgb8 patches)
               then Some (rendered sacnData patches b) else Some b
           | _, ob => ob
           end.
Proof.
  intros Hsnap. induction patched as [|[k ps] rest IH];
    intros Hnodup Hlines bufs Hroom.
  - exists bufs. split; [done|]. intros pin. simpl.
    by destruct (PyDict.get bufs pin).
  - simpl in Hnodup. apply NoDup_cons in Hnodup as [Hfresh Hnodup].
    apply Forall_cons in Hlines as [Hline Hlines].
    apply Forall_cons in Hroom as [Hroomk Hroom].
    destruct (render_output_described sacnData bufs k ps Hsnap Hline Hroomk)
      as (bufs1 & Hrun1 & Hrest1 & Hget1).
    destruct (IH Hnodup Hlines bufs1) as (bufs' & Hrun & Hget).
    { rewrite Forall_forall in Hroom. apply Forall_forall.
      intros [pin patches] Hin Hall Hne. simpl in *.
      rewrite Hrest1; [by apply (Hroom (pin, patches))|].
      intros ->. apply Hfresh. apply list_elem_of_fmap. by exists (k, patches). }
    exists bufs'. split; [cbn [for_each]; by rewrite Hrun1|].
    intros pin. rewrite Hget. cbn [PyDict.get].
    destruct (decide (k = pin)) as [->|Hne].
    + rewrite (PyDict_get_absent rest pin Hfresh), Hget1.
      by destruct (PyDict.get bufs pin).
    + by rewrite Hrest1.
Qed.

(** X20. What one iteration puts on every line. With a table of distinct
    outputs whose lines are well formed, buffers with room for them and a
    batch of 512-byte universes, the iteration completes and every line of
    rgb8 strips shows, and has transmitted as its newest frame, the frames
    of its strips that have a universe in the batch, back to back from the
    head of the buffer, followed by the pixels the buffer already held
    beyond them. A strip without data takes no room in that frame. *)
Theorem iteration_renders_every_line
    (patched : PyDict.t GPIO (list FixturePatch.t)) (w : Worker.t)
    (raw : gmap Z UniverseData.Dict) (pin : GPIO)
    (patches : list FixturePatch.t) (b : Pi5PixelBuffer.t) :
  table_ok patched -> batch_ok raw ->
  buffers_fit patched (pixelBuffers w) ->
  PyDict.get patched pin = Some patches ->
  PyDict.get (pixelBuffers w) pin = Some b ->
  Forall rgb8 patches ->
  let w' := iteration patched w raw in
  let frame :=
    line_frame (Pi5PixelBuffer.byteorder b) (UniverseData.fromDict <$> raw)
      patches in
  let shown := frame ++ drop (length frame) (Pi5PixelBuffer.pixels b) in
  state w' = Running
  /\ PyDict.get (pixelBuffers w') pin
     = Some (Pi5PixelBuffer.mk (Pi5PixelBuffer.byteorder b) shown
               (Pi5PixelBuffer.transmitted b ++ [shown])).
Proof.
  intros [Hnodup Hlines] Hbatch [Hsub Hroom] Hpatches Hbuf Hrgb w' frame shown.
  subst w'. unfold iteration. rewrite (unpatched_outputs_none _ _ Hsub).
  rewrite bool_decide_false by (by intros []).
  destruct (render_all_described (UniverseData.fromDict <$> raw) patched)
    with (bufs := pixelBuffers w) as (bufs' & -> & Hget); try done.
  { intros u uni. rewrite lookup_fmap.
    destruct (raw !! u) as [d|] eqn:Hd; [|done]. intros [= <-].
    by apply (Hbatch u). }
  split; [done|]. simpl. unfold show_all.
  rewrite PyDict_get_fmap, Hget, Hpatches, Hbuf. by rewrite decide_True.
Qed.
End IterationFrames.

(** ** The values written to a buffer *)

Section PixelValues.
Import Worker.

Local Abbreviation within top p :=
  (Pixel.bitDepth p = Pixel.bitDepth top
   /\ 0 <= Pixel.red p <= Pixel.maxValue top
   /\ 0 <= Pixel.green p <= Pixel.maxValue top
   /\ 0 <= Pixel.blue p <= Pixel.maxValue top
   /\ 0 <= Pixel.white p <= Pixel.maxValue top).

Lemma maxValue_depth (p q : Pixel.t) :
  Pixel.bitDepth p = Pixel.bitDepth q -> Pixel.maxValue p = Pixel.maxValue q.
Proof. unfold Pixel.maxValue. by intros ->. Qed.

Lemma set_red_checked (p p' : Pixel.t) (v : Z) :
  Pixel.set_red p v = Ok p' ->
  0 <= v <= Pixel.maxValue p
  /\ p' = Pixel.mk (Pixel.bitDepth p) v (Pixel.green p) (Pixel.blue p)
            (Pixel.white p).
Proof.
  unfold Pixel.set_red. case_bool_decide; simpl; [|done]. by intros [= <-].
Qed.

Lemma set_green_checked (p p' : Pixel.t) (v : Z) :
  Pixel.set_green p v = Ok p' ->
  0 <= v <= Pixel.maxValue p
  /\ p' = Pixel.mk (Pixel.bitDepth p) (Pixel.red p) v (Pixel.blue p)
            (Pixel.white p).
Proof.
  unfold Pixel.set_green. case_bool_decide; simpl; [|done]. by intros [= <-].
Qed.

Lemma set_blue_checked (p p' : Pixel.t) (v : Z) :
  Pixel.set_blue p v = Ok p' ->
  0 <= v <= Pixel.maxValue p
  /\ p' = Pixel.mk (Pixel.bitDepth p) (Pixel.red p) (Pixel.green p) v
            (Pixel.white p).
Proof.
  unfold Pixel.set_blue. case_bool_decide; simpl; [|done]. by intros [= <-].
Qed.

Lemma set_white_checked (p p' : Pixel.t) (v : Z) :
  Pixel.set_white p v = Ok p' ->
  0 <= v <= Pixel.maxValue p
  /\ p' = Pixel.mk (Pixel.bitDepth p) (Pixel.red p) (Pixel.green p)
            (Pixel.blue p) v.
Proof.
  unfold Pixel.set_white. case_bool_decide; simpl; [|done]. by intros [= <-].
Qed.

Lemma read_channel_within (top : Pixel.t) patch (L : locals) data px
    (p p' : Pixel.t) (pxch : nat) :
  within top p -> read_channel patch L data px p pxch = Ok p' -> within top p'.
Proof.
  intros (Hd & Hr & Hg & Hb & Hw). unfold read_channel.
  destruct (patch_ch_info L !! pxch) as [info|]; [|done].
  destruct (patch_ch_offset L !! pxch) as [offset|]; [|done].
  destruct (tuple_getitem _ _) as [v|e]; simpl; [|done].
  pose proof (maxValue_depth p top Hd) as Hmax.
  destruct (FixtureChannel.label info).
  - intros [Hv ->]%set_red_checked. rewrite Hmax in Hv. simpl. lia.
  - intros [Hv ->]%set_green_checked. rewrite Hmax in Hv. simpl. lia.
  - intros [Hv ->]%set_blue_checked. rewrite Hmax in Hv. simpl. lia.
  - intros [Hv ->]%set_white_checked. rewrite Hmax in Hv. simpl. lia.
Qed.

Lemma read_pixel_within patch (L : locals) data px (p : Pixel.t) :
  read_pixel patch L data px = Ok p -> within (tmpPx L) p.
Proof.
  unfold read_pixel.
  destruct (Pixel.set_red _ _) as [p1|] eqn:H1; simpl; [|done].
  destruct (Pixel.set_green _ _) as [p2|] eqn:H2; simpl; [|done].
  destruct (Pixel.set_blue _ _) as [p3|] eqn:H3; simpl; [|done].
  destruct (Pixel.set_white _ _) as [p4|] eqn:H4; simpl; [|done].
  apply set_red_checked in H1 as [Hz ->].
  apply set_green_checked in H2 as [_ ->].
  apply set_blue_checked in H3 as [_ ->].
  apply set_white_checked in H4 as [_ ->]. simpl.
  intros Hrun.
  refine (for_each_related
            (fun a b => within (tmpPx L) a -> within (tmpPx L) b)
            _ _ _ _ _ _ _ Hrun _).
  - done.
  - intros a b c Hab Hbc Ha. by apply Hbc, Hab.
  - intros a pxch b _ Hstep Ha. by eapply read_channel_within.
  - simpl. lia.
Qed.

Lemma length_list_ascii_of_string (s : string) :
  length (list_ascii_of_string s) = String.length s.
Proof. induction s as [|c s IH]; simpl; [done|]. by rewrite IH. Qed.

Lemma collect_values (p : Pixel.t) (chars : list ascii) (values : list Z) :
  Pixel.collect p chars = Some values ->
  length values = length chars
  /\ Forall (fun x => x ∈ [Pixel.red p; Pixel.green p; Pixel.blue p;
                            Pixel.white p]) values.
Proof.
  revert values. induction chars as [|c chars IH]; intros values; simpl.
  - by intros [= <-].
  - destruct (Pixel.collect p chars) as [rest|]; simpl;
      [|by repeat destruct (decide _)].
    destruct (IH rest eq_refl) as [Hlen Hall].
    repeat destruct (decide _); try done; intros [= <-]; simpl;
      (split; [by rewrite Hlen|]); constructor; try done;
      rewrite !elem_of_cons; auto.
Qed.

Lemma asTuple_values (p : Pixel.t) (order : string) :
  (3 ≤ length (Pixel.asTuple p order) ≤ 4)%nat
  /\ Forall (fun x => x ∈ [Pixel.red p; Pixel.green p; Pixel.blue p;
                            Pixel.white p]) (Pixel.asTuple p order).
Proof.
  assert (Forall (fun x => x ∈ [Pixel.red p; Pixel.green p; Pixel.blue p;
                                 Pixel.white p])
            [Pixel.red p; Pixel.green p; Pixel.blue p]) as Hrgb.
  { repeat constructor; rewrite !elem_of_cons; auto. }
  unfold Pixel.asTuple. case_bool_decide as Hlen; simpl; [|split; [lia|done]].
  destruct (Pixel.collect _ _) as [values|] eqn:Hcollect;
    [|split; [simpl; lia|done]].
  destruct (collect_values _ _ _ Hcollect) as [Hl Hall].
  rewrite length_list_ascii_of_string in Hl. split; [lia|done].
Qed.

(** X21. A pixel write that succeeds stores, at the running offset of the
    line's existing buffer, 3 or 4 values that each lie between 0 and the
    maximum of the pixel's bit depth (255 in the 8-bit mode the worker
    uses), whatever the universe data held, and moves the offset on by one;
    nothing else in the buffers changes. *)
Theorem render_pixel_writes_checked_values (pin : GPIO)
    (patch : FixturePatch.t) (data : list Z) (L L' : locals) (px : nat) :
  render_pixel pin patch data L px = Ok L' ->
  exists buf value,
    PyDict.get (buffers L) pin = Some buf
    /\ (offsetInQueue L < length (Pi5PixelBuffer.pixels buf))%nat
    /\ buffers L'
       = PyDict.set (buffers L) pin
           (Pi5PixelBuffer.mk (Pi5PixelBuffer.byteorder buf)
              (<[offsetInQueue L := value]> (Pi5PixelBuffer.pixels buf))
              (Pi5PixelBuffer.transmitted buf))
    /\ offsetInQueue L' = S (offsetInQueue L)
    /\ (3 ≤ length value ≤ 4)%nat
    /\ Forall (fun x => 0 <= x <= Pixel.maxValue (tmpPx L)) value.
Proof.
  unfold render_pixel.
  destruct (read_pixel _ _ _ _) as [p|e] eqn:Hread; simpl; [|done].
  destruct (PyDict.get (buffers L) pin) as [buf|]; [|done].
  unfold Pi5PixelBuffer.setitem. case_bool_decide as Hroom; simpl; [|done].
  intros [= <-]. simpl.
  exists buf, (Pixel.asTuple p (Pi5PixelBuffer.byteorder buf)).
  do 4 (split; [done|]).
  destruct (asTuple_values p (Pi5PixelBuffer.byteorder buf)) as [Hlen Hall].
  split; [done|].
  apply read_pixel_within in Hread as (_ & Hr & Hg & Hb & Hw).
  eapply Forall_impl; [exact Hall|]. simpl. intros x Hx.
  repeat (apply elem_of_cons in Hx as [->|Hx]; [done|]).
  by apply elem_of_nil in Hx.
Qed.
End PixelValues.

(** ** The further properties at the sample inputs *)

Lemma sample_cfg_built :
  FixtureManager._patch_fixtures (FixtureManager.mk [] ∅) sample_cfg
  = ((FixtureManager._patch_fixtures (FixtureManager.mk [] ∅) sample_cfg).1.1,
     [ValidDmxConfiguration], Ok tt).
Proof. by vm_compute. Qed.

Lemma sample_cfg_fields :
  Forall (fun item => LedStrip.fields_ok item.2) (declared_strips sample_cfg).
Proof.
  repeat constructor; simpl; unfold SACN_UNI_MAX, DMX_UNI_SIZE; lia.
Qed.

Lemma universe5_only_ok : batch_ok universe5_only.
Proof.
  intros u d Hd. unfold universe5_only in Hd.
  apply lookup_singleton_Some in Hd as [<- <-]. split; [done|].
  cbn [UniverseData.d_dmxData]. apply Forall_app. split.
  - repeat constructor; lia.
  - apply Forall_replicate. lia.
Qed.

Lemma two_strips_ok : table_ok two_strips.
Proof.
  split; [repeat constructor; by intros ?%elem_of_nil|].
  constructor; [|constructor]. split; simpl.
  - repeat (constructor;
              [unfold strip_ok, FixturePatch.end_channel; simpl;
               change (Fixture.profile_size Fixture.PX_RGB_8) with 3; lia|]).
    constructor.
  - left. by repeat constructor.
Qed.

Lemma three_pixels_fit : buffers_fit two_strips three_pixels.
Proof.
  split.
  - intros k Hk. exact Hk.
  - repeat constructor. intros _ _. eexists. split; [reflexivity|].
    simpl. lia.
Qed.

Lemma channels_lie_back_to_back_witness :
  Fixture.channels Fixture.PX_RGB_8 !! 1%nat = Some FixtureChannel.G8
  /\ exists offset,
       Fixture.channels_offset Fixture.PX_RGB_8 !! 1%nat = Some offset
       /\ offset = bytes_of (take 1 (Fixture.channels Fixture.PX_RGB_8)).
Proof.
  split; [reflexivity|].
  pose proof (channels_lie_back_to_back Fixture.PX_RGB_8 1 FixtureChannel.G8
                eq_refl) as Hthm.
  cbv zeta in Hthm. destruct Hthm as (offset & Hoff & Hsum & _).
  exists offset. split; [exact Hoff|exact Hsum].
Defined.

Lemma construction_succeeds_iff_clean_witness :
  valid_pixel_types sample_cfg
  /\ ((forall m, ~ violation sample_cfg m)
      <-> exists self',
            FixtureManager._patch_fixtures (FixtureManager.mk [] ∅) sample_cfg
            = (self', [ValidDmxConfiguration], Ok tt)).
Proof.
  assert (valid_pixel_types sample_cfg) as Hvalid by (repeat constructor).
  split; [exact Hvalid|].
  exact (proj1 (construction_succeeds_iff_clean (FixtureManager.mk [] ∅)
                  sample_cfg Hvalid)).
Defined.

Lemma by_output_index_built_witness :
  FixtureManager._patch_fixtures (FixtureManager.mk [] ∅) sample_cfg
  = ((FixtureManager._patch_fixtures (FixtureManager.mk [] ∅) sample_cfg).1.1,
     [ValidDmxConfiguration], Ok tt)
  /\ FixtureManager.get_fixtures_all
       (FixtureManager._patch_fixtures (FixtureManager.mk [] ∅) sample_cfg).1.1
     = (fun item => (pin_of item, output_queue item.2))
         <$> FullConfig.outputs sample_cfg.
Proof.
  split; [exact sample_cfg_built|].
  exact (proj1 (by_output_index_built _ _ _ _ sample_cfg_built)).
Defined.

Lemma by_output_and_universe_agree_witness :
  FixtureManager._patch_fixtures (FixtureManager.mk [] ∅) sample_cfg
  = ((FixtureManager._patch_fixtures (FixtureManager.mk [] ∅) sample_cfg).1.1,
     [ValidDmxConfiguration], Ok tt)
  /\ FixtureManager.get_fixtures_by_out_uni
       (FixtureManager._patch_fixtures (FixtureManager.mk [] ∅) sample_cfg).1.1
       gpio18 7
     ≡ₚ filter (fun p => FixturePatch.output p = gpio18)
          (FixtureManager.get_fixtures_by_uni
             (FixtureManager._patch_fixtures (FixtureManager.mk [] ∅)
                sample_cfg).1.1 7).
Proof.
  split; [exact sample_cfg_built|].
  exact (proj1 (by_output_and_universe_agree _ _ _ _ gpio18 7 sample_cfg_built)).
Defined.

Lemma built_strips_convert_witness :
  Forall (fun item => LedStrip.fields_ok item.2) (declared_strips sample_cfg)
  /\ exists info,
       FixturePatch.toPatchInfo
         (patch_of sample_pin Fixture.PX_RGB_8 0 (LedStrip.mk "second" 5 7 31))
       = Some info
       /\ FixturePatchInfo.label info = "second"%string.
Proof.
  split; [exact sample_cfg_fields|].
  destruct (built_strips_convert _ _ _ _
              (patch_of sample_pin Fixture.PX_RGB_8 0
                 (LedStrip.mk "second" 5 7 31))
              sample_cfg_built sample_cfg_fields)
    as (info & Hinfo & Hlabel & _).
  { left. exists gpio18. eexists. split; [by vm_compute|]. left. }
  exists info. split; [exact Hinfo|exact Hlabel].
Defined.

Lemma receive_keeps_manager_ok_witness :
  exists self',
    sACNmanager.receive sample_str sACNmanager.__init__ [first_arrival]
    = sACNmanager.Returns self'
    /\ manager_ok self'.
Proof.
  destruct (sACNmanager.receive sample_str sACNmanager.__init__ [first_arrival])
    as [self'|] eqn:Hrun; [|by vm_compute in Hrun].
  exists self'. split; [reflexivity|].
  exact (proj1 (receive_keeps_manager_ok sample_str [first_arrival] self' Hrun)).
Defined.

Lemma accepted_packet_is_reported_witness :
  DataPacket.dmxStartCode sample_packet = 0
  /\ exists self',
       sACNmanager._onPacketReceived sample_str sample_manager sample_packet
         23499 sACNmanager.quiet
       = sACNmanager.Returns self'
       /\ sACNmanager.getUniverseData sample_str self' 7
          = Ok (UniverseData.mk 7 100 "desk" (DataPacket.dmxData sample_packet)
                  (sample_str 23499)).
Proof.
  split; [reflexivity|].
  destruct (sACNmanager._onPacketReceived sample_str sample_manager
              sample_packet 23499 sACNmanager.quiet)
    as [self'|] eqn:Hrun; [|by vm_compute in Hrun].
  exists self'. split; [reflexivity|].
  exact (proj1 (accepted_packet_is_reported sample_str sample_manager self'
                  sample_packet 23499 sACNmanager.quiet eq_refl Hrun)).
Defined.

Lemma one_universe_push_rate_witness :
  0 <= 1000
  /\ exists self' q,
       sACNmanager.receive sample_str sACNmanager.__init__ [first_arrival]
       = sACNmanager.Returns self'
       /\ sACNmanager.sacnShareQueue self' = Some q
       /\ 22500 * (Z.of_nat (length (Queue.items q)) - 1) <= 1000 - 0.
Proof.
  split; [lia|].
  destruct (sACNmanager.receive sample_str sACNmanager.__init__ [first_arrival])
    as [self'|] eqn:Hrun; [|by vm_compute in Hrun].
  destruct (one_universe_push_rate sample_str 7 0 1000 [first_arrival] self')
    as (q & Hq & Hrate); [lia| |exact Hrun|].
  - repeat constructor; simpl; lia.
  - exists self', q. split; [reflexivity|]. split; [exact Hq|exact Hrate].
Defined.

Lemma iteration_transmits_one_frame_per_line_witness :
  Worker.state
    (Worker.iteration two_strips
       (Worker.mk three_pixels false [] Worker.Running) universe5_only)
  = Worker.Running
  /\ PyDict.keys
       (Worker.pixelBuffers
          (Worker.iteration two_strips
             (Worker.mk three_pixels false [] Worker.Running) universe5_only))
     = [gpio18].
Proof.
  assert (Worker.state
            (Worker.iteration two_strips
               (Worker.mk three_pixels false [] Worker.Running) universe5_only)
          = Worker.Running) as Hrun by (by vm_compute).
  split; [exact Hrun|].
  exact (proj1 (iteration_transmits_one_frame_per_line two_strips
                  (Worker.mk three_pixels false [] Worker.Running)
                  universe5_only gpio18 Hrun)).
Defined.


Lemma unsupported_line_is_left_alone_witness :
  FixturePatch.pixel_type rgbw_strip <> Fixture.PX_RGB_8
  /\ Worker.render_output (UniverseData.fromDict <$> universe5_only)
       three_pixels (gpio18, [rgbw_strip; sample_patch])
     = Ok three_pixels.
Proof.
  assert (FixturePatch.pixel_type rgbw_strip <> Fixture.PX_RGB_8) as Hty
    by discriminate.
  split; [exact Hty|].
  exact (unsupported_line_is_left_alone _ three_pixels gpio18 rgbw_strip
           [sample_patch] Hty).
Defined.

Lemma makePixelBuffers_allocation_witness :
  NoDup (PyDict.keys two_strips)
  /\ Worker.unpatched_outputs two_strips
       (GpioManager._makePixelBuffers two_strips).1 = []
  /\ PyDict.get (GpioManager._makePixelBuffers two_strips).1 gpio18
     = Some (Pi5PixelBuffer.mk "RGB" (blackout_frame 3) []).
Proof.
  assert (NoDup (PyDict.keys two_strips)) as Hnodup by apply two_strips_ok.
  split; [exact Hnodup|].
  split; [exact (proj1 (makePixelBuffers_allocation two_strips Hnodup))|].
  reflexivity.
Defined.

Lemma worker_on_allocated_buffers_survives_witness :
  table_ok two_strips
  /\ Forall event_ok [Worker.Batch universe5_only; Worker.SIGTERM]
  /\ (Worker.state
        (Worker.processSacnToGPIO two_strips
           (GpioManager._makePixelBuffers two_strips).1 true
           [Worker.Batch universe5_only; Worker.SIGTERM]) = Worker.Running
      \/ Worker.state
           (Worker.processSacnToGPIO two_strips
              (GpioManager._makePixelBuffers two_strips).1 true
              [Worker.Batch universe5_only; Worker.SIGTERM]) = Worker.Exited 0).
Proof.
  assert (Forall event_ok [Worker.Batch universe5_only; Worker.SIGTERM])
    as Hevents.
  { constructor; [exact universe5_only_ok|]. by constructor. }
  split; [exact two_strips_ok|]. split; [exact Hevents|].
  exact (worker_on_allocated_buffers_survives two_strips _ two_strips_ok
           Hevents).
Defined.

Lemma configured_worker_survives_witness :
  Forall (fun item => LedStrip.fields_ok item.2) (declared_strips sample_cfg)
  /\ Forall event_ok [Worker.Batch universe5_only; Worker.SIGTERM]
  /\ table_ok
       (FixtureManager.get_fixtures_all
          (FixtureManager._patch_fixtures (FixtureManager.mk [] ∅)
             sample_cfg).1.1).
Proof.
  assert (Forall event_ok [Worker.Batch universe5_only; Worker.SIGTERM])
    as Hevents.
  { constructor; [exact universe5_only_ok|]. by constructor. }
  split; [exact sample_cfg_fields|]. split; [exact Hevents|].
  exact (proj1 (configured_worker_survives _ _ _ _ _ sample_cfg_built
                  sample_cfg_fields Hevents)).
Defined.

Lemma iteration_renders_every_line_witness :
  table_ok two_strips
  /\ batch_ok universe5_only
  /\ buffers_fit two_strips three_pixels
  /\ PyDict.get
       (Worker.pixelBuffers
          (Worker.iteration two_strips
             (Worker.mk three_pixels false [] Worker.Running) universe5_only))
       gpio18
     = Some (Pi5PixelBuffer.mk "RGB" [[255; 128; 0]; [0; 0; 0]; [0; 0; 0]]
               [[[255; 128; 0]; [0; 0; 0]; [0; 0; 0]]]).
Proof.
  split; [exact two_strips_ok|]. split; [exact universe5_only_ok|].
  split; [exact three_pixels_fit|].
  refine (eq_trans
            (proj2 (iteration_renders_every_line two_strips
                      (Worker.mk three_pixels false [] Worker.Running)
                      universe5_only gpio18 _ _ two_strips_ok universe5_only_ok
                      three_pixels_fit eq_refl eq_refl _)) _).
  - repeat constructor.
  - by vm_compute.
Defined.

Lemma render_pixel_writes_checked_values_witness :
  exists L',
    Worker.render_pixel gpio18 sample_patch (DataPacket.dmxData sample_packet)
      sample_locals 0 = Ok L'
    /\ Worker.offsetInQueue L' = 1%nat.
Proof.
  destruct (Worker.render_pixel gpio18 sample_patch
              (DataPacket.dmxData sample_packet) sample_locals 0)
    as [L'|e] eqn:Hrun; [|by vm_compute in Hrun].
  exists L'. split; [reflexivity|].
  destruct (render_pixel_writes_checked_values gpio18 sample_patch
              (DataPacket.dmxData sample_packet) sample_locals L' 0 Hrun)
    as (buf & value & _ & _ & _ & Hoff & _).
  exact Hoff.
Defined.
